(** * louis-log: the log-record pipeline of [src/index.ts]

    A shallow embedding of the [Logger] class (the version that owns
    [logBuffer] and [webhookBuffer]): value conversion, text rendering,
    the batched file sink, the webhook sink with its asynchronous
    callbacks, construction and shutdown.  The older class of the same
    file, which only prints, is embedded in [Legacy].

    Conventions.
    - External collaborators are kept opaque: [dateFormat] (the dateformat
      package), [toISOString] (Date.prototype.toJSON), the clock read by
      [new Date()] and the file system asked by [fs.mkdirSync] are section
      variables.  The colour decorator [this.colours[level]] is kept as the
      level carried by a [Stdout] event.
    - The [Date] that [new Date()] returns is its epoch-millisecond number,
      a [Z].
    - Every observable effect (console, file system, HTTP, process) is
      appended to the [trace] of the state, in program order.
    - [fs.mkdirSync] throws when the directory is missing and cannot be
      created; the streams opened by [fs.createWriteStream] report their
      failures later, outside the call, and are taken as issued.
    - Methods of the class call one another recursively through
      [this.error] and [this.fatalRate].  The recursion is cut by the depth
      of the JS call stack, counted in activations of [sendLog]: a call of
      [sendLog] with no stack left raises (RangeError) and the exception
      travels up to the nearest [try]/[catch].  The calls a body makes
      besides [sendLog] (the console, the file system, [JSON.stringify]) are
      taken to find the room they need; where the engine runs out of stack
      inside one of them, the counts of records stated here are in this
      unit and not in the engine's. *)

From Stdlib Require Import List String Ascii ZArith Lia Bool Arith.
From Stdlib Require Import DecimalString.
Import ListNotations.
Local Open Scope string_scope.
Local Open Scope Z_scope.

Set Implicit Arguments.
Set Warnings "-register-all".

(** ** Levels *)

(** Modelled from the spec: the declaration of [Types.LogLevel] (the types
    module that goes with this version of the class is not part of the
    sources); the level names are the keys of [colours] and the literals
    passed by the print methods. *)
Inductive LogLevel : Type :=
  | FATAL | FATALRATE | ERROR | WARN | SUCCESS | INFO | DEBUG.

Definition LogLevel_eqb (a b : LogLevel) : bool :=
  match a, b with
  | FATAL, FATAL | FATALRATE, FATALRATE | ERROR, ERROR | WARN, WARN
  | SUCCESS, SUCCESS | INFO, INFO | DEBUG, DEBUG => true
  | _, _ => false
  end.

Definition levelName (l : LogLevel) : string :=
  match l with
  | FATAL => "FATAL" | FATALRATE => "FATALRATE" | ERROR => "ERROR"
  | WARN => "WARN" | SUCCESS => "SUCCESS" | INFO => "INFO" | DEBUG => "DEBUG"
  end.

(** [Array.prototype.includes] on a list of levels. *)
Definition includes (ls : list LogLevel) (l : LogLevel) : bool :=
  existsb (LogLevel_eqb l) ls.

(** ** JavaScript values *)

Definition decimal (n : Z) : string := NilZero.string_of_int (Z.to_int n).

(** A Number.  The logger asks one thing of a number, its text (through
    [toString] or through [JSON.stringify]), so a finite number is given by
    the text that Number::toString makes of it, such as 1, 0.5 or 1e+21;
    the three values that are not finite are kept apart because JSON writes
    them null. *)
Inductive Number : Type :=
  | Finite (text : string)
  | NaN
  | PositiveInfinity
  | NegativeInfinity.

(** The Number of an integer that JS holds exactly (up to 2^53 in size):
    its text is the decimal notation. *)
Definition integer (n : Z) : Number := Finite (decimal n).
Coercion integer : Z >-> Number.

Definition Number_toString (n : Number) : string :=
  match n with
  | Finite text => text
  | NaN => "NaN"
  | PositiveInfinity => "Infinity"
  | NegativeInfinity => "-Infinity"
  end.

(** The values a caller can pass as [message] or [data]: the primitives,
    and the objects made of data alone.  An object lists its own enumerable
    string-keyed properties in order; a [Date] is given by the text of its
    [toISOString], or by nothing when it is invalid; [JCircular] stands,
    inside an array or an object, for a reference back to an array or
    object that holds it.  Objects that run code of their own while they are
    converted (an accessor property, a [toJSON] method, a proxy) are not
    values of this type. *)
Inductive JsValue : Type :=
  | JUndefined
  | JNull
  | JBool (b : bool)
  | JNumber (n : Number)
  | JBigInt (n : Z)
  | JString (s : string)
  | JSymbol (description : string)
  | JFunction (source : string)
  | JDate (iso : option string)
  | JCircular
  | JArray (items : list JsValue)
  | JObject (props : list (string * JsValue)).

(** [typeof v] *)
Definition typeof (v : JsValue) : string :=
  match v with
  | JUndefined => "undefined"
  | JNull => "object"
  | JBool _ => "boolean"
  | JNumber _ => "number"
  | JBigInt _ => "bigint"
  | JString _ => "string"
  | JSymbol _ => "symbol"
  | JFunction _ => "function"
  | JDate _ => "object"
  | JCircular => "object"
  | JArray _ => "object"
  | JObject _ => "object"
  end.

(** [v == undefined] (loose equality: true of [undefined] and [null] only) *)
Definition looseEqUndefined (v : JsValue) : bool :=
  match v with
  | JUndefined | JNull => true
  | _ => false
  end.

(** [v.toString()] for the primitive types that [handleLogDatatype] sends
    there; a string is its own [toString]. *)
Definition toString (v : JsValue) : string :=
  match v with
  | JBool true => "true"
  | JBool false => "false"
  | JNumber n => Number_toString n
  | JBigInt n => decimal n
  | JSymbol d => "Symbol(" ++ d ++ ")"
  | JFunction src => src
  | JString s => s
  | _ => ""
  end.

(** ** JSON.stringify *)

Definition hexDigit (n : N) : ascii :=
  match n with
  | 0%N => "0"%char | 1%N => "1"%char | 2%N => "2"%char | 3%N => "3"%char
  | 4%N => "4"%char | 5%N => "5"%char | 6%N => "6"%char | 7%N => "7"%char
  | 8%N => "8"%char | 9%N => "9"%char | 10%N => "a"%char | 11%N => "b"%char
  | 12%N => "c"%char | 13%N => "d"%char | 14%N => "e"%char | _ => "f"%char
  end.

Definition dquote : string := String (ascii_of_N 34) "".
Definition newline : string := String (ascii_of_N 10) "".

(** One character of QuoteJSONString: the two-character escapes, [\u00XX]
    for the other control characters, everything else unchanged. *)
Definition quoteChar (c : ascii) : string :=
  let n := N_of_ascii c in
  if (n =? 34)%N then "\" ++ dquote
  else if (n =? 92)%N then "\\"
  else if (n =? 8)%N then "\b"
  else if (n =? 12)%N then "\f"
  else if (n =? 10)%N then "\n"
  else if (n =? 13)%N then "\r"
  else if (n =? 9)%N then "\t"
  else if (n <? 32)%N then
    "\u00" ++ String (hexDigit (n / 16)) (String (hexDigit (n mod 16)) "")
  else String c "".

Fixpoint quoteBody (s : string) : string :=
  match s with
  | EmptyString => ""
  | String c r => quoteChar c ++ quoteBody r
  end.

Definition QuoteJSONString (s : string) : string :=
  dquote ++ quoteBody s ++ dquote.

Fixpoint join (sep : string) (parts : list string) : string :=
  match parts with
  | [] => ""
  | [p] => p
  | p :: rest => p ++ sep ++ join sep rest
  end.

(** Result of SerializeJSONProperty: a TypeError ([SerThrows], raised for a
    BigInt and for a circular structure), the value [undefined]
    ([SerUndefined], for values JSON leaves out), or text. *)
Inductive Serialized : Type :=
  | SerThrows
  | SerUndefined
  | SerText (s : string).

(** The element loop of SerializeJSONArray and the property loop of
    SerializeJSONObject, for the serialiser [ser] of the nested values: an
    element that is left out by JSON is written null, a property that is
    left out is skipped, and a throw ends the loop. *)
Fixpoint serializeElements (ser : JsValue -> Serialized) (items : list JsValue)
  : option (list string) :=
  match items with
  | [] => Some []
  | x :: rest =>
      match ser x with
      | SerThrows => None
      | SerUndefined => option_map (cons "null") (serializeElements ser rest)
      | SerText s => option_map (cons s) (serializeElements ser rest)
      end
  end.

Fixpoint serializeMembers (ser : JsValue -> Serialized) (colon : string)
    (props : list (string * JsValue)) : option (list string) :=
  match props with
  | [] => Some []
  | (k, x) :: rest =>
      match ser x with
      | SerThrows => None
      | SerUndefined => serializeMembers ser colon rest
      | SerText s =>
          option_map (cons (QuoteJSONString k ++ colon ++ s))
                     (serializeMembers ser colon rest)
      end
  end.

(** The brackets around the serialised parts, compact for an empty [gap]. *)
Definition wrapParts (opening closing gap stepback indent : string)
    (partial : list string) : string :=
  match partial with
  | [] => opening ++ closing
  | _ =>
      if String.eqb gap "" then opening ++ join "," partial ++ closing
      else
        let separator := "," ++ newline ++ indent in
        opening ++ newline ++ indent ++ join separator partial
                ++ newline ++ stepback ++ closing
  end.

(** SerializeJSONProperty / SerializeJSONObject / SerializeJSONArray of
    ECMA-262, for a [gap] (the indentation unit) and the current [indent]. *)
Fixpoint SerializeJSONProperty (gap indent : string) (v : JsValue) : Serialized :=
  match v with
  | JUndefined | JSymbol _ | JFunction _ => SerUndefined
  | JNull => SerText "null"
  | JBool true => SerText "true"
  | JBool false => SerText "false"
  | JNumber (Finite text) => SerText text
  | JNumber _ => SerText "null"
  | JBigInt _ => SerThrows
  | JString s => SerText (QuoteJSONString s)
  | JDate (Some iso) => SerText (QuoteJSONString iso)
  | JDate None => SerText "null"
  | JCircular => SerThrows
  | JArray items =>
      let stepback := indent in
      let indent := indent ++ gap in
      match serializeElements (SerializeJSONProperty gap indent) items with
      | None => SerThrows
      | Some partial => SerText (wrapParts "[" "]" gap stepback indent partial)
      end
  | JObject props =>
      let stepback := indent in
      let indent := indent ++ gap in
      match serializeMembers (SerializeJSONProperty gap indent)
                             (if String.eqb gap "" then ":" else ": ") props with
      | None => SerThrows
      | Some partial => SerText (wrapParts "{" "}" gap stepback indent partial)
      end
  end.

(** [JSON.stringify(v)] and [JSON.stringify(v, null, 4)] *)
Definition JSON_stringify (v : JsValue) : Serialized :=
  SerializeJSONProperty "" "" v.

Definition JSON_stringify4 (v : JsValue) : Serialized :=
  SerializeJSONProperty "    " "" v.


(** ** Settings *)

(** Modelled from the spec: the settings types of [Types] (missing with the
    types module), with the fields [defaultSettings] lists.  The first value
    of [splitBy] is the one the source spells as the words don't split. *)
Inductive SplitBy : Type :=
  | DontSplit | Year | Month | Day | Hour | Minute | Second.

Inductive Stratagy : Type := Single | Batch.

Inductive WebhookForm : Type := FormNone | Discord.

Record LogFormatSettings : Type := {
  stdoutEnable : bool;
  mainProgram : bool;
  subProgram : bool;
  date : bool;
  dateformat : string;
  level : bool;
  show_ignoreLevels : list LogLevel
}.

Record LogStorageSettings : Type := {
  path : string;
  json : bool;
  txt : bool;
  splitBy : SplitBy;
  stratagy : Stratagy;
  batch : Z;
  storage_ignoreLevels : list LogLevel
}.

Record LogWebhookSettings : Type := {
  enable : bool;
  url : option string;
  form : WebhookForm
}.

(** The fields of a [Logger] that are fixed once the constructor has merged
    the settings. *)
Record Logger : Type := {
  mainProcess : string;
  subProcess : string;
  formatSettings : LogFormatSettings;
  storageSettings : LogStorageSettings;
  webhookSettings : LogWebhookSettings
}.

(** ** Mutable state and effects *)

Record LogBufferItem : Type := { logTXT : string; logJSONString : string }.

Record WebhookBufferItem : Type := {
  title : string;
  description : string;
  footer : string
}.

(** Which [fetch] call issued a request: the one of [sendWebhook] or the one
    of [exit]; its callbacks differ. *)
Inductive Origin : Type := FromSendWebhook | FromExit.

(** The effects a logger has on its surroundings:
    - [Stdout lvl text] is [console.log(this.colours[lvl](text))];
    - [ConsoleLog args] is a plain [console.log(...args)];
    - [ConsoleError text] is [console.error(text, ...)], the values printed
      after the text (an exception, a response status) are left out;
    - [EnsureDir dir] is [if (!fs.existsSync(dir)) fs.mkdirSync(dir, { recursive: true })]
      when it completes: the directory was there or has been created;
    - [Append file content] is one [createWriteStream(file, { flags: "a" })]
      with its [write(content)] and [end()];
    - [HttpPost from url username embeds] is the POST of [fetch], whose body
      is serialised from the batch at the moment of the call;
    - [RegisterExitHooks] stands for the five [process.on] registrations;
    - [ExitTimer] is [setTimeout(() => process.exit(), 500)];
    - [ProcessExit code] is [process.exit(code)]. *)
Inductive Event : Type :=
  | Stdout (lvl : LogLevel) (text : string)
  | ConsoleLog (args : list JsValue)
  | ConsoleError (text : string)
  | EnsureDir (dir : string)
  | Append (file : string) (content : string)
  | HttpPost (from : Origin) (target username : string)
             (embeds : list WebhookBufferItem)
  | RegisterExitHooks
  | ExitTimer
  | ProcessExit (code : Z).

Record State : Type := {
  logBuffer : list LogBufferItem;
  webhookBuffer : list WebhookBufferItem;
  ticks : nat;
  trace : list Event
}.

Definition initialState : State :=
  {| logBuffer := []; webhookBuffer := []; ticks := 0%nat; trace := [] |}.

Definition setLogBuffer (b : list LogBufferItem) (st : State) : State :=
  {| logBuffer := b; webhookBuffer := webhookBuffer st;
     ticks := ticks st; trace := trace st |}.

Definition setWebhookBuffer (b : list WebhookBufferItem) (st : State) : State :=
  {| logBuffer := logBuffer st; webhookBuffer := b;
     ticks := ticks st; trace := trace st |}.

Definition emit (e : Event) (st : State) : State :=
  {| logBuffer := logBuffer st; webhookBuffer := webhookBuffer st;
     ticks := ticks st; trace := trace st ++ [e] |}.

Definition tick (st : State) : State :=
  {| logBuffer := logBuffer st; webhookBuffer := webhookBuffer st;
     ticks := S (ticks st); trace := trace st |}.

(** A call either returns a value or throws; the state reached is kept in
    both cases, effects are not rolled back by an exception. *)
Inductive Outcome (A : Type) : Type :=
  | Returned (a : A) (st : State)
  | Thrown (st : State).
Arguments Thrown {A} st.

(** Methods run in the state-and-exception monad [M]. *)
Definition M (A : Type) : Type := State -> Outcome A.

Definition ret {A : Type} (a : A) : M A := fun st => Returned a st.

Definition bind {A B : Type} (m : M A) (k : A -> M B) : M B :=
  fun st =>
    match m st with
    | Returned a st' => k a st'
    | Thrown st' => Thrown st'
    end.

Definition throw {A : Type} : M A := fun st => Thrown st.

(** [try { m } catch { handler }] *)
Definition tryCatch {A : Type} (m : M A) (handler : M A) : M A :=
  fun st =>
    match m st with
    | Returned a st' => Returned a st'
    | Thrown st' => handler st'
    end.

Definition gets {A : Type} (f : State -> A) : M A := fun st => Returned (f st) st.

Definition modify (f : State -> State) : M unit := fun st => Returned tt (f st).

Definition when (b : bool) (m : M unit) : M unit := if b then m else ret tt.

Notation "x <- m ;; k" := (bind m (fun x => k))
  (at level 61, m at next level, right associativity).
Notation "m ;; k" := (bind m (fun _ => k))
  (at level 61, right associativity).

Definition finalState {A : Type} (m : Outcome A) : State :=
  match m with
  | Returned _ st => st
  | Thrown st => st
  end.

Definition returned {A : Type} (m : Outcome A) : bool :=
  match m with
  | Returned _ _ => true
  | Thrown _ => false
  end.

(** ** The methods of [Logger] *)

Section Pipeline.

(** [dateFormat(date, mask)] of the dateformat package, [date.toJSON()], the
    instants successive [new Date()] expressions read, and the file system:
    [mkdirSync n dir] tells whether, once [n] instants have been read, the
    directory [dir] is there or can be created. *)
Variable dateFormat : Z -> string -> string.
Variable toISOString : Z -> string.
Variable clock : nat -> Z.
Variable mkdirSync : nat -> string -> bool.

(** [new Date()] *)
Definition newDate : M Z :=
  fun st => Returned (clock (ticks st)) (tick st).

(** [if (!fs.existsSync(dir)) fs.mkdirSync(dir, { recursive: true })]: when
    the directory is missing and cannot be created, [mkdirSync] throws. *)
Definition ensureDir (dirLocation : string) : M unit :=
  fun st =>
    if mkdirSync (ticks st) dirLocation
    then Returned tt (emit (EnsureDir dirLocation) st)
    else Thrown st.

Section Methods.

(** [this.error] and [this.fatalRate] as seen from inside a method body:
    both enter [sendLog] one stack frame further down. *)
Variable error : JsValue -> JsValue -> M unit.
Variable fatalRate : JsValue -> JsValue -> M unit.
Variable this : Logger.

Definition formTxtLog (formattedDate logMessage : string) (logLevel : LogLevel)
    (logDataString : string) : string :=
  let show := formatSettings this in
  let outMessage := "" in
  let outMessage := outMessage ++ (if date show then "[" ++ formattedDate ++ "] " else "") in
  let outMessage := outMessage ++ (if mainProgram show || subProgram show then "<" else "") in
  let outMessage := outMessage ++ (if mainProgram show then mainProcess this else "") in
  let outMessage := outMessage ++ (if mainProgram show && subProgram show then "." else "") in
  let outMessage := outMessage ++ (if subProgram show then subProcess this else "") in
  let outMessage := outMessage ++ (if mainProgram show || subProgram show then "> " else "") in
  let outMessage := outMessage ++ (if level show then "[" ++ levelName logLevel ++ "] " else "") in
  let outMessage := outMessage ++ logMessage in
  let outMessage :=
    outMessage ++ (if negb (String.eqb logDataString "")
                   then newline ++ "Log Data:" ++ newline ++ logDataString else "") in
  outMessage.

(** [typeof] has no result beyond those tested, so the last two lines (the
    report of a datatype error) are never reached; they are kept as the
    source has them.  An array or an object never serialises to
    [undefined] (lemma [object_never_undefined]); that case reads as the
    text JS makes of [undefined] in a concatenation. *)
Definition handleLogDatatype (logData : JsValue) : M string :=
  if looseEqUndefined logData then ret ""
  else
    let dataType := typeof logData in
    if String.eqb dataType "string" then ret (toString logData)
    else if existsb (String.eqb dataType)
              ["bigint"; "boolean"; "number"; "symbol"; "function"]
    then ret (toString logData)
    else if String.eqb dataType "object" then
      match JSON_stringify4 logData with
      | SerText s => ret s
      | SerUndefined => ret "undefined"
      | SerThrows =>
          error (JString "Datatype of object is not json")
                (JObject [("dataType", JString dataType); ("data", logData)]) ;;
          ret ""
      end
    else
      error (JString "Datatype Error")
            (JObject [("dataType", JString dataType); ("data", logData)]) ;;
      ret "Datatype error".

(** [generatePaths] returns [{ dirLocation, logLocation }], here as a pair.
    [splitBy] is a closed type, so the [default] branch of the [switch],
    which reports an invalid value, has no counterpart. *)
Definition generatePaths (currentTime : Z) : string * string :=
  let logLocation := "" in
  let dirLocation := path (storageSettings this) in
  match splitBy (storageSettings this) with
  | DontSplit =>
      let dirLocation := dirLocation ++ "/" in
      let logLocation := logLocation ++ dirLocation ++ "logs." in
      (dirLocation, logLocation)
  | Year =>
      let dirLocation := dirLocation ++ "/" in
      let logLocation := logLocation ++ dateFormat currentTime "yyyy" ++ "." in
      (dirLocation, logLocation)
  | Month =>
      let dirLocation := dirLocation ++ "/" ++ dateFormat currentTime "yyyy" ++ "/" in
      let logLocation := logLocation ++ dirLocation ++ dateFormat currentTime "mm" ++ "." in
      (dirLocation, logLocation)
  | Day =>
      let dirLocation := dirLocation ++ "/" ++ dateFormat currentTime "yyyy/mm" ++ "/" in
      let logLocation := logLocation ++ dirLocation ++ dateFormat currentTime "dd" ++ "." in
      (dirLocation, logLocation)
  | Hour =>
      let dirLocation := dirLocation ++ "/" ++ dateFormat currentTime "yyyy/mm/dd" ++ "/" in
      let logLocation := logLocation ++ dirLocation ++ dateFormat currentTime "HH" ++ "." in
      (dirLocation, logLocation)
  | Minute =>
      let dirLocation := dirLocation ++ "/" ++ dateFormat currentTime "yyyy/mm/dd/HH" ++ "/" in
      let logLocation := logLocation ++ dirLocation ++ dateFormat currentTime "MM" ++ "." in
      (dirLocation, logLocation)
  | Second =>
      let dirLocation := dirLocation ++ "/" ++ dateFormat currentTime "yyyy/mm/dd/HH/MM" ++ "/" in
      let logLocation := logLocation ++ dirLocation ++ dateFormat currentTime "ss" ++ "." in
      (dirLocation, logLocation)
  end.

(** The [for] loop of [extractBuffer]: [count] rounds of [shift]. *)
Fixpoint unpackLoop (count : nat) (txtUnpacked jsonUnpacked : string)
  : M (string * string) :=
  match count with
  | O => ret (txtUnpacked, jsonUnpacked)
  | S count' =>
      buffer <- gets logBuffer ;;
      match buffer with
      | [] =>
          error (JString "Log buffer item is empty whilst trying to read from it")
                JUndefined ;;
          unpackLoop count' txtUnpacked jsonUnpacked
      | logItem :: rest =>
          modify (setLogBuffer rest) ;;
          unpackLoop count' (txtUnpacked ++ logTXT logItem ++ newline)
                            (jsonUnpacked ++ logJSONString logItem ++ newline)
      end
  end.

(** [createWriteStream(file, { flags: "a" })], [write], [end] is one
    [Append].  A throw of [mkdirSync] leaves before the loop, with the
    buffer as it was. *)
Definition extractBuffer (currentTime : Z) : M unit :=
  let (dirLocation, logLocation) := generatePaths currentTime in
  ensureDir dirLocation ;;
  bufferLength <- gets (fun st => List.length (logBuffer st)) ;;
  unpacked <- unpackLoop bufferLength "" "" ;;
  let (txtUnpacked, jsonUnpacked) := unpacked in
  when (txt (storageSettings this))
       (modify (emit (Append (logLocation ++ "txt.log") txtUnpacked))) ;;
  when (json (storageSettings this))
       (modify (emit (Append (logLocation ++ "json.log") jsonUnpacked))).

Definition logJSON (currentTime : Z) (formattedDate logMessageString : string)
    (logLevel : LogLevel) (logDataString : string) : JsValue :=
  JObject [ ("date", JString (toISOString currentTime));
            ("formattedDate", JString formattedDate);
            ("mainProcess", JString (mainProcess this));
            ("subProcess", JString (subProcess this));
            ("logLevel", JString (levelName logLevel));
            ("logMessage", JString logMessageString);
            ("logData", JString logDataString) ].

(** [JSON.stringify(logJSON)] cannot throw on a record of strings (lemma
    [logJSON_serialises]); the [catch] block is kept as the source has it. *)
Definition logToFile (currentTime : Z) (formattedDate logMessageString : string)
    (logLevel : LogLevel) (logDataString logTxt : string) : M unit :=
  let logJSON := logJSON currentTime formattedDate logMessageString logLevel logDataString in
  logJSONString <-
    match JSON_stringify logJSON with
    | SerText s => ret s
    | SerUndefined => ret "undefined"
    | SerThrows =>
        error (JString "Error converting logJSON to string")
              (JObject [("error", JObject []); ("data", logJSON)]) ;;
        ret ""
    end ;;
  let storage := storageSettings this in
  if match stratagy storage with Batch => true | Single => false end
     && (1 <? batch storage)
  then
    modify (fun st =>
      setLogBuffer (logBuffer st ++ [{| logTXT := logTxt; logJSONString := logJSONString |}])%list st) ;;
    bufferLength <- gets (fun st => List.length (logBuffer st)) ;;
    when (batch storage <=? Z.of_nat bufferLength) (extractBuffer currentTime)
  else
    let (dirLocation, logLocation) := generatePaths currentTime in
    ensureDir dirLocation ;;
    when (txt storage)
         (modify (emit (Append (logLocation ++ "txt.log") (logTxt ++ newline)))) ;;
    when (json storage)
         (modify (emit (Append (logLocation ++ "json.log") (logJSONString ++ newline)))).

(** The embed item built by [sendWebhook] (its [color] is always [null]). *)
Definition newEmbed (formattedDate logMessageString : string) (logLevel : LogLevel)
    (logDataString : string) : WebhookBufferItem :=
  {| title := "<" ++ mainProcess this ++ "." ++ subProcess this ++ "> ["
              ++ levelName logLevel ++ "] " ++ logMessageString;
     description :=
       if negb (String.eqb logDataString "")
       then "```json" ++ newline
            ++ (if (4000 <? String.length logDataString)%nat
                then "The data provided is too long for an embed. Check file based or stdout based logs."
                else logDataString)
            ++ newline ++ "```"
       else "";
     footer := formattedDate |}.

Definition sendWebhook (currentTime : Z) (formattedDate logMessageString : string)
    (logLevel : LogLevel) (logDataString logTxt : string) : M unit :=
  if LogLevel_eqb logLevel FATALRATE then ret tt
  else
    match url (webhookSettings this) with
    | None => ret tt
    | Some target =>
        match form (webhookSettings this) with
        | FormNone =>
            error (JString "Currently only discord webhooks have been implemented")
                  JUndefined
        | Discord =>
            let newEmbed := newEmbed formattedDate logMessageString logLevel logDataString in
            modify (fun st => setWebhookBuffer (webhookBuffer st ++ [newEmbed])%list st) ;;
            size <- gets (fun st => List.length (webhookBuffer st)) ;;
            if (8 <? size)%nat then
              fatalRate (JString "Webhook Buffer too large to send in one message!")
                        (JNumber (Z.of_nat size)) ;;
              modify (setWebhookBuffer [])
            else if (size =? 8)%nat then
              embeds <- gets webhookBuffer ;;
              modify (emit (HttpPost FromSendWebhook target
                              (mainProcess this ++ "." ++ subProcess this) embeds)) ;;
              modify (setWebhookBuffer [])
            else ret tt
        end
    end.

(** The body of [sendLog], one stack frame below its caller. *)
Definition sendLogBody (logLevel : LogLevel) (logMessage logData : JsValue) : M unit :=
  tryCatch
    (currentTime <- newDate ;;
     let formattedDate := dateFormat currentTime (dateformat (formatSettings this)) in
     logMessageString <- handleLogDatatype logMessage ;;
     logDataString <- handleLogDatatype logData ;;
     let txtLog := formTxtLog formattedDate logMessageString logLevel logDataString in
     when (stdoutEnable (formatSettings this)
           && negb (includes (show_ignoreLevels (formatSettings this)) logLevel))
          (modify (emit (Stdout logLevel txtLog))) ;;
     when ((json (storageSettings this) || txt (storageSettings this))
           && negb (includes (storage_ignoreLevels (storageSettings this)) logLevel))
          (logToFile currentTime formattedDate logMessageString logLevel logDataString txtLog) ;;
     when (enable (webhookSettings this))
          (sendWebhook currentTime formattedDate logMessageString logLevel logDataString txtLog))
    (modify (emit (ConsoleError "There was an issue logging data"))).

End Methods.

(** [sendLog] with [stack] frames left: with none the call itself raises,
    otherwise the body runs with one frame less for the calls it makes. *)
Fixpoint sendLog (stack : nat) (this : Logger) (logLevel : LogLevel)
    (logMessage logData : JsValue) : M unit :=
  match stack with
  | O => throw
  | S depth =>
      sendLogBody (sendLog depth this ERROR) (sendLog depth this FATALRATE)
                  this logLevel logMessage logData
  end.

(** Print methods *)
Definition fatal (stack : nat) (this : Logger) (message data : JsValue) : M unit :=
  sendLog stack this FATAL message data.

Definition fatalRate (stack : nat) (this : Logger) (message data : JsValue) : M unit :=
  sendLog stack this FATALRATE message data.

Definition error (stack : nat) (this : Logger) (message data : JsValue) : M unit :=
  sendLog stack this ERROR message data.

Definition warn (stack : nat) (this : Logger) (message data : JsValue) : M unit :=
  sendLog stack this WARN message data.

Definition success (stack : nat) (this : Logger) (message data : JsValue) : M unit :=
  sendLog stack this SUCCESS message data.

Definition info (stack : nat) (this : Logger) (message data : JsValue) : M unit :=
  sendLog stack this INFO message data.

Definition debug (stack : nat) (this : Logger) (message data : JsValue) : M unit :=
  sendLog stack this DEBUG message data.

(** *** Settling of a [fetch] *)

(** How a request ends: a response with its status, or a transport error
    carrying the rejection value. *)
Inductive FetchResult : Type :=
  | Response (status : Z) (statusText : string)
  | NetworkError (err : JsValue).

(** The [.then(...).catch(...)] chain attached by [sendWebhook]; it runs
    later, from the event loop, with a fresh stack.  A throw of the first
    callback is routed to the second. *)
Definition sendWebhook_settled (stack : nat) (this : Logger) (r : FetchResult) : M unit :=
  let onRejected (err : JsValue) :=
    fatalRate stack this (JString "Webhook failed to send") (JObject [("error", err)]) in
  match r with
  | Response status statusText =>
      tryCatch
        (when (negb (status =? 204))
              (fatalRate stack this (JString "Unexpected response from webhook")
                 (JObject [("status", JNumber status); ("message", JString statusText)])) ;;
         modify (setWebhookBuffer []))
        (onRejected (JObject []))
  | NetworkError err => onRejected err
  end.

(** *** Shutdown *)

(** What follows the [await] of [exit]. *)
Definition exit_resume : M unit := modify (emit ExitTimer).

(** [exit(reason)] up to its [await]; when no request is issued the function
    runs to its end at once.  The [try] around the [await] guards a
    synchronous throw of [fetch] or of the serialisation of the body, which
    a batch of strings cannot cause; a failed request is a rejection and
    goes to the [.catch] callback of [exit_settled]. *)
Definition exit (stack : nat) (this : Logger) (reason : JsValue) : M unit :=
  modify (emit (ConsoleLog [JString "Shutting down gracefully with reason: "; reason])) ;;
  when (match stratagy (storageSettings this) with Batch => true | Single => false end)
       (size <- gets (fun st => List.length (logBuffer st)) ;;
        modify (emit (ConsoleLog [JString "Clearing file buffer, length:";
                                  JNumber (Z.of_nat size)])) ;;
        tryCatch
          (currentTime <- newDate ;;
           extractBuffer (error stack this) this currentTime)
          (modify (emit (ConsoleError "There was an issue clearing the log buffer")))) ;;
  embeds <- gets webhookBuffer ;;
  match url (webhookSettings this) with
  | Some target =>
      if (0 <? List.length embeds)%nat then
        modify (emit (ConsoleLog [JString "Sending last discord message, length: ";
                                  JNumber (Z.of_nat (List.length embeds))])) ;;
        modify (emit (HttpPost FromExit target
                        (mainProcess this ++ "." ++ subProcess this) embeds))
      else exit_resume
  | None => exit_resume
  end.

(** The callbacks attached by [exit], then the rest of [exit]. *)
Definition exit_settled (r : FetchResult) : M unit :=
  match r with
  | Response status statusText =>
      when (negb (status =? 204))
           (modify (emit (ConsoleError "Unexpected response from webhook"))) ;;
      modify (setWebhookBuffer []) ;;
      modify (emit (ConsoleLog [JString "ready to shutdown"]))
  | NetworkError err =>
      modify (emit (ConsoleError "Webhook failed to send"))
  end ;;
  exit_resume.

(** *** Construction *)

(** [defaultSettings]; [dev] is [process.env.ENVIRONMENT == "DEV"]. *)
Definition defaultShow (dev : bool) : LogFormatSettings :=
  {| stdoutEnable := true; mainProgram := true; subProgram := true; date := true;
     dateformat := "yyyy-mm-dd HH:MM:ss:l Z"; level := true;
     show_ignoreLevels := if dev then [] else [DEBUG] |}.

Definition defaultLogStorage (dev : bool) : LogStorageSettings :=
  {| path := "./logs"; json := true; txt := true; splitBy := Day;
     stratagy := Batch; batch := 6;
     storage_ignoreLevels := if dev then [] else [DEBUG] |}.

Definition defaultLogWebook : LogWebhookSettings :=
  {| enable := false; url := None; form := FormNone |}.

(** Modelled from the spec: [Types.CustomLoggerSettings] (missing with the
    types module): every group and every field may be left out. *)
Record CustomShow : Type := {
  custom_stdoutEnable : option bool;
  custom_mainProgram : option bool;
  custom_subProgram : option bool;
  custom_date : option bool;
  custom_dateformat : option string;
  custom_level : option bool;
  custom_show_ignoreLevels : option (list LogLevel)
}.

Record CustomLogStorage : Type := {
  custom_path : option string;
  custom_json : option bool;
  custom_txt : option bool;
  custom_splitBy : option SplitBy;
  custom_stratagy : option Stratagy;
  custom_batch : option Z;
  custom_storage_ignoreLevels : option (list LogLevel)
}.

Record CustomLogWebook : Type := {
  custom_enable : option bool;
  custom_url : option string;
  custom_form : option WebhookForm
}.

Record CustomLoggerSettings : Type := {
  show : option CustomShow;
  logStorage : option CustomLogStorage;
  logWebook : option CustomLogWebook
}.

(** One key of [{ ...defaults, ...user }] *)
Definition spread {A : Type} (default : A) (user : option A) : A :=
  match user with
  | Some v => v
  | None => default
  end.

Definition mergeShow (d : LogFormatSettings) (u : option CustomShow) : LogFormatSettings :=
  match u with
  | None => d
  | Some u =>
      {| stdoutEnable := spread (stdoutEnable d) (custom_stdoutEnable u);
         mainProgram := spread (mainProgram d) (custom_mainProgram u);
         subProgram := spread (subProgram d) (custom_subProgram u);
         date := spread (date d) (custom_date u);
         dateformat := spread (dateformat d) (custom_dateformat u);
         level := spread (level d) (custom_level u);
         show_ignoreLevels := spread (show_ignoreLevels d) (custom_show_ignoreLevels u) |}
  end.

Definition mergeLogStorage (d : LogStorageSettings) (u : option CustomLogStorage)
  : LogStorageSettings :=
  match u with
  | None => d
  | Some u =>
      {| path := spread (path d) (custom_path u);
         json := spread (json d) (custom_json u);
         txt := spread (txt d) (custom_txt u);
         splitBy := spread (splitBy d) (custom_splitBy u);
         stratagy := spread (stratagy d) (custom_stratagy u);
         batch := spread (batch d) (custom_batch u);
         storage_ignoreLevels :=
           spread (storage_ignoreLevels d) (custom_storage_ignoreLevels u) |}
  end.

Definition mergeLogWebook (d : LogWebhookSettings) (u : option CustomLogWebook)
  : LogWebhookSettings :=
  match u with
  | None => d
  | Some u =>
      {| enable := spread (enable d) (custom_enable u);
         url := match custom_url u with Some v => Some v | None => url d end;
         form := spread (form d) (custom_form u) |}
  end.

(** The settings objects as [JSON.stringify] sees them. *)
Definition levelsJs (ls : list LogLevel) : JsValue :=
  JArray (map (fun l => JString (levelName l)) ls).

Definition splitByName (s : SplitBy) : string :=
  match s with
  | DontSplit => "don't split" | Year => "year" | Month => "month" | Day => "day"
  | Hour => "hour" | Minute => "minute" | Second => "second"
  end.

Definition formatSettingsJs (f : LogFormatSettings) : JsValue :=
  JObject [ ("stdoutEnable", JBool (stdoutEnable f));
            ("mainProgram", JBool (mainProgram f));
            ("subProgram", JBool (subProgram f));
            ("date", JBool (date f));
            ("dateformat", JString (dateformat f));
            ("level", JBool (level f));
            ("ignoreLevels", levelsJs (show_ignoreLevels f)) ].

Definition storageSettingsJs (g : LogStorageSettings) : JsValue :=
  JObject [ ("path", JString (path g));
            ("json", JBool (json g));
            ("txt", JBool (txt g));
            ("splitBy", JString (splitByName (splitBy g)));
            ("stratagy", JString (match stratagy g with Batch => "batch" | Single => "single" end));
            ("batch", JNumber (batch g));
            ("ignoreLevels", levelsJs (storage_ignoreLevels g)) ].

Definition webhookSettingsJs (w : LogWebhookSettings) : JsValue :=
  JObject [ ("enable", JBool (enable w));
            ("url", match url w with Some u => JString u | None => JUndefined end);
            ("form", JString (match form w with Discord => "discord" | FormNone => "" end)) ].

(** [JSON.stringify(v, null, 4)] used in a string concatenation. *)
Definition stringify4 (v : JsValue) : M string :=
  match JSON_stringify4 v with
  | SerText s => ret s
  | SerUndefined => ret "undefined"
  | SerThrows => throw
  end.

(** [process.exit(code)]: nothing of the caller runs afterwards. *)
Definition processExit {A : Type} (code : Z) : M A :=
  fun st => Thrown (emit (ProcessExit code) st).

(** The fields the constructor assigns: the process tags and, per group,
    [{ ...defaultSettings.group, ...userSettings.group }]. *)
Definition mergeSettings (dev : bool) (mainProcess subProcess : string)
    (userSettings : CustomLoggerSettings) : Logger :=
  {| mainProcess := mainProcess;
     subProcess := subProcess;
     formatSettings := mergeShow (defaultShow dev) (show userSettings);
     storageSettings := mergeLogStorage (defaultLogStorage dev) (logStorage userSettings);
     webhookSettings := mergeLogWebook defaultLogWebook (logWebook userSettings) |}.

(** [new Logger(mainProcess, subProcess, userSettings)].  The assignments of
    the first four [try] blocks cannot throw; the result is the logger with
    its merged settings. *)
Definition constructor (dev : bool) (stack : nat) (mainProcess subProcess : string)
    (userSettings : CustomLoggerSettings) : M Logger :=
  let this := mergeSettings dev mainProcess subProcess userSettings in
  tryCatch
    (success stack this (JString "Initialised Logger") JUndefined ;;
     shown <- stringify4 (formatSettingsJs (formatSettings this)) ;;
     debug stack this (JString ("Settings:" ++ newline ++ shown)) JUndefined ;;
     stored <- stringify4 (storageSettingsJs (storageSettings this)) ;;
     debug stack this (JString (newline ++ stored)) JUndefined ;;
     hooked <- stringify4 (webhookSettingsJs (webhookSettings this)) ;;
     debug stack this (JString (newline ++ hooked ++ newline)) JUndefined)
    (modify (emit (ConsoleError "There was an issue with logging settings")) ;;
     processExit 1) ;;
  modify (emit RegisterExitHooks) ;;
  ret this.

End Pipeline.

(** * The older class of the same file *)

(** The first [Logger] class of [src/index.ts] (the named export): it only
    prints.  Its [handleLogDatatype] and [formTxtLog] are, line for line,
    those of the class above and are reused; its [sendLog] has no
    [try]/[catch], no file sink and no webhook sink.  Its [logToFile] is
    called by nothing and its [exit] only closes writers that [logToFile]
    alone could have opened; both are left out, as is its constructor, whose
    settings types are not part of the sources. *)
Module Legacy.

Section Pipeline.

Variable dateFormat : Z -> string -> string.
Variable clock : nat -> Z.

Definition sendLogBody (error : JsValue -> JsValue -> M unit) (this : Logger)
    (logLevel : LogLevel) (logMessage logData : JsValue) : M unit :=
  currentTime <- newDate clock ;;
  let formattedDate := dateFormat currentTime (dateformat (formatSettings this)) in
  logMessageString <- handleLogDatatype error logMessage ;;
  logDataString <- handleLogDatatype error logData ;;
  let txtLog := formTxtLog this formattedDate logMessageString logLevel logDataString in
  when (stdoutEnable (formatSettings this)
        && negb (includes (show_ignoreLevels (formatSettings this)) logLevel))
       (modify (emit (Stdout logLevel txtLog))).

Fixpoint sendLog (stack : nat) (this : Logger) (logLevel : LogLevel)
    (logMessage logData : JsValue) : M unit :=
  match stack with
  | O => throw
  | S depth => sendLogBody (sendLog depth this ERROR) this logLevel logMessage logData
  end.

Definition fatal (stack : nat) (this : Logger) (message data : JsValue) : M unit :=
  sendLog stack this FATAL message data.

Definition error (stack : nat) (this : Logger) (message data : JsValue) : M unit :=
  sendLog stack this ERROR message data.

Definition warn (stack : nat) (this : Logger) (message data : JsValue) : M unit :=
  sendLog stack this WARN message data.

Definition success (stack : nat) (this : Logger) (message data : JsValue) : M unit :=
  sendLog stack this SUCCESS message data.

Definition info (stack : nat) (this : Logger) (message data : JsValue) : M unit :=
  sendLog stack this INFO message data.

Definition debug (stack : nat) (this : Logger) (message data : JsValue) : M unit :=
  sendLog stack this DEBUG message data.

End Pipeline.

End Legacy.

(** * Specification-level definitions *)

Definition concatStrings (parts : list string) : string :=
  fold_right append "" parts.

(** ** Segments of the text line *)

(** The segments of a text line in the order the specification fixes. *)
Inductive Segment : Type :=
  | SegDate | SegOpen | SegMain | SegDot | SegSub | SegClose
  | SegLevel | SegMessage | SegData.

Definition segmentOrder : list Segment :=
  [SegDate; SegOpen; SegMain; SegDot; SegSub; SegClose; SegLevel; SegMessage; SegData].

Section TextLine.

Variable this : Logger.
Variables formattedDate logMessage : string.
Variable logLevel : LogLevel.
Variable logDataString : string.

(** The setting that enables each segment. *)
Definition segmentShown (s : Segment) : bool :=
  let show := formatSettings this in
  match s with
  | SegDate => date show
  | SegOpen | SegClose => mainProgram show || subProgram show
  | SegMain => mainProgram show
  | SegDot => mainProgram show && subProgram show
  | SegSub => subProgram show
  | SegLevel => level show
  | SegMessage => true
  | SegData => negb (String.eqb logDataString "")
  end.

Definition segmentText (s : Segment) : string :=
  match s with
  | SegDate => "[" ++ formattedDate ++ "] "
  | SegOpen => "<"
  | SegMain => mainProcess this
  | SegDot => "."
  | SegSub => subProcess this
  | SegClose => "> "
  | SegLevel => "[" ++ levelName logLevel ++ "] "
  | SegMessage => logMessage
  | SegData => newline ++ "Log Data:" ++ newline ++ logDataString
  end.

(** The line as the specification words it: the enabled segments, in the
    fixed order, one after the other. *)
Definition specTextLine : string :=
  concatStrings (map segmentText (filter segmentShown segmentOrder)).

End TextLine.

(** ** Conversion of values that serialise *)

(** What [handleLogDatatype] returns; on a value whose serialisation throws
    this is the empty string of the [catch] block. *)
Definition convert (v : JsValue) : string :=
  match v with
  | JUndefined | JNull => ""
  | JDate _ | JCircular | JArray _ | JObject _ =>
      match JSON_stringify4 v with
      | SerText s => s
      | SerUndefined => "undefined"
      | SerThrows => ""
      end
  | _ => toString v
  end.

(** The values whose conversion raises no internal record. *)
Definition clean (v : JsValue) : bool :=
  match v with
  | JDate _ | JCircular | JArray _ | JObject _ =>
      match JSON_stringify4 v with
      | SerThrows => false
      | _ => true
      end
  | _ => true
  end.




(** ** A sample environment *)

(** The formatter, the clock and the ISO rendering at the instant of the
    README example, 2024-06-20 17:39:05:514 GMT+0100. *)
Definition sampleMasks : list (string * string) :=
  [ ("yyyy", "2024"); ("mm", "06"); ("dd", "20"); ("HH", "17"); ("MM", "39");
    ("ss", "05"); ("yyyy/mm", "2024/06"); ("yyyy/mm/dd", "2024/06/20");
    ("yyyy/mm/dd/HH", "2024/06/20/17"); ("yyyy/mm/dd/HH/MM", "2024/06/20/17/39") ].

Fixpoint lookupMask (mask : string) (table : list (string * string)) : string :=
  match table with
  | [] => "2024-06-20 17:39:05:514 GMT+0100"
  | (m, text) :: rest => if String.eqb m mask then text else lookupMask mask rest
  end.

Definition sampleDateFormat (instant : Z) (mask : string) : string :=
  lookupMask mask sampleMasks.

Definition sampleISO (instant : Z) : string := "2024-06-20T16:39:05.514Z".

Definition sampleClock (reads : nat) : Z := 1718901545514.

(** A disk on which every directory can be created, and one on which none
    can. *)
Definition sampleDisk (reads : nat) (dir : string) : bool := true.

Definition fullDisk (reads : nat) (dir : string) : bool := false.

(** The logger of the repository's own test script, with the default
    settings outside DEV, and variants of its storage settings. *)
Definition sampleStorage (s : SplitBy) (g : Stratagy) (size : Z) : LogStorageSettings :=
  {| path := "./logs"; json := true; txt := true; splitBy := s;
     stratagy := g; batch := size; storage_ignoreLevels := [DEBUG] |}.

Definition sampleLoggerWith (storage : LogStorageSettings) (hook : LogWebhookSettings)
  : Logger :=
  {| mainProcess := "Testing"; subProcess := "testing even more";
     formatSettings := defaultShow false;
     storageSettings := storage;
     webhookSettings := hook |}.

Definition sampleLogger : Logger :=
  sampleLoggerWith (defaultLogStorage false) defaultLogWebook.

Definition sampleDiscord : LogWebhookSettings :=
  {| enable := true; url := Some "https://discord.example/api/webhooks/1"; form := Discord |}.


(** ** The file sink as a function of the state *)

Definition txtOf (buffer : list LogBufferItem) : string :=
  concatStrings (map (fun item => logTXT item ++ newline) buffer).

Definition jsonOf (buffer : list LogBufferItem) : string :=
  concatStrings (map (fun item => logJSONString item ++ newline) buffer).

(** The JSON line of a record: the seven members in declaration order. *)
Definition jsonLine (toISOString : Z -> string) (this : Logger) (currentTime : Z)
    (formattedDate logMessageString : string) (logLevel : LogLevel)
    (logDataString : string) : string :=
  "{" ++ join ","
    [ QuoteJSONString "date" ++ ":" ++ QuoteJSONString (toISOString currentTime);
      QuoteJSONString "formattedDate" ++ ":" ++ QuoteJSONString formattedDate;
      QuoteJSONString "mainProcess" ++ ":" ++ QuoteJSONString (mainProcess this);
      QuoteJSONString "subProcess" ++ ":" ++ QuoteJSONString (subProcess this);
      QuoteJSONString "logLevel" ++ ":" ++ QuoteJSONString (levelName logLevel);
      QuoteJSONString "logMessage" ++ ":" ++ QuoteJSONString logMessageString;
      QuoteJSONString "logData" ++ ":" ++ QuoteJSONString logDataString ]
  ++ "}".

(** The state a run of [extractBuffer] ends in when its directory is there
    or can be created. *)
Definition drained (dateFormat : Z -> string -> string) (this : Logger)
    (currentTime : Z) (st : State) : State :=
  let (dirLocation, logLocation) := generatePaths dateFormat this currentTime in
  let st1 := setLogBuffer [] (emit (EnsureDir dirLocation) st) in
  let st2 :=
    if txt (storageSettings this)
    then emit (Append (logLocation ++ "txt.log") (txtOf (logBuffer st))) st1
    else st1 in
  if json (storageSettings this)
  then emit (Append (logLocation ++ "json.log") (jsonOf (logBuffer st))) st2
  else st2.

Definition batching (this : Logger) : bool :=
  match stratagy (storageSettings this) with Batch => true | Single => false end
  && (1 <? batch (storageSettings this)).

(** What a run of [extractBuffer] comes to: the drain, or a throw that
    leaves the state as it was. *)
Definition extracted (dateFormat : Z -> string -> string)
    (mkdirSync : nat -> string -> bool) (this : Logger) (currentTime : Z) (st : State)
  : Outcome unit :=
  if mkdirSync (ticks st) (fst (generatePaths dateFormat this currentTime))
  then Returned tt (drained dateFormat this currentTime st)
  else Thrown st.

(** The state a run of [logToFile] ends in when it does not throw. *)
Definition submitted (dateFormat : Z -> string -> string) (toISOString : Z -> string)
    (this : Logger) (currentTime : Z) (formattedDate logMessageString : string)
    (logLevel : LogLevel) (logDataString logTxt : string) (st : State) : State :=
  let line :=
    jsonLine toISOString this currentTime formattedDate logMessageString logLevel
             logDataString in
  if batching this then
    let st1 :=
      setLogBuffer (logBuffer st ++ [{| logTXT := logTxt; logJSONString := line |}])%list st in
    if batch (storageSettings this) <=? Z.of_nat (List.length (logBuffer st1))
    then drained dateFormat this currentTime st1
    else st1
  else
    let (dirLocation, logLocation) := generatePaths dateFormat this currentTime in
    let st1 := emit (EnsureDir dirLocation) st in
    let st2 :=
      if txt (storageSettings this)
      then emit (Append (logLocation ++ "txt.log") (logTxt ++ newline)) st1
      else st1 in
    if json (storageSettings this)
    then emit (Append (logLocation ++ "json.log") (line ++ newline)) st2
    else st2.

(** Whether a call of [logToFile] goes to the disk: always outside batch
    mode, and in batch mode when the record brings the buffer to the batch
    size. *)
Definition reachesDisk (this : Logger) (st : State) : bool :=
  negb (batching this)
  || (batch (storageSettings this) <=? Z.of_nat (S (List.length (logBuffer st)))).

(** The state a throw of [mkdirSync] leaves [logToFile] in: in batch mode
    the record has joined the buffer, otherwise nothing has changed. *)
Definition kept (this : Logger) (item : LogBufferItem) (st : State) : State :=
  if batching this then setLogBuffer (logBuffer st ++ [item])%list st else st.

(** What a run of [logToFile] comes to. *)
Definition filed (dateFormat : Z -> string -> string) (toISOString : Z -> string)
    (mkdirSync : nat -> string -> bool) (this : Logger) (currentTime : Z)
    (formattedDate logMessageString : string) (logLevel : LogLevel)
    (logDataString logTxt : string) (st : State) : Outcome unit :=
  if reachesDisk this st
     && negb (mkdirSync (ticks st) (fst (generatePaths dateFormat this currentTime)))
  then
    Thrown
      (kept this
         {| logTXT := logTxt;
            logJSONString :=
              jsonLine toISOString this currentTime formattedDate logMessageString
                       logLevel logDataString |} st)
  else
    Returned tt
      (submitted dateFormat toISOString this currentTime formattedDate
                 logMessageString logLevel logDataString logTxt st).

(** A file system on which every directory is there or can be created. *)
Definition dependable (mkdirSync : nat -> string -> bool) : Prop :=
  forall (n : nat) (dir : string), mkdirSync n dir = true.

(** The file sink of a logger cannot throw: no format is enabled, so that
    it is never entered, or the file system is dependable. *)
Definition unfailing (mkdirSync : nat -> string -> bool) (this : Logger) : Prop :=
  json (storageSettings this) || txt (storageSettings this) = false
  \/ dependable mkdirSync.


(** ** Observations on a trace *)

(** [endsWith suffix s]: [s.endsWith(suffix)] *)
Fixpoint endsWith (suffix s : string) : bool :=
  if String.eqb s suffix then true
  else
    match s with
    | EmptyString => false
    | String _ rest => endsWith suffix rest
    end.

(** The contents appended, in order, to the files whose name ends in
    [extension]. *)
Fixpoint appended (extension : string) (events : list Event) : list string :=
  match events with
  | [] => []
  | Append file content :: rest =>
      if endsWith extension file then content :: appended extension rest
      else appended extension rest
  | _ :: rest => appended extension rest
  end.

(** Runs of [extractBuffer] or of the write-through branch: each begins by
    making sure of its directory, and nothing else does. *)
Fixpoint drains (events : list Event) : nat :=
  match events with
  | [] => 0%nat
  | EnsureDir _ :: rest => S (drains rest)
  | _ :: rest => drains rest
  end.

Fixpoint nonEmpty (contents : list string) : nat :=
  match contents with
  | [] => 0%nat
  | EmptyString :: rest => nonEmpty rest
  | String _ _ :: rest => S (nonEmpty rest)
  end.

(** The requests issued, in order. *)
Fixpoint posts (events : list Event) : list (Origin * list WebhookBufferItem) :=
  match events with
  | [] => []
  | HttpPost from _ _ embeds :: rest => (from, embeds) :: posts rest
  | _ :: rest => posts rest
  end.

(** The lines printed through the decorator of [lvl]. *)
Fixpoint stdoutAt (lvl : LogLevel) (events : list Event) : list string :=
  match events with
  | [] => []
  | Stdout l text :: rest =>
      if LogLevel_eqb l lvl then text :: stdoutAt lvl rest else stdoutAt lvl rest
  | _ :: rest => stdoutAt lvl rest
  end.

(** The file-system effects. *)
Fixpoint fileEvents (events : list Event) : list Event :=
  match events with
  | [] => []
  | EnsureDir d :: rest => EnsureDir d :: fileEvents rest
  | Append f c :: rest => Append f c :: fileEvents rest
  | _ :: rest => fileEvents rest
  end.

(** ** A sequence of submissions to the file sink *)

(** One call of [logToFile]: the instant, the rendered date, the converted
    message, the level, the converted data and the rendered text line. *)
Record Submission : Type := {
  sub_time : Z;
  sub_formattedDate : string;
  sub_message : string;
  sub_level : LogLevel;
  sub_data : string;
  sub_txt : string
}.

Section Submissions.

Variable dateFormat : Z -> string -> string.
Variable toISOString : Z -> string.
Variable mkdirSync : nat -> string -> bool.
Variable err : JsValue -> JsValue -> M unit.
Variable this : Logger.

Definition submit (s : Submission) : M unit :=
  logToFile dateFormat toISOString mkdirSync err this (sub_time s) (sub_formattedDate s)
            (sub_message s) (sub_level s) (sub_data s) (sub_txt s).

Fixpoint submitAll (subs : list Submission) : M unit :=
  match subs with
  | [] => ret tt
  | s :: rest => submit s ;; submitAll rest
  end.

(** The item [logToFile] makes of a submission for the buffer. *)
Definition bufferedItem (s : Submission) : LogBufferItem :=
  {| logTXT := sub_txt s;
     logJSONString :=
       jsonLine toISOString this (sub_time s) (sub_formattedDate s)
                (sub_message s) (sub_level s) (sub_data s) |}.

(** The rendered lines as submitted, newline-terminated, in FIFO order. *)
Definition submittedText (subs : list Submission) : string :=
  concatStrings (map (fun s => sub_txt s ++ newline) subs).

Definition submittedJson (subs : list Submission) : string :=
  concatStrings
    (map (fun s =>
            jsonLine toISOString this (sub_time s) (sub_formattedDate s)
                     (sub_message s) (sub_level s) (sub_data s) ++ newline) subs).

End Submissions.


(** ** Shutdown as a function of the state *)

(** The state after the webhook part of [exit]. *)
Definition exitWebhook (this : Logger) (st : State) : State :=
  match url (webhookSettings this) with
  | Some target =>
      if (0 <? List.length (webhookBuffer st))%nat then
        emit (HttpPost FromExit target (mainProcess this ++ "." ++ subProcess this)
                       (webhookBuffer st))
          (emit (ConsoleLog [JString "Sending last discord message, length: ";
                             JNumber (Z.of_nat (List.length (webhookBuffer st)))]) st)
      else emit ExitTimer st
  | None => emit ExitTimer st
  end.

(** The state after the file part of [exit]: the drain, or the report of
    the [catch] block when [mkdirSync] throws. *)
Definition exitFile (dateFormat : Z -> string -> string) (clock : nat -> Z)
    (mkdirSync : nat -> string -> bool) (this : Logger) (st : State) : State :=
  match stratagy (storageSettings this) with
  | Batch =>
      let st1 :=
        tick (emit (ConsoleLog [JString "Clearing file buffer, length:";
                                JNumber (Z.of_nat (List.length (logBuffer st)))]) st) in
      match extracted dateFormat mkdirSync this (clock (ticks st)) st1 with
      | Returned _ st2 => st2
      | Thrown st2 => emit (ConsoleError "There was an issue clearing the log buffer") st2
      end
  | Single => st
  end.

Definition exited (dateFormat : Z -> string -> string) (clock : nat -> Z)
    (mkdirSync : nat -> string -> bool) (this : Logger) (reason : JsValue) (st : State)
  : State :=
  exitWebhook this
    (exitFile dateFormat clock mkdirSync this
       (emit (ConsoleLog [JString "Shutting down gracefully with reason: "; reason]) st)).


(** The batch size as a count of records. *)
Definition batchSize (this : Logger) : nat := Z.to_nat (batch (storageSettings this)).


(** What a state has put on disk and what it still holds. *)
Definition textSoFar (st : State) : string :=
  concatStrings (appended "txt.log" (trace st)) ++ txtOf (logBuffer st).

Definition jsonSoFar (st : State) : string :=
  concatStrings (appended "json.log" (trace st)) ++ jsonOf (logBuffer st).

(** ** Sample submissions *)

Definition sampleSubmission (text : string) : Submission :=
  {| sub_time := sampleClock 0;
     sub_formattedDate := "2024-06-20 17:39:05:514 GMT+0100";
     sub_message := text; sub_level := INFO; sub_data := "";
     sub_txt := "[INFO] " ++ text |}.

Definition sampleBatchLogger (size : Z) : Logger :=
  sampleLoggerWith (sampleStorage DontSplit Batch size) defaultLogWebook.


(** ** Invariants of a computation *)

(** [m] keeps [P]: from a state where [P] holds it ends, returning or
    throwing, in a state where [P] holds. *)
Definition preserves {A : Type} (P : State -> Prop) (m : M A) : Prop :=
  forall st, P st -> P (finalState (m st)).

(** ** The sinks of [sendLog] *)

Definition consoleGuard (this : Logger) (logLevel : LogLevel) : bool :=
  stdoutEnable (formatSettings this)
  && negb (includes (show_ignoreLevels (formatSettings this)) logLevel).

Definition fileGuard (this : Logger) (logLevel : LogLevel) : bool :=
  (json (storageSettings this) || txt (storageSettings this))
  && negb (includes (storage_ignoreLevels (storageSettings this)) logLevel).

(** The three guarded statements that end the [try] block of [sendLog],
    for the converted message and data. *)
Definition sinks (dateFormat : Z -> string -> string) (toISOString : Z -> string)
    (mkdirSync : nat -> string -> bool)
    (err fatalRate : JsValue -> JsValue -> M unit) (this : Logger)
    (logLevel : LogLevel) (currentTime : Z) (logMessageString logDataString : string)
  : M unit :=
  let formattedDate := dateFormat currentTime (dateformat (formatSettings this)) in
  let txtLog := formTxtLog this formattedDate logMessageString logLevel logDataString in
  when (consoleGuard this logLevel) (modify (emit (Stdout logLevel txtLog))) ;;
  when (fileGuard this logLevel)
       (logToFile dateFormat toISOString mkdirSync err this currentTime formattedDate
                  logMessageString logLevel logDataString txtLog) ;;
  when (enable (webhookSettings this))
       (sendWebhook err fatalRate this currentTime formattedDate logMessageString
                    logLevel logDataString txtLog).

(** The webhook sink raises no internal record for this level in this
    state: it is off, or has no target, or the level is the internal one, or
    the provider is known and the batch has room. *)
Definition webhookQuiet (this : Logger) (logLevel : LogLevel) (st : State) : bool :=
  negb (enable (webhookSettings this))
  || LogLevel_eqb logLevel FATALRATE
  || match url (webhookSettings this) with None => true | Some _ => false end
  || (match form (webhookSettings this) with Discord => true | FormNone => false end
      && (List.length (webhookBuffer st) <? 8)%nat).


(** ** Events by kind *)

Definition isFileEvent (e : Event) : bool :=
  match e with
  | EnsureDir _ | Append _ _ => true
  | _ => false
  end.

Definition isPost (e : Event) : bool :=
  match e with
  | HttpPost _ _ _ _ => true
  | _ => false
  end.

(** ** Steps of a logger's life *)

(** What can happen to a logger, one event-loop task at a time: a print
    call, a shutdown call, or the settling of a request issued earlier. *)
Inductive Action : Type :=
  | Print (logLevel : LogLevel) (message data : JsValue)
  | Shutdown (reason : JsValue)
  | Settle (from : Origin) (result : FetchResult).

Section Runs.

Variable dateFormat : Z -> string -> string.
Variable toISOString : Z -> string.
Variable clock : nat -> Z.
Variable mkdirSync : nat -> string -> bool.
Variable stack : nat.
Variable this : Logger.

Definition perform (a : Action) : M unit :=
  match a with
  | Print logLevel message data =>
      sendLog dateFormat toISOString clock mkdirSync stack this logLevel message data
  | Shutdown reason => exit dateFormat toISOString clock mkdirSync stack this reason
  | Settle FromSendWebhook result =>
      sendWebhook_settled dateFormat toISOString clock mkdirSync stack this result
  | Settle FromExit result => exit_settled result
  end.

Fixpoint run (actions : list Action) (st : State) : State :=
  match actions with
  | [] => st
  | a :: rest => run rest (finalState (perform a st))
  end.

End Runs.

(** A request is well-sized when it carries at most 8 embeds, and exactly 8
    when [sendWebhook] issued it. *)
Definition wellSized (post : Origin * list WebhookBufferItem) : Prop :=
  (List.length (snd post) <= 8)%nat
  /\ (fst post = FromSendWebhook -> List.length (snd post) = 8%nat).

Definition batchBounded (st : State) : Prop :=
  (List.length (webhookBuffer st) <= 7)%nat /\ Forall wellSized (posts (trace st)).


(** A settling whose rejection value, if any, serialises. *)
Definition settlesCleanly (r : FetchResult) : bool :=
  match r with
  | Response _ _ => true
  | NetworkError err => clean (JObject [("error", err)])
  end.

(** ** Sample states *)

Definition sampleEmbed (text : string) : WebhookBufferItem :=
  {| title := "<Testing.testing even more> [INFO] " ++ text;
     description := "";
     footer := "2024-06-20 17:39:05:514 GMT+0100" |}.

Definition sampleDiscordLogger : Logger :=
  sampleLoggerWith (sampleStorage Day Single 1) sampleDiscord.

Definition stateWithBatch (embeds : list WebhookBufferItem) : State :=
  {| logBuffer := []; webhookBuffer := embeds; ticks := 0%nat; trace := [] |}.




Definition sevenEmbeds : list WebhookBufferItem :=
  map sampleEmbed ["1"; "2"; "3"; "4"; "5"; "6"; "7"].


(** ** Values that serialise *)

(** No BigInt and no circular reference anywhere in the value: the two
    things [JSON.stringify] throws on. *)
Fixpoint serialisable (v : JsValue) : bool :=
  match v with
  | JBigInt _ | JCircular => false
  | JArray items => forallb serialisable items
  | JObject props => forallb (fun kv => serialisable (snd kv)) props
  | _ => true
  end.

(** A computation that never throws. *)
Definition alwaysReturns {A : Type} (m : M A) : Prop :=
  forall st, returned (m st) = true.

(** The settings a caller passes to ask for batches of [size] records. *)
Definition batchRequest (size : Z) : CustomLoggerSettings :=
  {| show := None;
     logStorage :=
       Some {| custom_path := None; custom_json := None; custom_txt := None;
               custom_splitBy := None; custom_stratagy := Some Batch;
               custom_batch := Some size; custom_storage_ignoreLevels := None |};
     logWebook := None |}.

Definition isProcessExit (e : Event) : bool :=
  match e with
  | ProcessExit _ => true
  | _ => false
  end.


(** ** Values whose serialisation throws *)

(** The data of the ERROR record that [handleLogDatatype] raises for an
    object it cannot serialise: the object itself, wrapped. *)
Definition wrapData (v : JsValue) : JsValue :=
  JObject [("dataType", JString "object"); ("data", v)].

Definition isObject (v : JsValue) : bool :=
  match v with
  | JDate _ | JCircular | JArray _ | JObject _ => true
  | _ => false
  end.

Definition alwaysThrows (v : JsValue) : Prop :=
  forall gap indent, SerializeJSONProperty gap indent v = SerThrows.

(** An object holding a BigInt, as in [{ a: 1n }]. *)
Definition bigintObject : JsValue := JObject [("a", JBigInt 1)].


(** ** Further observations *)

(** Values whose conversion raises no record: everything but an object
    that holds a BigInt or a circular reference somewhere. *)
Definition convertible (v : JsValue) : bool := negb (isObject v) || serialisable v.

(** Number of line breaks in a text. *)
Fixpoint lineBreaks (s : string) : nat :=
  match s with
  | EmptyString => 0%nat
  | String c rest =>
      if (N_of_ascii c =? 10)%N then S (lineBreaks rest) else lineBreaks rest
  end.

(** Number of exit timers armed. *)
Fixpoint timers (events : list Event) : nat :=
  match events with
  | [] => 0%nat
  | ExitTimer :: rest => S (timers rest)
  | _ :: rest => timers rest
  end.

(** The webhook sink can never deliver: it is switched off, has no target,
    or has a provider other than discord. *)
Definition webhookInactive (this : Logger) : bool :=
  negb (enable (webhookSettings this))
  || match url (webhookSettings this) with None => true | Some _ => false end
  || match form (webhookSettings this) with FormNone => true | Discord => false end.

(** ** A sequence of submissions to the webhook sink *)

Section HookSubmissions.

Variable err fr : JsValue -> JsValue -> M unit.
Variable this : Logger.

Definition hook (s : Submission) : M unit :=
  sendWebhook err fr this (sub_time s) (sub_formattedDate s) (sub_message s)
              (sub_level s) (sub_data s) (sub_txt s).

Fixpoint hookAll (subs : list Submission) : M unit :=
  match subs with
  | [] => ret tt
  | s :: rest => hook s ;; hookAll rest
  end.

Definition embedOf (s : Submission) : WebhookBufferItem :=
  newEmbed this (sub_formattedDate s) (sub_message s) (sub_level s) (sub_data s).

End HookSubmissions.

(** The embeds of all requests, one request after the other. *)
Definition delivered (events : list Event) : list WebhookBufferItem :=
  List.concat (map snd (posts events)).


(** Submissions of any level but the internal one. *)
Definition allRegular (subs : list Submission) : bool :=
  forallb (fun s => negb (LogLevel_eqb (sub_level s) FATALRATE)) subs.


(** ** Embeds by level *)







(** Whether [exit] has something to send: a url and a batch that is not
    empty. *)
Definition exitSends (this : Logger) (st : State) : bool :=
  match url (webhookSettings this) with
  | Some _ => (0 <? List.length (webhookBuffer st))%nat
  | None => false
  end.


(** * Properties *)

Unset Implicit Arguments.

(** ** Strings *)

Lemma append_assoc (a b c : string) : (a ++ b) ++ c = a ++ (b ++ c).
Proof. induction a as [|ch a IH]; simpl; [reflexivity | now rewrite IH]. Qed.

Lemma append_nil_r (a : string) : a ++ "" = a.
Proof. induction a as [|ch a IH]; simpl; [reflexivity | now rewrite IH]. Qed.

Lemma concatStrings_app (xs ys : list string) :
  concatStrings (xs ++ ys)%list = concatStrings xs ++ concatStrings ys.
Proof.
  induction xs as [|x xs IH]; simpl; [reflexivity|].
  now rewrite IH, append_assoc.
Qed.

Lemma prefix_append (a b : string) : String.prefix a (a ++ b) = true.
Proof.
  induction a as [|c a IH]; [now destruct b|].
  cbn [append String.prefix]. destruct (ascii_dec c c); [exact IH | contradiction].
Qed.


(** C7: for every record and every format settings, [formTxtLog] is the
    concatenation, in the fixed order date, "<", mainProcess, ".",
    subProcess, "> ", "[LEVEL] ", message, data suffix, of exactly the
    segments whose setting enables them: the date segment with [date], "<"
    and "> " when a process name is shown, each name with its own flag, "."
    only when both names are shown, the level with [level], the message
    always and the data suffix exactly when the data string is not empty. *)
Theorem formTxtLog_segments_in_order :
  forall (this : Logger) (formattedDate logMessage : string) (logLevel : LogLevel)
         (logDataString : string),
    formTxtLog this formattedDate logMessage logLevel logDataString
    = specTextLine this formattedDate logMessage logLevel logDataString.
Proof.
  intros this fd msg lvl data.
  unfold formTxtLog, specTextLine, segmentOrder, segmentShown.
  cbn [filter].
  destruct (date (formatSettings this)), (mainProgram (formatSettings this)),
    (subProgram (formatSettings this)), (level (formatSettings this)),
    (String.eqb data "");
    cbn [orb andb negb map concatStrings fold_right segmentText];
    repeat rewrite append_assoc; repeat rewrite append_nil_r; reflexivity.
Qed.

(** ** Value conversion *)

Example stringify4_a1 :
  JSON_stringify4 (JObject [("a", JNumber 1)])
  = SerText ("{" ++ newline ++ "    " ++ dquote ++ "a" ++ dquote ++ ": 1" ++ newline ++ "}").
Proof. reflexivity. Qed.

Lemma handleLogDatatype_clean (err : JsValue -> JsValue -> M unit) (v : JsValue) :
  clean v = true -> handleLogDatatype err v = ret (convert v).
Proof.
  intros Hclean.
  destruct v as [ | | b | n | n | s | d | src | [iso|] | | items | props];
    try reflexivity; try discriminate Hclean.
  all: unfold handleLogDatatype, convert, clean in *; cbn [looseEqUndefined typeof];
    change (String.eqb "object" "string") with false;
    change (existsb (String.eqb "object")
              ["bigint"; "boolean"; "number"; "symbol"; "function"]) with false;
    change (String.eqb "object" "object") with true; cbv iota;
    match goal with
    | |- context [JSON_stringify4 ?v] => destruct (JSON_stringify4 v)
    end; [discriminate | reflexivity | reflexivity].
Qed.

Lemma object_never_undefined (gap indent : string) (v : JsValue) :
  typeof v = "object" -> SerializeJSONProperty gap indent v <> SerUndefined.
Proof.
  destruct v as [ | | b | n | n | s | d | src | [iso|] | | items | props];
    cbn [typeof SerializeJSONProperty]; intros Htype; try discriminate Htype;
    try discriminate.
  - destruct (serializeElements _ items); discriminate.
  - destruct (serializeMembers _ _ props); discriminate.
Qed.

(** Strings pass through, primitives go through [toString], and an object
    that serialises is its JSON text with four-space indentation. *)
Lemma handleLogDatatype_string (err : JsValue -> JsValue -> M unit) (s : string) (st : State) :
  handleLogDatatype err (JString s) st = Returned s st.
Proof. reflexivity. Qed.

Lemma handleLogDatatype_primitive (err : JsValue -> JsValue -> M unit) (v : JsValue) (st : State) :
  In (typeof v) ["bigint"; "boolean"; "number"; "symbol"; "function"] ->
  handleLogDatatype err v st = Returned (toString v) st.
Proof.
  destruct v; cbn [typeof In]; intros H;
    try reflexivity; exfalso; intuition discriminate.
Qed.

Lemma handleLogDatatype_object (err : JsValue -> JsValue -> M unit) (v : JsValue)
    (text : string) (st : State) :
  looseEqUndefined v = false ->
  typeof v = "object" -> JSON_stringify4 v = SerText text ->
  handleLogDatatype err v st = Returned text st.
Proof.
  intros Hdefined Htype Hser.
  destruct v; try discriminate.
  all: rewrite handleLogDatatype_clean by (unfold clean; now rewrite Hser);
    unfold convert; now rewrite Hser.
Qed.

Example handleLogDatatype_a1 (err : JsValue -> JsValue -> M unit) (st : State) :
  handleLogDatatype err (JObject [("a", JNumber 1)]) st
  = Returned ("{" ++ newline ++ "    " ++ dquote ++ "a" ++ dquote ++ ": 1" ++ newline ++ "}") st.
Proof. reflexivity. Qed.

(** ** Bucket paths *)

(** What [generatePaths] returns for each [splitBy]: the directory, and the
    location the file names are appended to. *)
Lemma generatePaths_table dateFormat (this : Logger) (t : Z) :
  generatePaths dateFormat this t =
  let base := path (storageSettings this) in
  match splitBy (storageSettings this) with
  | DontSplit => (base ++ "/", (base ++ "/") ++ "logs.")
  | Year => (base ++ "/", dateFormat t "yyyy" ++ ".")
  | Month =>
      (base ++ "/" ++ dateFormat t "yyyy" ++ "/",
       (base ++ "/" ++ dateFormat t "yyyy" ++ "/") ++ dateFormat t "mm" ++ ".")
  | Day =>
      (base ++ "/" ++ dateFormat t "yyyy/mm" ++ "/",
       (base ++ "/" ++ dateFormat t "yyyy/mm" ++ "/") ++ dateFormat t "dd" ++ ".")
  | Hour =>
      (base ++ "/" ++ dateFormat t "yyyy/mm/dd" ++ "/",
       (base ++ "/" ++ dateFormat t "yyyy/mm/dd" ++ "/") ++ dateFormat t "HH" ++ ".")
  | Minute =>
      (base ++ "/" ++ dateFormat t "yyyy/mm/dd/HH" ++ "/",
       (base ++ "/" ++ dateFormat t "yyyy/mm/dd/HH" ++ "/") ++ dateFormat t "MM" ++ ".")
  | Second =>
      (base ++ "/" ++ dateFormat t "yyyy/mm/dd/HH/MM" ++ "/",
       (base ++ "/" ++ dateFormat t "yyyy/mm/dd/HH/MM" ++ "/") ++ dateFormat t "ss" ++ ".")
  end.
Proof.
  unfold generatePaths.
  destruct (splitBy (storageSettings this)); cbn [append]; reflexivity.
Qed.

(** Every unit but the year prefixes the file location with the directory. *)
Lemma generatePaths_under_directory dateFormat (this : Logger) (t : Z) :
  splitBy (storageSettings this) <> Year ->
  exists stem,
    snd (generatePaths dateFormat this t)
    = fst (generatePaths dateFormat this t) ++ stem.
Proof.
  intros Hsplit. rewrite generatePaths_table.
  destruct (splitBy (storageSettings this)); cbn [fst snd];
    try (eexists; reflexivity).
  now elim Hsplit.
Qed.

(** C5 (code defect): with [splitBy] set to the year the file location is
    the bare stem: the directory is base/, but the two files are opened as
    2024.txt.log and 2024.json.log relative to the working directory, not
    under base/, whereas the specification's table puts them in base. *)
Theorem year_bucket_is_written_outside_base :
  let this := sampleLoggerWith (sampleStorage Year Single 1) defaultLogWebook in
  let t := sampleClock 0 in
  generatePaths sampleDateFormat this t = ("./logs/", "2024.")
  /\ (forall (err : JsValue -> JsValue -> M unit),
        trace (finalState
                 (logToFile sampleDateFormat sampleISO sampleDisk err this t
                    (sampleDateFormat t (dateformat (formatSettings this)))
                    "hello" INFO "" "line" initialState))
        = [ EnsureDir "./logs/";
            Append "2024.txt.log" ("line" ++ newline);
            Append "2024.json.log"
              ("{" ++ dquote ++ "date" ++ dquote ++ ":" ++ dquote ++ "2024-06-20T16:39:05.514Z" ++ dquote
               ++ "," ++ dquote ++ "formattedDate" ++ dquote ++ ":" ++ dquote
               ++ "2024-06-20 17:39:05:514 GMT+0100" ++ dquote
               ++ "," ++ dquote ++ "mainProcess" ++ dquote ++ ":" ++ dquote ++ "Testing" ++ dquote
               ++ "," ++ dquote ++ "subProcess" ++ dquote ++ ":" ++ dquote ++ "testing even more" ++ dquote
               ++ "," ++ dquote ++ "logLevel" ++ dquote ++ ":" ++ dquote ++ "INFO" ++ dquote
               ++ "," ++ dquote ++ "logMessage" ++ dquote ++ ":" ++ dquote ++ "hello" ++ dquote
               ++ "," ++ dquote ++ "logData" ++ dquote ++ ":" ++ dquote ++ dquote
               ++ "}" ++ newline) ])
  /\ String.prefix "./logs/" "2024.txt.log" = false.
Proof.
  cbv zeta. split; [reflexivity | split; [intros err; reflexivity | reflexivity]].
Qed.

(** ** The file sink *)

Lemma logJSON_serialises toISOString (this : Logger) (t : Z) (fd m : string)
    (lvl : LogLevel) (d : string) :
  JSON_stringify (logJSON toISOString this t fd m lvl d)
  = SerText (jsonLine toISOString this t fd m lvl d).
Proof. reflexivity. Qed.

Lemma setLogBuffer_same (st : State) : setLogBuffer (logBuffer st) st = st.
Proof. now destruct st. Qed.

(** The loop of [extractBuffer] empties the buffer it was sized for, in
    order, and never meets a missing item. *)
Lemma unpackLoop_all (err : JsValue -> JsValue -> M unit) :
  forall (buffer : list LogBufferItem) (st : State) (a b : string),
    logBuffer st = buffer ->
    unpackLoop err (List.length buffer) a b st
    = Returned (a ++ txtOf buffer, b ++ jsonOf buffer) (setLogBuffer [] st).
Proof.
  induction buffer as [|item rest IH]; intros st a b Hbuf.
  - cbn. unfold ret. rewrite !append_nil_r. rewrite <- Hbuf.
    now rewrite setLogBuffer_same.
  - cbn [List.length unpackLoop]. unfold bind at 1. unfold gets at 1.
    rewrite Hbuf. unfold bind at 1. unfold modify at 1.
    rewrite (IH (setLogBuffer rest st)) by reflexivity.
    unfold txtOf, jsonOf. cbn [map concatStrings fold_right].
    now rewrite !append_assoc.
Qed.

(** [extractBuffer] either drains, or throws at once and changes nothing. *)
Lemma extractBuffer_extracted dateFormat mkdirSync (err : JsValue -> JsValue -> M unit)
    (this : Logger) (t : Z) (st : State) :
  extractBuffer dateFormat mkdirSync err this t st
  = extracted dateFormat mkdirSync this t st.
Proof.
  unfold extractBuffer, extracted, drained.
  destruct (generatePaths dateFormat this t) as [dir loc]. cbn [fst].
  unfold bind at 1. unfold ensureDir at 1.
  destruct (mkdirSync (ticks st) dir); [|reflexivity].
  unfold bind at 1. unfold gets at 1.
  unfold bind at 1.
  rewrite (unpackLoop_all err (logBuffer (emit (EnsureDir dir) st))) by reflexivity.
  cbn [logBuffer emit].
  destruct (txt (storageSettings this)), (json (storageSettings this)); reflexivity.
Qed.

Lemma extractBuffer_drains dateFormat mkdirSync (err : JsValue -> JsValue -> M unit)
    (this : Logger) (t : Z) (st : State) :
  mkdirSync (ticks st) (fst (generatePaths dateFormat this t)) = true ->
  extractBuffer dateFormat mkdirSync err this t st
  = Returned tt (drained dateFormat this t st).
Proof.
  intros Hdir. rewrite extractBuffer_extracted. unfold extracted. now rewrite Hdir.
Qed.

(** [logToFile] either ends in the state [submitted], or throws: outside
    batch mode with nothing changed, in batch mode with the record in the
    buffer. *)
Lemma logToFile_filed dateFormat toISOString mkdirSync
    (err : JsValue -> JsValue -> M unit) (this : Logger) (t : Z) (fd m : string)
    (lvl : LogLevel) (d line : string) (st : State) :
  logToFile dateFormat toISOString mkdirSync err this t fd m lvl d line st
  = filed dateFormat toISOString mkdirSync this t fd m lvl d line st.
Proof.
  unfold logToFile, filed, submitted, reachesDisk, kept. rewrite logJSON_serialises.
  unfold bind at 1. unfold ret at 1. fold (batching this).
  destruct (batching this); cbn [negb orb].
  - unfold bind at 1. unfold modify at 1.
    unfold bind at 1. unfold gets at 1.
    cbn [logBuffer setLogBuffer]. rewrite length_app. cbn [List.length].
    rewrite Nat.add_1_r.
    match goal with |- context [ (?x <=? ?y) ] => destruct (x <=? y) end.
    + cbn [when andb]. rewrite extractBuffer_extracted. unfold extracted.
      cbn [ticks setLogBuffer].
      now destruct (mkdirSync (ticks st) (fst (generatePaths dateFormat this t))).
    + reflexivity.
  - destruct (generatePaths dateFormat this t) as [dir loc]. cbn [fst andb].
    unfold bind at 1. unfold ensureDir at 1.
    destruct (mkdirSync (ticks st) dir); [|reflexivity].
    destruct (txt (storageSettings this)), (json (storageSettings this)); reflexivity.
Qed.

Lemma filed_dependable dateFormat toISOString mkdirSync (this : Logger) (t : Z)
    (fd m : string) (lvl : LogLevel) (d line : string) (st : State) :
  mkdirSync (ticks st) (fst (generatePaths dateFormat this t)) = true ->
  filed dateFormat toISOString mkdirSync this t fd m lvl d line st
  = Returned tt (submitted dateFormat toISOString this t fd m lvl d line st).
Proof.
  intros Hdir. unfold filed. rewrite Hdir. now rewrite andb_false_r.
Qed.

Lemma logToFile_submits dateFormat toISOString mkdirSync (err : JsValue -> JsValue -> M unit)
    (this : Logger) (t : Z) (fd m : string) (lvl : LogLevel) (d line : string)
    (st : State) :
  mkdirSync (ticks st) (fst (generatePaths dateFormat this t)) = true ->
  logToFile dateFormat toISOString mkdirSync err this t fd m lvl d line st
  = Returned tt (submitted dateFormat toISOString this t fd m lvl d line st).
Proof.
  intros Hdir. rewrite logToFile_filed. now apply filed_dependable.
Qed.

(** *** Observations and appended events *)

Lemma string_length_append (a b : string) :
  String.length (a ++ b) = (String.length a + String.length b)%nat.
Proof. induction a as [|c a IH]; simpl; [reflexivity | now rewrite IH]. Qed.

Lemma endsWith_append (prefix suffix : string) : endsWith suffix (prefix ++ suffix) = true.
Proof.
  induction prefix as [|c p IH]; cbn [append].
  - destruct suffix; cbn [endsWith]; now rewrite String.eqb_refl.
  - cbn [endsWith]. rewrite IH. now destruct (String.eqb _ _).
Qed.

Lemma endsWith_longer (suffix tail prefix : string) :
  endsWith suffix tail = false ->
  (String.length suffix <= String.length tail)%nat ->
  endsWith suffix (prefix ++ tail) = false.
Proof.
  intros Hbase Hlen. induction prefix as [|c p IH]; cbn [append]; [assumption|].
  cbn [endsWith]. rewrite IH.
  destruct (String.eqb_spec (String c (p ++ tail)) suffix) as [Heq|]; [|reflexivity].
  exfalso. apply (f_equal String.length) in Heq.
  cbn [String.length] in Heq. rewrite string_length_append in Heq. lia.
Qed.

Lemma json_is_not_txt (location : string) :
  endsWith "txt.log" (location ++ "json.log") = false.
Proof. apply endsWith_longer; [reflexivity | cbn; lia]. Qed.

Lemma txt_is_not_json (location : string) :
  endsWith "json.log" (location ++ "txt.log") = false.
Proof.
  induction location as [|c p IH]; [reflexivity|].
  cbn [append endsWith]. rewrite IH.
  destruct (String.eqb_spec (String c (p ++ "txt.log")) "json.log") as [Heq|];
    [|reflexivity].
  exfalso. injection Heq as _ Heq.
  assert (Hlen := f_equal String.length Heq).
  rewrite string_length_append in Hlen. cbn in Hlen.
  destruct p; [discriminate Heq | cbn in Hlen; lia].
Qed.

Lemma appended_app (ext : string) (xs ys : list Event) :
  appended ext (xs ++ ys) = (appended ext xs ++ appended ext ys)%list.
Proof.
  induction xs as [|e xs IH]; [reflexivity|].
  destruct e; cbn [appended app]; try assumption.
  destruct (endsWith ext file); cbn [app]; now rewrite IH.
Qed.

Lemma drains_app (xs ys : list Event) :
  drains (xs ++ ys) = (drains xs + drains ys)%nat.
Proof.
  induction xs as [|e xs IH]; [reflexivity|].
  destruct e; cbn [drains app]; try assumption. now rewrite IH.
Qed.

Lemma nonEmpty_app (xs ys : list string) :
  nonEmpty (xs ++ ys) = (nonEmpty xs + nonEmpty ys)%nat.
Proof.
  induction xs as [|x xs IH]; [reflexivity|].
  destruct x; cbn [nonEmpty app]; [assumption | now rewrite IH].
Qed.

Lemma posts_app (xs ys : list Event) :
  posts (xs ++ ys) = (posts xs ++ posts ys)%list.
Proof.
  induction xs as [|e xs IH]; [reflexivity|].
  destruct e; cbn [posts app]; try assumption. now rewrite IH.
Qed.

Lemma stdoutAt_app (lvl : LogLevel) (xs ys : list Event) :
  stdoutAt lvl (xs ++ ys) = (stdoutAt lvl xs ++ stdoutAt lvl ys)%list.
Proof.
  induction xs as [|e xs IH]; [reflexivity|].
  destruct e; cbn [stdoutAt app]; try assumption.
  destruct (LogLevel_eqb lvl0 lvl); cbn [app]; now rewrite IH.
Qed.

Lemma fileEvents_app (xs ys : list Event) :
  fileEvents (xs ++ ys) = (fileEvents xs ++ fileEvents ys)%list.
Proof.
  induction xs as [|e xs IH]; [reflexivity|].
  destruct e; cbn [fileEvents app]; try assumption; now rewrite IH.
Qed.

Lemma posts_emit_other (e : Event) (st : State) :
  isPost e = false -> posts (trace (emit e st)) = posts (trace st).
Proof.
  intros He. cbn [trace emit]. rewrite posts_app.
  destruct e; try discriminate He; cbn [posts]; now rewrite app_nil_r.
Qed.

(** *** One drain *)

Lemma drained_trace dateFormat (this : Logger) (t : Z) (st : State) :
  trace (drained dateFormat this t st)
  = (trace st
     ++ [EnsureDir (fst (generatePaths dateFormat this t))]
     ++ (if txt (storageSettings this)
         then [Append (snd (generatePaths dateFormat this t) ++ "txt.log")
                      (txtOf (logBuffer st))]
         else [])
     ++ (if json (storageSettings this)
         then [Append (snd (generatePaths dateFormat this t) ++ "json.log")
                      (jsonOf (logBuffer st))]
         else []))%list.
Proof.
  unfold drained. destruct (generatePaths dateFormat this t) as [dir loc].
  destruct (txt (storageSettings this)), (json (storageSettings this));
    cbn [trace emit setLogBuffer fst snd]; rewrite <- ?app_assoc; reflexivity.
Qed.

Lemma drained_rest dateFormat (this : Logger) (t : Z) (st : State) :
  logBuffer (drained dateFormat this t st) = []
  /\ webhookBuffer (drained dateFormat this t st) = webhookBuffer st
  /\ ticks (drained dateFormat this t st) = ticks st.
Proof.
  unfold drained. destruct (generatePaths dateFormat this t) as [dir loc].
  destruct (txt (storageSettings this)), (json (storageSettings this));
    repeat split.
Qed.

Lemma drained_drains dateFormat (this : Logger) (t : Z) (st : State) :
  drains (trace (drained dateFormat this t st)) = S (drains (trace st)).
Proof.
  rewrite drained_trace, !drains_app.
  destruct (txt (storageSettings this)), (json (storageSettings this));
    cbn [drains]; lia.
Qed.

Lemma drained_txt dateFormat (this : Logger) (t : Z) (st : State) :
  appended "txt.log" (trace (drained dateFormat this t st))
  = (appended "txt.log" (trace st)
     ++ (if txt (storageSettings this) then [txtOf (logBuffer st)] else []))%list.
Proof.
  rewrite drained_trace, !appended_app.
  destruct (txt (storageSettings this)), (json (storageSettings this));
    cbn [appended]; rewrite ?endsWith_append, ?json_is_not_txt;
    cbn [app]; rewrite ?app_nil_r; reflexivity.
Qed.

Lemma drained_json dateFormat (this : Logger) (t : Z) (st : State) :
  appended "json.log" (trace (drained dateFormat this t st))
  = (appended "json.log" (trace st)
     ++ (if json (storageSettings this) then [jsonOf (logBuffer st)] else []))%list.
Proof.
  rewrite drained_trace, !appended_app.
  destruct (txt (storageSettings this)), (json (storageSettings this));
    cbn [appended]; rewrite ?endsWith_append, ?txt_is_not_json;
    cbn [app]; rewrite ?app_nil_r; reflexivity.
Qed.

(** *** Shutdown, file part *)

Lemma exit_exits dateFormat toISOString clock mkdirSync (stack : nat) (this : Logger)
    (reason : JsValue) (st : State) :
  exit dateFormat toISOString clock mkdirSync stack this reason st
  = Returned tt (exited dateFormat clock mkdirSync this reason st).
Proof.
  unfold exit, exited, exitFile, exitWebhook.
  unfold bind at 1. unfold modify at 1.
  unfold bind at 1.
  destruct (stratagy (storageSettings this)); cbn [when].
  - unfold ret at 1. unfold bind at 1. unfold gets at 1.
    destruct (url (webhookSettings this)) as [target|]; [|reflexivity].
    destruct (0 <? _)%nat; reflexivity.
  - unfold bind at 1. unfold gets at 1.
    unfold bind at 1. unfold modify at 1.
    unfold tryCatch, bind at 1. unfold newDate at 1.
    rewrite extractBuffer_extracted.
    cbn [ticks emit logBuffer].
    match goal with
    | |- context [extracted ?a ?b ?c ?d ?e] =>
        destruct (extracted a b c d e) as [[] st2|st2]
    end.
    + unfold bind at 1. unfold gets at 1.
      destruct (url (webhookSettings this)) as [target|]; [|reflexivity].
      destruct (0 <? _)%nat; reflexivity.
    + unfold modify at 1. unfold bind at 1. unfold gets at 1.
      cbn [webhookBuffer emit].
      destruct (url (webhookSettings this)) as [target|]; [|reflexivity].
      destruct (0 <? _)%nat; reflexivity.
Qed.

Lemma exitWebhook_files (this : Logger) (st : State) :
  logBuffer (exitWebhook this st) = logBuffer st
  /\ drains (trace (exitWebhook this st)) = drains (trace st)
  /\ (forall ext, appended ext (trace (exitWebhook this st)) = appended ext (trace st)).
Proof.
  unfold exitWebhook.
  destruct (url (webhookSettings this)) as [target|];
    [destruct (0 <? _)%nat|];
    cbn [logBuffer trace emit]; repeat split; intros;
    rewrite ?drains_app, ?appended_app; cbn [drains appended];
    rewrite ?app_nil_r, ?Nat.add_0_r; reflexivity.
Qed.

(** *** A run of the batched file sink *)

Lemma txtOf_snoc (buffer : list LogBufferItem) (item : LogBufferItem) :
  txtOf (buffer ++ [item]) = txtOf buffer ++ logTXT item ++ newline.
Proof.
  unfold txtOf. rewrite map_app, concatStrings_app.
  cbn [map concatStrings fold_right]. now rewrite append_nil_r.
Qed.

Lemma jsonOf_snoc (buffer : list LogBufferItem) (item : LogBufferItem) :
  jsonOf (buffer ++ [item]) = jsonOf buffer ++ logJSONString item ++ newline.
Proof.
  unfold jsonOf. rewrite map_app, concatStrings_app.
  cbn [map concatStrings fold_right]. now rewrite append_nil_r.
Qed.

Lemma nonEmpty_line (a b : string) : nonEmpty [a ++ b ++ newline] = 1%nat.
Proof.
  destruct a as [|c a]; [|reflexivity].
  destruct b as [|c b]; reflexivity.
Qed.

Lemma ceiling_div (n b : nat) :
  (0 < b)%nat ->
  ((n + b - 1) / b = n / b + (if (n mod b =? 0)%nat then 0 else 1))%nat.
Proof.
  intros Hb.
  pose proof (Nat.div_mod_eq n b) as Hn.
  pose proof (Nat.mod_upper_bound n b ltac:(lia)) as Hr.
  destruct (Nat.eqb_spec (n mod b) 0) as [Hz|Hnz].
  - symmetry. apply (Nat.div_unique _ _ _ (b - 1)); [lia | nia].
  - symmetry. apply (Nat.div_unique _ _ _ (n mod b - 1)); [lia | nia].
Qed.

Section BatchRun.

Variable dateFormat : Z -> string -> string.
Variable toISOString : Z -> string.
Variable mkdirSync : nat -> string -> bool.
Variable err : JsValue -> JsValue -> M unit.
Variable this : Logger.

Hypothesis Hbatch : stratagy (storageSettings this) = Batch.
Hypothesis Hsize : 1 < batch (storageSettings this).
Hypothesis Hdisk : dependable mkdirSync.

Lemma batching_on : batching this = true.
Proof.
  unfold batching. rewrite Hbatch. cbn [andb]. now apply Z.ltb_lt.
Qed.

Lemma batchSize_ge_2 : (2 <= batchSize this)%nat.
Proof. unfold batchSize. lia. Qed.

(** One submission on any file system: the record joins the buffer; when
    that brings the buffer to the batch size the buffer is drained, unless
    the directory cannot be made sure of, in which case the call throws and
    the buffer keeps every record. *)
Lemma submit_outcome (s : Submission) (st : State) :
  (List.length (logBuffer st) < batchSize this)%nat ->
  submit dateFormat toISOString mkdirSync err this s st
  = let item :=
      {| logTXT := sub_txt s;
         logJSONString :=
           jsonLine toISOString this (sub_time s) (sub_formattedDate s)
                    (sub_message s) (sub_level s) (sub_data s) |} in
    let st1 := setLogBuffer (logBuffer st ++ [item]) st in
    if (S (List.length (logBuffer st)) <? batchSize this)%nat then Returned tt st1
    else if mkdirSync (ticks st) (fst (generatePaths dateFormat this (sub_time s)))
         then Returned tt (drained dateFormat this (sub_time s) st1)
         else Thrown st1.
Proof.
  intros Hroom. unfold submit. rewrite logToFile_filed.
  unfold filed, reachesDisk, kept, submitted. rewrite batching_on. cbv zeta.
  cbn [negb orb logBuffer setLogBuffer]. rewrite length_app. cbn [List.length].
  rewrite Nat.add_1_r.
  unfold batchSize in *.
  destruct (Nat.ltb_spec (S (List.length (logBuffer st)))
              (Z.to_nat (batch (storageSettings this))));
    destruct (Z.leb_spec (batch (storageSettings this))
                (Z.of_nat (S (List.length (logBuffer st)))));
    try lia; cbn [andb]; try reflexivity.
  now destruct (mkdirSync (ticks st) (fst (generatePaths dateFormat this (sub_time s)))).
Qed.

(** One submission: the record joins the buffer, and the buffer is drained
    when that brings it to the batch size. *)
Lemma submit_batch (s : Submission) (st : State) :
  (List.length (logBuffer st) < batchSize this)%nat ->
  submit dateFormat toISOString mkdirSync err this s st
  = Returned tt
      (let item :=
         {| logTXT := sub_txt s;
            logJSONString :=
              jsonLine toISOString this (sub_time s) (sub_formattedDate s)
                       (sub_message s) (sub_level s) (sub_data s) |} in
       let st1 := setLogBuffer (logBuffer st ++ [item]) st in
       if (S (List.length (logBuffer st)) <? batchSize this)%nat then st1
       else drained dateFormat this (sub_time s) st1).
Proof.
  intros Hroom. rewrite (submit_outcome s st Hroom). cbv zeta.
  rewrite Hdisk. now destruct (_ <? _)%nat.
Qed.

Lemma submit_effect (s : Submission) (st : State) :
  (List.length (logBuffer st) < batchSize this)%nat ->
  let r := List.length (logBuffer st) in
  let st' := finalState (submit dateFormat toISOString mkdirSync err this s st) in
  submit dateFormat toISOString mkdirSync err this s st = Returned tt st'
  /\ List.length (logBuffer st') = (S r mod batchSize this)%nat
  /\ drains (trace st') = (drains (trace st) + S r / batchSize this)%nat
  /\ (txt (storageSettings this) = true ->
      textSoFar st' = textSoFar st ++ sub_txt s ++ newline
      /\ nonEmpty (appended "txt.log" (trace st'))
         = (nonEmpty (appended "txt.log" (trace st)) + S r / batchSize this)%nat)
  /\ (json (storageSettings this) = true ->
      jsonSoFar st' = jsonSoFar st
                      ++ jsonLine toISOString this (sub_time s) (sub_formattedDate s)
                                  (sub_message s) (sub_level s) (sub_data s) ++ newline
      /\ nonEmpty (appended "json.log" (trace st'))
         = (nonEmpty (appended "json.log" (trace st)) + S r / batchSize this)%nat).
Proof.
  intros Hroom r st'. subst st'. rewrite (submit_batch s st Hroom).
  cbv zeta. cbn [finalState]. fold r.
  pose proof batchSize_ge_2 as HB.
  destruct (Nat.ltb_spec (S r) (batchSize this)) as [Hlt|Hge].
  - rewrite Nat.mod_small, Nat.div_small by lia.
    unfold textSoFar, jsonSoFar. cbn [logBuffer trace setLogBuffer].
    rewrite length_app, txtOf_snoc, jsonOf_snoc. cbn [List.length logTXT logJSONString].
    split; [reflexivity | split; [lia | split; [lia | split]]];
      intros _; (split; [now rewrite ?append_assoc | lia]).
  - assert (Heq : S r = batchSize this) by (subst r; lia).
    rewrite Heq, Nat.Div0.mod_same, Nat.div_same by lia.
    unfold textSoFar, jsonSoFar.
    rewrite drained_txt, drained_json, drained_drains.
    destruct (drained_rest dateFormat this (sub_time s)
                (setLogBuffer (logBuffer st ++ [{| logTXT := sub_txt s;
                   logJSONString := jsonLine toISOString this (sub_time s)
                     (sub_formattedDate s) (sub_message s) (sub_level s) (sub_data s) |}]) st))
      as (-> & _ & _).
    cbn [logBuffer trace setLogBuffer List.length].
    rewrite txtOf_snoc, jsonOf_snoc. cbn [logTXT logJSONString].
    split; [reflexivity | split; [reflexivity | split; [lia | split]]].
    + intros ->. split.
      * rewrite concatStrings_app. cbn [concatStrings fold_right txtOf map].
        now rewrite !append_nil_r, ?append_assoc.
      * now rewrite nonEmpty_app, nonEmpty_line.
    + intros ->. split.
      * rewrite concatStrings_app. cbn [concatStrings fold_right jsonOf map].
        now rewrite !append_nil_r, ?append_assoc.
      * now rewrite nonEmpty_app, nonEmpty_line.
Qed.

Lemma submitAll_effect (subs : list Submission) :
  forall (st : State),
    (List.length (logBuffer st) < batchSize this)%nat ->
    let r := List.length (logBuffer st) in
    let n := List.length subs in
    let st' := finalState (submitAll dateFormat toISOString mkdirSync err this subs st) in
    submitAll dateFormat toISOString mkdirSync err this subs st = Returned tt st'
    /\ List.length (logBuffer st') = ((r + n) mod batchSize this)%nat
    /\ drains (trace st') = (drains (trace st) + (r + n) / batchSize this)%nat
    /\ (txt (storageSettings this) = true ->
        textSoFar st' = textSoFar st ++ submittedText subs
        /\ nonEmpty (appended "txt.log" (trace st'))
           = (nonEmpty (appended "txt.log" (trace st)) + (r + n) / batchSize this)%nat)
    /\ (json (storageSettings this) = true ->
        jsonSoFar st' = jsonSoFar st ++ submittedJson toISOString this subs
        /\ nonEmpty (appended "json.log" (trace st'))
           = (nonEmpty (appended "json.log" (trace st)) + (r + n) / batchSize this)%nat).
Proof.
  pose proof batchSize_ge_2 as HB.
  induction subs as [|s rest IH]; intros st Hroom r n st'.
  - subst st' r n. cbn [submitAll ret finalState List.length].
    rewrite Nat.add_0_r, Nat.mod_small, Nat.div_small by lia.
    unfold submittedText, submittedJson. cbn [map concatStrings fold_right].
    split; [reflexivity | split; [reflexivity | split; [lia | split]]];
      intros _; (split; [now rewrite ?append_nil_r | lia]).
  - subst st' r n. cbn [submitAll List.length].
    destruct (submit_effect s st Hroom) as (Hrun & Hlen & Hdr & Htxt & Hjson).
    set (st1 := finalState (submit dateFormat toISOString mkdirSync err this s st)) in *.
    assert (Hroom1 : (List.length (logBuffer st1) < batchSize this)%nat)
      by (rewrite Hlen; apply Nat.mod_upper_bound; lia).
    destruct (IH st1 Hroom1) as (Hrun' & Hlen' & Hdr' & Htxt' & Hjson').
    set (st2 := finalState (submitAll dateFormat toISOString mkdirSync err this rest st1)) in *.
    assert (Hall : (submit dateFormat toISOString mkdirSync err this s ;;
                    submitAll dateFormat toISOString mkdirSync err this rest) st
                   = Returned tt st2)
      by (unfold bind; rewrite Hrun; exact Hrun').
    rewrite Hall. cbn [finalState].
    set (r := List.length (logBuffer st)) in *.
    set (b := batchSize this) in *.
    assert (Hmod : ((S r mod b + List.length rest) mod b
                    = (r + S (List.length rest)) mod b)%nat).
    { rewrite Nat.Div0.add_mod_idemp_l. f_equal. lia. }
    assert (Hdiv : (S r / b + (S r mod b + List.length rest) / b
                    = (r + S (List.length rest)) / b)%nat).
    { replace (r + S (List.length rest))%nat
        with (S r / b * b + (S r mod b + List.length rest))%nat
        by (pose proof (Nat.div_mod_eq (S r) b); lia).
      rewrite Nat.div_add_l by lia. reflexivity. }
    rewrite Hlen in Hlen', Hdr', Htxt', Hjson'.
    split; [reflexivity | split; [|split; [|split]]].
    + now rewrite Hlen', Hmod.
    + rewrite Hdr', Hdr. lia.
    + intros H. destruct (Htxt' H) as [-> ->]. destruct (Htxt H) as [-> ->].
      split; [|lia].
      unfold submittedText. cbn [map concatStrings fold_right].
      now rewrite !append_assoc.
    + intros H. destruct (Hjson' H) as [-> ->]. destruct (Hjson H) as [-> ->].
      split; [|lia].
      unfold submittedJson. cbn [map concatStrings fold_right].
      now rewrite !append_assoc.
Qed.

End BatchRun.

Lemma nonEmpty_txtOf (buffer : list LogBufferItem) :
  nonEmpty [txtOf buffer] = if (List.length buffer =? 0)%nat then 0%nat else 1%nat.
Proof.
  destruct buffer as [|item rest]; [reflexivity|].
  unfold txtOf. cbn [map concatStrings fold_right List.length Nat.eqb].
  rewrite append_assoc. destruct (logTXT item); reflexivity.
Qed.

Lemma nonEmpty_jsonOf (buffer : list LogBufferItem) :
  nonEmpty [jsonOf buffer] = if (List.length buffer =? 0)%nat then 0%nat else 1%nat.
Proof.
  destruct buffer as [|item rest]; [reflexivity|].
  unfold jsonOf. cbn [map concatStrings fold_right List.length Nat.eqb].
  rewrite append_assoc. destruct (logJSONString item); reflexivity.
Qed.

Lemma sampleDisk_dependable : dependable sampleDisk.
Proof. intros n dir. reflexivity. Qed.

(** On a dependable file system the file part of [exit] is one drain. *)
Lemma exitFile_drains dateFormat clock mkdirSync (this : Logger) (st : State) :
  dependable mkdirSync ->
  stratagy (storageSettings this) = Batch ->
  exitFile dateFormat clock mkdirSync this st
  = drained dateFormat this (clock (ticks st))
      (tick (emit (ConsoleLog [JString "Clearing file buffer, length:";
                               JNumber (Z.of_nat (List.length (logBuffer st)))]) st)).
Proof.
  intros Hdisk Hbatch. unfold exitFile, extracted. rewrite Hbatch.
  cbv zeta. now rewrite Hdisk.
Qed.

Lemma exited_batch_files dateFormat clock mkdirSync (this : Logger) (reason : JsValue)
    (st : State) :
  dependable mkdirSync ->
  stratagy (storageSettings this) = Batch ->
  let st' := exited dateFormat clock mkdirSync this reason st in
  logBuffer st' = []
  /\ drains (trace st') = S (drains (trace st))
  /\ appended "txt.log" (trace st')
     = (appended "txt.log" (trace st)
        ++ (if txt (storageSettings this) then [txtOf (logBuffer st)] else []))%list
  /\ appended "json.log" (trace st')
     = (appended "json.log" (trace st)
        ++ (if json (storageSettings this) then [jsonOf (logBuffer st)] else []))%list.
Proof.
  intros Hdisk Hbatch st'. subst st'. unfold exited.
  match goal with |- context [exitWebhook this ?s] =>
    destruct (exitWebhook_files this s) as (-> & -> & Happ) end.
  rewrite !Happ. rewrite (exitFile_drains _ _ _ _ _ Hdisk Hbatch).
  rewrite drained_drains, drained_txt, drained_json.
  match goal with |- context [drained dateFormat this ?t ?s] =>
    destruct (drained_rest dateFormat this t s) as (-> & _ & _) end.
  cbn [trace logBuffer emit tick].
  rewrite !drains_app, !appended_app. cbn [drains appended].
  rewrite !app_nil_r, !Nat.add_0_r. repeat split.
Qed.

(** C1 (amended): on a file system where the directory of every bucket is
    there or can be created, with strategy batch and batch size B > 1, N
    records submitted one after the other to an empty file sink cause
    N div B drains while they are submitted and leave N mod B records
    buffered; shutdown always adds one more drain, which runs even on an
    empty buffer, so the sink drains N div B + 1 times in all, of which
    exactly the ceiling of N/B write a non-empty content; every drain leaves
    the buffer empty; and the contents appended to the text file (to the
    JSON file), one after the other, are the submitted text lines (JSON
    lines), newline-terminated, in submission order, none lost and none
    repeated.  On any file system, a drain whose directory is missing and
    cannot be created throws before it removes or writes a record. *)
Theorem batch_file_sink_drains_fifo :
  (forall dateFormat toISOString clock mkdirSync (stack : nat) (err : JsValue -> JsValue -> M unit)
         (this : Logger) (subs : list Submission) (reason : JsValue) (st : State),
    dependable mkdirSync ->
    stratagy (storageSettings this) = Batch ->
    1 < batch (storageSettings this) ->
    logBuffer st = [] ->
    trace st = [] ->
    let n := List.length subs in
    let b := batchSize this in
    let st1 := finalState (submitAll dateFormat toISOString mkdirSync err this subs st) in
    let st2 := finalState (exit dateFormat toISOString clock mkdirSync stack this reason st1) in
    returned (submitAll dateFormat toISOString mkdirSync err this subs st) = true
    /\ drains (trace st1) = (n / b)%nat
    /\ List.length (logBuffer st1) = (n mod b)%nat
    /\ drains (trace st2) = (n / b + 1)%nat
    /\ logBuffer st2 = []
    /\ (forall t st', logBuffer (finalState (extractBuffer dateFormat mkdirSync err this t st')) = [])
    /\ (txt (storageSettings this) = true ->
        concatStrings (appended "txt.log" (trace st2)) = submittedText subs
        /\ nonEmpty (appended "txt.log" (trace st2)) = ((n + b - 1) / b)%nat)
    /\ (json (storageSettings this) = true ->
        concatStrings (appended "json.log" (trace st2)) = submittedJson toISOString this subs
        /\ nonEmpty (appended "json.log" (trace st2)) = ((n + b - 1) / b)%nat))
  /\ (forall dateFormat mkdirSync (err : JsValue -> JsValue -> M unit) (this : Logger)
             (currentTime : Z) (st : State),
         mkdirSync (ticks st) (fst (generatePaths dateFormat this currentTime)) = false ->
         extractBuffer dateFormat mkdirSync err this currentTime st = Thrown st).
Proof.
  split.
  2:{ intros dateFormat mkdirSync err this t st Hfull.
      rewrite extractBuffer_extracted. unfold extracted. now rewrite Hfull. }
  intros dateFormat toISOString clock mkdirSync stack err this subs reason st
         Hdisk Hbatch Hsize Hempty Htrace n b st1 st2.
  pose proof (batchSize_ge_2 this Hsize) as HB. fold b in HB.
  assert (Hroom : (List.length (logBuffer st) < batchSize this)%nat)
    by (rewrite Hempty; cbn; fold b; lia).
  destruct (submitAll_effect dateFormat toISOString mkdirSync err this Hbatch Hsize Hdisk subs st Hroom)
    as (Hrun & Hlen & Hdr & Htxt & Hjson).
  fold st1 b n in Hrun, Hlen, Hdr, Htxt, Hjson.
  rewrite Hempty, Htrace in *. cbn [List.length drains Nat.add] in *.
  unfold textSoFar, jsonSoFar in Htxt, Hjson.
  rewrite Htrace, Hempty in Htxt, Hjson.
  cbn [appended concatStrings fold_right txtOf jsonOf map nonEmpty append Nat.add]
    in Htxt, Hjson.
  subst st2. rewrite exit_exits. cbn [finalState].
  destruct (exited_batch_files dateFormat clock mkdirSync this reason st1 Hdisk Hbatch)
    as (Hbuf & Hdr2 & Htxt2 & Hjson2).
  split; [now rewrite Hrun|].
  split; [exact Hdr|]. split; [exact Hlen|].
  split; [rewrite Hdr2, Hdr; lia|]. split; [exact Hbuf|].
  split.
  { intros t st'. rewrite extractBuffer_drains by apply Hdisk. cbn [finalState].
    apply drained_rest. }
  split.
  - intros Ht. destruct (Htxt Ht) as [Hcat Hcount]. rewrite Htxt2, Ht. split.
    + rewrite concatStrings_app. cbn [concatStrings fold_right].
      now rewrite append_nil_r.
    + rewrite nonEmpty_app, Hcount, nonEmpty_txtOf, Hlen.
      now rewrite ceiling_div by lia.
  - intros Hj. destruct (Hjson Hj) as [Hcat Hcount]. rewrite Hjson2, Hj. split.
    + rewrite concatStrings_app. cbn [concatStrings fold_right].
      now rewrite append_nil_r.
    + rewrite nonEmpty_app, Hcount, nonEmpty_jsonOf, Hlen.
      now rewrite ceiling_div by lia.
Qed.

Lemma batch_file_sink_drains_fifo_witness :
  let this := sampleBatchLogger 2 in
  let subs := [sampleSubmission "one"; sampleSubmission "two"; sampleSubmission "three"] in
  let err := error sampleDateFormat sampleISO sampleClock sampleDisk 1 this in
  let st1 := finalState (submitAll sampleDateFormat sampleISO sampleDisk err this subs initialState) in
  let st2 := finalState (exit sampleDateFormat sampleISO sampleClock sampleDisk 1 this
                              (JString "done") st1) in
  drains (trace st1) = 1%nat
  /\ drains (trace st2) = 2%nat
  /\ concatStrings (appended "txt.log" (trace st2))
     = "[INFO] one" ++ newline ++ "[INFO] two" ++ newline ++ "[INFO] three" ++ newline
  /\ extractBuffer sampleDateFormat fullDisk err this (sampleClock 0) st1 = Thrown st1.
Proof.
  cbv zeta.
  pose proof (proj2 batch_file_sink_drains_fifo sampleDateFormat fullDisk
                (error sampleDateFormat sampleISO sampleClock sampleDisk 1 (sampleBatchLogger 2))
                (sampleBatchLogger 2) (sampleClock 0)
                (finalState
                   (submitAll sampleDateFormat sampleISO sampleDisk
                      (error sampleDateFormat sampleISO sampleClock sampleDisk 1
                             (sampleBatchLogger 2))
                      (sampleBatchLogger 2)
                      [sampleSubmission "one"; sampleSubmission "two"; sampleSubmission "three"]
                      initialState))
                eq_refl) as Hfull.
  pose proof (proj1 batch_file_sink_drains_fifo sampleDateFormat sampleISO sampleClock sampleDisk 1%nat
                (error sampleDateFormat sampleISO sampleClock sampleDisk 1 (sampleBatchLogger 2))
                (sampleBatchLogger 2)
                [sampleSubmission "one"; sampleSubmission "two"; sampleSubmission "three"]
                (JString "done") initialState
                sampleDisk_dependable eq_refl eq_refl eq_refl eq_refl) as H.
  cbv zeta in H.
  destruct H as (_ & H1 & _ & H2 & _ & _ & Htxt & _).
  destruct (Htxt eq_refl) as [Hcat _].
  split; [exact H1 | split; [exact H2 | split; [exact Hcat | exact Hfull]]].
Defined.

(** C1 as stated fails on the count: two records with batch size two are
    drained once when the second arrives and once more, on an empty buffer,
    at shutdown, which is two drains and not the ceiling of 2/2. *)
Lemma batch_flush_count_counterexample :
  let this := sampleBatchLogger 2 in
  let subs := [sampleSubmission "one"; sampleSubmission "two"] in
  let err := error sampleDateFormat sampleISO sampleClock sampleDisk 1 this in
  let st1 := finalState (submitAll sampleDateFormat sampleISO sampleDisk err this subs initialState) in
  let st2 := finalState (exit sampleDateFormat sampleISO sampleClock sampleDisk 1 this
                              (JString "done") st1) in
  drains (trace st2) <> ((List.length subs + batchSize this - 1) / batchSize this)%nat
  /\ drains (trace st2) = 2%nat
  /\ ((List.length subs + batchSize this - 1) / batchSize this)%nat = 1%nat
  /\ fileEvents (trace st2)
     = [ EnsureDir "./logs/";
         Append "./logs/logs.txt.log" ("[INFO] one" ++ newline ++ "[INFO] two" ++ newline);
         Append "./logs/logs.json.log"
                (jsonLine sampleISO this (sampleClock 0) "2024-06-20 17:39:05:514 GMT+0100"
                          "one" INFO "" ++ newline
                 ++ jsonLine sampleISO this (sampleClock 0) "2024-06-20 17:39:05:514 GMT+0100"
                             "two" INFO "" ++ newline);
         EnsureDir "./logs/";
         Append "./logs/logs.txt.log" "";
         Append "./logs/logs.json.log" "" ].
Proof. cbv zeta. split; [vm_compute; discriminate | repeat split]. Qed.

(** ** Invariants through the monad *)

Section PreservesRules.

Variable P : State -> Prop.

Lemma preserves_ret {A : Type} (a : A) : preserves P (ret a).
Proof. intros st H. exact H. Qed.

Lemma preserves_throw {A : Type} : preserves P (@throw A).
Proof. intros st H. exact H. Qed.

Lemma preserves_gets {A : Type} (f : State -> A) : preserves P (gets f).
Proof. intros st H. exact H. Qed.

Lemma preserves_modify (f : State -> State) :
  (forall st, P st -> P (f st)) -> preserves P (modify f).
Proof. intros Hf st H. now apply Hf. Qed.

Lemma preserves_bind {A B : Type} (m : M A) (k : A -> M B) :
  preserves P m -> (forall a, preserves P (k a)) -> preserves P (bind m k).
Proof.
  intros Hm Hk st H. unfold bind. specialize (Hm st H).
  destruct (m st) as [a st'|st']; cbn [finalState] in *.
  - now apply Hk.
  - exact Hm.
Qed.

Lemma preserves_tryCatch {A : Type} (m handler : M A) :
  preserves P m -> preserves P handler -> preserves P (tryCatch m handler).
Proof.
  intros Hm Hh st H. unfold tryCatch. specialize (Hm st H).
  destruct (m st) as [a st'|st']; cbn [finalState] in *.
  - exact Hm.
  - now apply Hh.
Qed.

Lemma preserves_when (b : bool) (m : M unit) :
  (b = true -> preserves P m) -> preserves P (when b m).
Proof.
  intros Hm. destruct b; cbn [when]; [now apply Hm | apply preserves_ret].
Qed.

Lemma preserves_handleLogDatatype (err : JsValue -> JsValue -> M unit) (v : JsValue) :
  (forall x y, preserves P (err x y)) -> preserves P (handleLogDatatype err v).
Proof.
  intros Herr. unfold handleLogDatatype.
  destruct (looseEqUndefined v); [apply preserves_ret|].
  destruct (String.eqb (typeof v) "string"); [apply preserves_ret|].
  destruct (existsb _ _); [apply preserves_ret|].
  destruct (String.eqb (typeof v) "object").
  - destruct (JSON_stringify4 v); try apply preserves_ret.
    apply preserves_bind; [apply Herr | intros; apply preserves_ret].
  - apply preserves_bind; [apply Herr | intros; apply preserves_ret].
Qed.

End PreservesRules.

(** [sendLog] never throws once it has a frame to run in. *)
Lemma sendLog_returns dateFormat toISOString clock mkdirSync (depth : nat) (this : Logger)
    (lvl : LogLevel) (msg data : JsValue) (st : State) :
  sendLog dateFormat toISOString clock mkdirSync (S depth) this lvl msg data st
  = Returned tt (finalState (sendLog dateFormat toISOString clock mkdirSync (S depth) this lvl msg data st)).
Proof.
  cbn [sendLog]. unfold sendLogBody, tryCatch.
  match goal with |- context [match ?m with Returned _ _ => _ | Thrown _ => _ end] =>
    destruct m as [[] st'|st'] end; reflexivity.
Qed.

(** With values that serialise, [sendLog] reads the clock and runs its
    three sinks on the converted strings. *)
Lemma sendLog_clean dateFormat toISOString clock mkdirSync (depth : nat) (this : Logger)
    (lvl : LogLevel) (msg data : JsValue) (st : State) :
  clean msg = true -> clean data = true ->
  sendLog dateFormat toISOString clock mkdirSync (S depth) this lvl msg data st
  = tryCatch
      (sinks dateFormat toISOString mkdirSync
             (sendLog dateFormat toISOString clock mkdirSync depth this ERROR)
             (sendLog dateFormat toISOString clock mkdirSync depth this FATALRATE)
             this lvl (clock (ticks st)) (convert msg) (convert data))
      (modify (emit (ConsoleError "There was an issue logging data")))
      (tick st).
Proof.
  intros Hmsg Hdata. cbn [sendLog]. unfold sendLogBody.
  rewrite !handleLogDatatype_clean by assumption.
  reflexivity.
Qed.


(** A general invariant rule for [sendLog]: an invariant kept by the clock,
    by the console line of a level that is printed, by the file sink of a
    level that is stored (whether it writes or throws), by the handler of
    the [catch] block and by the
    webhook sink (whatever its two callbacks, as long as they keep it), is
    kept by [sendLog] at any stack depth.  The levels considered are those
    of a set [allowed] that holds the two levels of the internal records. *)
Section SendLogInvariant.

Variable dateFormat : Z -> string -> string.
Variable toISOString : Z -> string.
Variable clock : nat -> Z.
Variable mkdirSync : nat -> string -> bool.
Variable this : Logger.
Variable P : State -> Prop.
Variable allowed : LogLevel -> bool.

Hypothesis allowed_error : allowed ERROR = true.
Hypothesis allowed_fatalRate : allowed FATALRATE = true.
Hypothesis P_tick : forall st, P st -> P (tick st).
Hypothesis P_stderr : forall st text, P st -> P (emit (ConsoleError text) st).
Hypothesis P_stdout :
  forall st lvl text,
    allowed lvl = true -> consoleGuard this lvl = true ->
    P st -> P (emit (Stdout lvl text) st).
Hypothesis P_file :
  forall st lvl t fd m d line,
    allowed lvl = true -> fileGuard this lvl = true -> P st ->
    P (finalState (filed dateFormat toISOString mkdirSync this t fd m lvl d line st)).
Hypothesis P_webhook :
  forall (err fr : JsValue -> JsValue -> M unit) lvl t fd m d line,
    (forall x y, preserves P (err x y)) ->
    (forall x y, preserves P (fr x y)) ->
    allowed lvl = true ->
    enable (webhookSettings this) = true ->
    preserves P (sendWebhook err fr this t fd m lvl d line).

Lemma sendLog_preserves_at (stack : nat) :
  forall (lvl : LogLevel) (msg data : JsValue),
    allowed lvl = true ->
    preserves P (sendLog dateFormat toISOString clock mkdirSync stack this lvl msg data).
Proof.
  induction stack as [|depth IH]; intros lvl msg data Hlvl.
  - apply preserves_throw.
  - cbn [sendLog]. unfold sendLogBody.
    apply preserves_tryCatch; [|apply preserves_modify; intros; now apply P_stderr].
    apply preserves_bind; [intros st H; now apply P_tick|]. intros t.
    apply preserves_bind;
      [apply preserves_handleLogDatatype; intros; now apply IH|].
    intros m.
    apply preserves_bind;
      [apply preserves_handleLogDatatype; intros; now apply IH|].
    intros d.
    apply preserves_bind.
    { apply preserves_when. intros Hguard. apply preserves_modify.
      intros st H. now apply P_stdout. }
    intros _. apply preserves_bind.
    { apply preserves_when. intros Hguard st H. rewrite logToFile_filed.
      now apply P_file. }
    intros _. apply preserves_when. intros Hon.
    apply P_webhook;
      [intros; now apply IH | intros; now apply IH | exact Hlvl | exact Hon].
Qed.

End SendLogInvariant.

Lemma sendLog_preserves dateFormat toISOString clock mkdirSync (this : Logger) (P : State -> Prop) :
  (forall st, P st -> P (tick st)) ->
  (forall st text, P st -> P (emit (ConsoleError text) st)) ->
  (forall st lvl text, consoleGuard this lvl = true -> P st -> P (emit (Stdout lvl text) st)) ->
  (forall st lvl t fd m d line,
      fileGuard this lvl = true -> P st ->
      P (finalState (filed dateFormat toISOString mkdirSync this t fd m lvl d line st))) ->
  (forall (err fr : JsValue -> JsValue -> M unit) lvl t fd m d line,
      (forall x y, preserves P (err x y)) ->
      (forall x y, preserves P (fr x y)) ->
      enable (webhookSettings this) = true ->
      preserves P (sendWebhook err fr this t fd m lvl d line)) ->
  forall (stack : nat) (lvl : LogLevel) (msg data : JsValue),
    preserves P (sendLog dateFormat toISOString clock mkdirSync stack this lvl msg data).
Proof.
  intros Htick Hstderr Hstdout Hfile Hwebhook stack lvl msg data.
  apply (sendLog_preserves_at dateFormat toISOString clock mkdirSync this P (fun _ => true));
    auto.
Qed.

(** ** What each sink leaves alone *)

Lemma fileOnly_observations (events : list Event) :
  forallb isFileEvent events = true ->
  posts events = [] /\ (forall lvl, stdoutAt lvl events = [])
  /\ fileEvents events = events.
Proof.
  induction events as [|e rest IH]; [repeat split|].
  cbn [forallb]. intros H. apply andb_prop in H as [He Hrest].
  destruct (IH Hrest) as (Hposts & Hout & Hfiles).
  destruct e; try discriminate He; cbn [posts stdoutAt fileEvents];
    (split; [exact Hposts | split; [exact Hout | now rewrite Hfiles]]).
Qed.

Lemma drained_appends dateFormat (this : Logger) (t : Z) (st : State) :
  exists events,
    trace (drained dateFormat this t st) = (trace st ++ events)%list
    /\ forallb isFileEvent events = true.
Proof.
  rewrite drained_trace. eexists. split; [reflexivity|].
  destruct (txt (storageSettings this)), (json (storageSettings this)); reflexivity.
Qed.

(** The file sink appends file events only and leaves the webhook batch
    and the clock alone. *)
Lemma submitted_appends dateFormat toISOString (this : Logger) (t : Z) (fd m : string)
    (lvl : LogLevel) (d line : string) (st : State) :
  let st' := submitted dateFormat toISOString this t fd m lvl d line st in
  (exists events,
      trace st' = (trace st ++ events)%list /\ forallb isFileEvent events = true)
  /\ webhookBuffer st' = webhookBuffer st.
Proof.
  cbv zeta. unfold submitted. destruct (batching this).
  - cbv zeta.
    match goal with |- context [ (?x <=? ?y) ] => destruct (x <=? y) end.
    + match goal with |- context [drained dateFormat this t ?s] =>
        split; [exact (drained_appends dateFormat this t s)
               | exact (proj1 (proj2 (drained_rest dateFormat this t s)))] end.
    + split; [|reflexivity]. exists []. cbn [trace setLogBuffer].
      now rewrite app_nil_r.
  - destruct (generatePaths dateFormat this t) as [dir loc].
    destruct (txt (storageSettings this)), (json (storageSettings this));
      cbn [trace emit webhookBuffer]; (split; [|reflexivity]);
      rewrite <- ?app_assoc; eexists; (split; [reflexivity | reflexivity]).
Qed.

Lemma submitted_posts dateFormat toISOString (this : Logger) (t : Z) (fd m : string)
    (lvl : LogLevel) (d line : string) (st : State) :
  posts (trace (submitted dateFormat toISOString this t fd m lvl d line st))
  = posts (trace st).
Proof.
  destruct (submitted_appends dateFormat toISOString this t fd m lvl d line st)
    as [(events & -> & Hfile) _].
  rewrite posts_app. destruct (fileOnly_observations events Hfile) as (-> & _).
  now rewrite app_nil_r.
Qed.

Lemma submitted_stdout dateFormat toISOString (this : Logger) (t : Z) (fd m : string)
    (lvl : LogLevel) (d line : string) (st : State) (target : LogLevel) :
  stdoutAt target (trace (submitted dateFormat toISOString this t fd m lvl d line st))
  = stdoutAt target (trace st).
Proof.
  destruct (submitted_appends dateFormat toISOString this t fd m lvl d line st)
    as [(events & -> & Hfile) _].
  rewrite stdoutAt_app. destruct (fileOnly_observations events Hfile) as (_ & -> & _).
  now rewrite app_nil_r.
Qed.

Lemma submitted_ticks dateFormat toISOString (this : Logger) (t : Z) (fd m : string)
    (lvl : LogLevel) (d line : string) (st : State) :
  ticks (submitted dateFormat toISOString this t fd m lvl d line st) = ticks st.
Proof.
  unfold submitted. destruct (batching this).
  - cbv zeta. match goal with |- context [ (?x <=? ?y) ] => destruct (x <=? y) end.
    + match goal with |- context [drained dateFormat this t ?s] =>
        exact (proj2 (proj2 (drained_rest dateFormat this t s))) end.
    + reflexivity.
  - destruct (generatePaths dateFormat this t) as [dir loc].
    destruct (txt (storageSettings this)), (json (storageSettings this)); reflexivity.
Qed.

(** The same holds when the file sink throws: it has appended nothing. *)
Lemma filed_appends dateFormat toISOString mkdirSync (this : Logger) (t : Z)
    (fd m : string) (lvl : LogLevel) (d line : string) (st : State) :
  let st' := finalState (filed dateFormat toISOString mkdirSync this t fd m lvl d line st) in
  (exists events,
      trace st' = (trace st ++ events)%list /\ forallb isFileEvent events = true)
  /\ webhookBuffer st' = webhookBuffer st
  /\ ticks st' = ticks st.
Proof.
  cbv zeta. unfold filed. destruct (_ && _); cbn [finalState].
  - unfold kept. destruct (batching this); cbn [trace setLogBuffer webhookBuffer ticks];
      (split; [exists []; now rewrite app_nil_r | split; reflexivity]).
  - destruct (submitted_appends dateFormat toISOString this t fd m lvl d line st)
      as [Happ Hhook].
    split; [exact Happ | split; [exact Hhook | apply submitted_ticks]].
Qed.

Lemma filed_posts dateFormat toISOString mkdirSync (this : Logger) (t : Z)
    (fd m : string) (lvl : LogLevel) (d line : string) (st : State) :
  posts (trace (finalState (filed dateFormat toISOString mkdirSync this t fd m lvl d line st)))
  = posts (trace st).
Proof.
  destruct (filed_appends dateFormat toISOString mkdirSync this t fd m lvl d line st)
    as [(events & -> & Hfile) _].
  rewrite posts_app. destruct (fileOnly_observations events Hfile) as (-> & _).
  now rewrite app_nil_r.
Qed.

Lemma filed_stdout dateFormat toISOString mkdirSync (this : Logger) (t : Z)
    (fd m : string) (lvl : LogLevel) (d line : string) (st : State) (target : LogLevel) :
  stdoutAt target
    (trace (finalState (filed dateFormat toISOString mkdirSync this t fd m lvl d line st)))
  = stdoutAt target (trace st).
Proof.
  destruct (filed_appends dateFormat toISOString mkdirSync this t fd m lvl d line st)
    as [(events & -> & Hfile) _].
  rewrite stdoutAt_app. destruct (fileOnly_observations events Hfile) as (_ & -> & _).
  now rewrite app_nil_r.
Qed.

Lemma timers_app (xs ys : list Event) :
  timers (xs ++ ys) = (timers xs + timers ys)%nat.
Proof.
  induction xs as [|e xs IH]; [reflexivity|].
  destruct e; cbn [timers app]; try assumption. now rewrite IH.
Qed.

Lemma fileOnly_timers (events : list Event) :
  forallb isFileEvent events = true -> timers events = 0%nat.
Proof.
  induction events as [|e rest IH]; [reflexivity|].
  cbn [forallb]. intros H. apply andb_prop in H as [He Hrest].
  destruct e; try discriminate He; cbn [timers]; now apply IH.
Qed.

(** The file part of [exit] issues no request, arms no timer and leaves the
    batch alone, whether its drain completes or throws. *)
Lemma exitFile_webhook dateFormat clock mkdirSync (this : Logger) (reason : JsValue)
    (st : State) :
  let s := exitFile dateFormat clock mkdirSync this
             (emit (ConsoleLog [JString "Shutting down gracefully with reason: "; reason]) st) in
  webhookBuffer s = webhookBuffer st
  /\ posts (trace s) = posts (trace st)
  /\ timers (trace s) = timers (trace st).
Proof.
  cbv zeta. unfold exitFile, extracted. destruct (stratagy (storageSettings this)).
  - cbn [webhookBuffer trace emit]. rewrite posts_app, timers_app. cbn [posts timers].
    rewrite app_nil_r, Nat.add_0_r. repeat split.
  - cbv zeta. destruct (mkdirSync _ _).
    + match goal with |- context [drained dateFormat this ?t ?x] =>
        destruct (drained_rest dateFormat this t x) as (_ & -> & _);
        destruct (drained_appends dateFormat this t x) as (events & -> & Hfile)
      end.
      destruct (fileOnly_observations events Hfile) as (Hnone & _).
      cbn [webhookBuffer trace emit tick].
      rewrite !posts_app, !timers_app, Hnone, (fileOnly_timers events Hfile).
      cbn [posts timers]. rewrite !app_nil_r, !Nat.add_0_r. repeat split.
    + cbn [webhookBuffer trace emit tick].
      rewrite !posts_app, !timers_app. cbn [posts timers].
      rewrite !app_nil_r, !Nat.add_0_r. repeat split.
Qed.

Lemma exited_webhook dateFormat clock mkdirSync (this : Logger) (reason : JsValue)
    (st : State) :
  let s := exited dateFormat clock mkdirSync this reason st in
  webhookBuffer s = webhookBuffer st
  /\ posts (trace s)
     = (posts (trace st)
        ++ (if exitSends this st then [(FromExit, webhookBuffer st)] else []))%list
  /\ timers (trace s) = (timers (trace st) + (if exitSends this st then 0 else 1))%nat.
Proof.
  cbv zeta. unfold exited.
  destruct (exitFile_webhook dateFormat clock mkdirSync this reason st) as (Hb & Hp & Ht).
  revert Hb Hp Ht.
  generalize (exitFile dateFormat clock mkdirSync this
    (emit (ConsoleLog [JString "Shutting down gracefully with reason: "; reason]) st)).
  intros s Hb Hp Ht. unfold exitWebhook, exitSends. rewrite Hb.
  destruct (url (webhookSettings this)) as [target|];
    [destruct (0 <? List.length (webhookBuffer st))%nat|];
    cbn [webhookBuffer trace emit]; rewrite ?posts_app, ?timers_app;
    cbn [posts timers]; rewrite ?app_nil_r, ?Nat.add_0_r, Hb, Hp, Ht;
    repeat split.
Qed.

(** The webhook sink keeps any invariant that does not depend on the batch
    nor on the requests issued, as long as its callbacks keep it. *)
Lemma sendWebhook_preserves (P : State -> Prop)
    (err fr : JsValue -> JsValue -> M unit) (this : Logger) (t : Z) (fd m : string)
    (lvl : LogLevel) (d line : string) :
  (forall st b, P st -> P (setWebhookBuffer b st)) ->
  (forall st target user embeds,
      P st -> P (emit (HttpPost FromSendWebhook target user embeds) st)) ->
  (forall x y, preserves P (err x y)) ->
  (forall x y, preserves P (fr x y)) ->
  preserves P (sendWebhook err fr this t fd m lvl d line).
Proof.
  intros Hset Hpost Herr Hfr. unfold sendWebhook.
  destruct (LogLevel_eqb lvl FATALRATE); [apply preserves_ret|].
  destruct (url (webhookSettings this)) as [target|]; [|apply preserves_ret].
  destruct (form (webhookSettings this)); [apply Herr|].
  apply preserves_bind; [apply preserves_modify; intros; now apply Hset|].
  intros _. apply preserves_bind; [apply preserves_gets|]. intros size.
  destruct (8 <? size)%nat.
  - apply preserves_bind; [apply Hfr|]. intros _.
    apply preserves_modify. intros; now apply Hset.
  - destruct (size =? 8)%nat; [|apply preserves_ret].
    apply preserves_bind; [apply preserves_gets|]. intros embeds.
    apply preserves_bind; [apply preserves_modify; intros; now apply Hpost|].
    intros _. apply preserves_modify. intros; now apply Hset.
Qed.

(** *** The console sink and the format ignore-set *)



(** *** The file sink when no format is enabled *)


(** *** The webhook sink, step by step *)

Lemma sendWebhook_internal_level (err fr : JsValue -> JsValue -> M unit) (this : Logger)
    (t : Z) (fd m d line : string) (st : State) :
  sendWebhook err fr this t fd m FATALRATE d line st = Returned tt st.
Proof. reflexivity. Qed.

(** With a target and the discord provider, a record of any other level is
    appended; the batch is then posted and cleared at exactly 8 items,
    reported through [fatalRate] and cleared above 8, and kept below 8. *)
Lemma sendWebhook_discord (err fr : JsValue -> JsValue -> M unit) (this : Logger)
    (t : Z) (fd m : string) (lvl : LogLevel) (d line : string) (st : State)
    (target : string) :
  LogLevel_eqb lvl FATALRATE = false ->
  url (webhookSettings this) = Some target ->
  form (webhookSettings this) = Discord ->
  sendWebhook err fr this t fd m lvl d line st
  = let batch := (webhookBuffer st ++ [newEmbed this fd m lvl d])%list in
    let st1 := setWebhookBuffer batch st in
    let size := S (List.length (webhookBuffer st)) in
    if (8 <? size)%nat then
      (fr (JString "Webhook Buffer too large to send in one message!")
          (JNumber (Z.of_nat size)) ;;
       modify (setWebhookBuffer [])) st1
    else if (size =? 8)%nat then
      Returned tt
        (setWebhookBuffer []
           (emit (HttpPost FromSendWebhook target
                    (mainProcess this ++ "." ++ subProcess this) batch) st1))
    else Returned tt st1.
Proof.
  intros Hlvl Hurl Hform. unfold sendWebhook. rewrite Hlvl, Hurl, Hform.
  cbv zeta. unfold bind at 1. unfold modify at 1.
  unfold bind at 1. unfold gets at 1.
  cbn [webhookBuffer setWebhookBuffer]. rewrite length_app. cbn [List.length].
  rewrite Nat.add_1_r.
  destruct (8 <? S (List.length (webhookBuffer st)))%nat; [reflexivity|].
  destruct (S (List.length (webhookBuffer st)) =? 8)%nat; reflexivity.
Qed.

Lemma sendWebhook_quiet (err fr : JsValue -> JsValue -> M unit) (this : Logger)
    (t : Z) (fd m : string) (lvl : LogLevel) (d line : string) (st : State) :
  webhookQuiet this lvl st = true ->
  let st' := finalState (when (enable (webhookSettings this))
                           (sendWebhook err fr this t fd m lvl d line) st) in
  logBuffer st' = logBuffer st /\ fileEvents (trace st') = fileEvents (trace st).
Proof.
  unfold webhookQuiet. intros Hquiet. cbv zeta.
  destruct (enable (webhookSettings this)); cbn [when]; [|split; reflexivity].
  cbn [negb orb] in Hquiet.
  destruct (LogLevel_eqb lvl FATALRATE) eqn:Hlvl.
  { unfold sendWebhook. rewrite Hlvl. split; reflexivity. }
  destruct (url (webhookSettings this)) as [target|] eqn:Hurl.
  2:{ unfold sendWebhook. rewrite Hlvl, Hurl. split; reflexivity. }
  cbn [orb] in Hquiet.
  destruct (form (webhookSettings this)) eqn:Hform; [discriminate Hquiet|].
  cbn [andb] in Hquiet. apply Nat.ltb_lt in Hquiet.
  rewrite (sendWebhook_discord err fr this t fd m lvl d line st target Hlvl Hurl Hform).
  cbv zeta.
  destruct (Nat.ltb_spec 8 (S (List.length (webhookBuffer st)))); [lia|].
  destruct (S (List.length (webhookBuffer st)) =? 8)%nat;
    cbn [finalState logBuffer trace emit setWebhookBuffer]; split; try reflexivity.
  rewrite fileEvents_app. cbn [fileEvents]. now rewrite app_nil_r.
Qed.

(** *** The internal level and the webhook sink *)

Lemma sinks_internal_level dateFormat toISOString mkdirSync (err fr : JsValue -> JsValue -> M unit)
    (this : Logger) (t : Z) (m d : string) (st : State) :
  let out := sinks dateFormat toISOString mkdirSync err fr this FATALRATE t m d st in
  webhookBuffer (finalState out) = webhookBuffer st
  /\ posts (trace (finalState out)) = posts (trace st).
Proof.
  cbv zeta. unfold sinks, bind, when, modify, ret.
  destruct (consoleGuard this FATALRATE), (fileGuard this FATALRATE);
    cbv beta iota zeta; rewrite ?logToFile_filed;
    try match goal with
        | |- context [filed ?a ?b ?c ?e ?f ?g ?h ?i ?j ?k ?s] =>
            pose proof (filed_posts a b c e f g h i j k s) as Hposts;
            pose proof (proj1 (proj2 (filed_appends a b c e f g h i j k s))) as Hhook;
            cbv zeta in Hhook;
            destruct (filed a b c e f g h i j k s) as [[] st1|st1];
            cbn [finalState] in Hposts, Hhook
        end;
    cbv beta iota zeta;
    (destruct (enable (webhookSettings this));
     rewrite ?sendWebhook_internal_level; cbn [finalState];
     rewrite ?Hposts, ?Hhook;
     cbn [trace emit webhookBuffer]; rewrite ?posts_app; cbn [posts];
     rewrite ?app_nil_r; split; reflexivity).
Qed.

Lemma sendLog_internal_level dateFormat toISOString clock mkdirSync (depth : nat) (this : Logger)
    (msg data : JsValue) (st : State) :
  clean msg = true -> clean data = true ->
  let st' := finalState (sendLog dateFormat toISOString clock mkdirSync (S depth) this
                                 FATALRATE msg data st) in
  webhookBuffer st' = webhookBuffer st /\ posts (trace st') = posts (trace st).
Proof.
  intros Hmsg Hdata. cbv zeta. rewrite sendLog_clean by assumption.
  unfold tryCatch.
  destruct (sinks_internal_level dateFormat toISOString mkdirSync
              (sendLog dateFormat toISOString clock mkdirSync depth this ERROR)
              (sendLog dateFormat toISOString clock mkdirSync depth this FATALRATE)
              this (clock (ticks st)) (convert msg) (convert data) (tick st))
    as (Hbuf & Hposts).
  destruct (sinks _ _ _ _ _ _ _ _ _ _ _) as [[] st'|st'];
    cbn [finalState modify trace emit webhookBuffer] in *;
    rewrite ?posts_app; cbn [posts]; rewrite ?app_nil_r; split; assumption.
Qed.

Lemma fatalRate_keeps_posts dateFormat toISOString clock mkdirSync (depth : nat) (this : Logger)
    (msg data : JsValue) (k : list (Origin * list WebhookBufferItem)) :
  clean msg = true -> clean data = true ->
  preserves (fun s => posts (trace s) = k)
            (fatalRate dateFormat toISOString clock mkdirSync (S depth) this msg data).
Proof.
  intros Hmsg Hdata st H. unfold fatalRate.
  destruct (sendLog_internal_level dateFormat toISOString clock mkdirSync depth this msg data st
              Hmsg Hdata) as [_ Hposts].
  now rewrite Hposts.
Qed.

Lemma sendWebhook_settled_posts dateFormat toISOString clock mkdirSync (depth : nat)
    (this : Logger) (r : FetchResult) (st : State) :
  settlesCleanly r = true ->
  posts (trace (finalState
                  (sendWebhook_settled dateFormat toISOString clock mkdirSync (S depth) this r st)))
  = posts (trace st).
Proof.
  intros Hclean.
  assert (Hkeep : preserves (fun s => posts (trace s) = posts (trace st))
                    (sendWebhook_settled dateFormat toISOString clock mkdirSync (S depth) this r));
    [|exact (Hkeep st eq_refl)].
  unfold sendWebhook_settled. destruct r as [status statusText|err].
  - apply preserves_tryCatch.
    + apply preserves_bind.
      * apply preserves_when. intros _.
        apply fatalRate_keeps_posts; reflexivity.
      * intros _. apply preserves_modify. intros s H. exact H.
    + apply fatalRate_keeps_posts; reflexivity.
  - apply fatalRate_keeps_posts; [reflexivity | exact Hclean].
Qed.

Lemma exit_settled_posts (r : FetchResult) (st : State) :
  posts (trace (finalState (exit_settled r st))) = posts (trace st).
Proof.
  destruct r as [status statusText|err]; unfold exit_settled, exit_resume, bind, when, modify, ret;
    [destruct (negb (status =? 204))|];
    cbn [finalState trace emit setWebhookBuffer];
    rewrite ?posts_app; cbn [posts]; now rewrite ?app_nil_r.
Qed.









(** *** The file sink and the storage ignore-set *)

Lemma bind_when_modify {B : Type} (b : bool) (f : State -> State) (k : unit -> M B)
    (st : State) :
  bind (when b (modify f)) k st = k tt (if b then f st else st).
Proof. destruct b; reflexivity. Qed.

Lemma bind_when_false {B : Type} (m : M unit) (k : unit -> M B) (st : State) :
  bind (when false m) k st = k tt st.
Proof. reflexivity. Qed.








(** ** Null and absent data *)






(** ** The webhook batch *)

Lemma batchBounded_frame (st st' : State) :
  webhookBuffer st' = webhookBuffer st ->
  posts (trace st') = posts (trace st) ->
  batchBounded st -> batchBounded st'.
Proof. unfold batchBounded. intros -> ->. exact (fun H => H). Qed.

Lemma batchBounded_emit (e : Event) (st : State) :
  isPost e = false -> batchBounded st -> batchBounded (emit e st).
Proof.
  intros He. apply batchBounded_frame; [reflexivity|].
  cbn [trace emit]. rewrite posts_app.
  destruct e; try discriminate He; cbn [posts]; now rewrite app_nil_r.
Qed.

Lemma sendWebhook_bounded (err fr : JsValue -> JsValue -> M unit) (this : Logger)
    (t : Z) (fd m : string) (lvl : LogLevel) (d line : string) :
  (forall x y, preserves batchBounded (err x y)) ->
  preserves batchBounded (sendWebhook err fr this t fd m lvl d line).
Proof.
  intros Herr st [Hlen Hposts].
  destruct (LogLevel_eqb lvl FATALRATE) eqn:Hlvl.
  { unfold sendWebhook. rewrite Hlvl. now split. }
  destruct (url (webhookSettings this)) as [target|] eqn:Hurl.
  2:{ unfold sendWebhook. rewrite Hlvl, Hurl. now split. }
  destruct (form (webhookSettings this)) eqn:Hform.
  { unfold sendWebhook. rewrite Hlvl, Hurl, Hform. apply Herr. now split. }
  rewrite (sendWebhook_discord err fr this t fd m lvl d line st target Hlvl Hurl Hform).
  cbv zeta.
  destruct (Nat.ltb_spec 8 (S (List.length (webhookBuffer st)))); [lia|].
  destruct (Nat.eqb_spec (S (List.length (webhookBuffer st))) 8) as [Heq|Hneq];
    cbn [finalState]; split; cbn [webhookBuffer trace emit setWebhookBuffer List.length].
  - lia.
  - rewrite posts_app. cbn [posts]. apply Forall_app. split; [exact Hposts|].
    constructor; [|constructor]. unfold wellSized. cbn [fst snd].
    rewrite length_app. cbn [List.length]. lia.
  - rewrite length_app. cbn [List.length]. lia.
  - exact Hposts.
Qed.

Lemma sendLog_bounded dateFormat toISOString clock mkdirSync (this : Logger) (stack : nat)
    (lvl : LogLevel) (msg data : JsValue) :
  preserves batchBounded (sendLog dateFormat toISOString clock mkdirSync stack this lvl msg data).
Proof.
  apply sendLog_preserves.
  - intros st H. exact H.
  - intros st text. now apply batchBounded_emit.
  - intros st l text _. now apply batchBounded_emit.
  - intros st l t fd m d line _. apply batchBounded_frame.
    + exact (proj1 (proj2 (filed_appends dateFormat toISOString mkdirSync this
                             t fd m l d line st))).
    + apply filed_posts.
  - intros err fr l t fd m d line Herr _ _. now apply sendWebhook_bounded.
Qed.

Lemma exited_bounded dateFormat clock mkdirSync (this : Logger) (reason : JsValue)
    (st : State) :
  batchBounded st -> batchBounded (exited dateFormat clock mkdirSync this reason st).
Proof.
  intros H. unfold exited.
  assert (Hfile : batchBounded
            (exitFile dateFormat clock mkdirSync this
               (emit (ConsoleLog [JString "Shutting down gracefully with reason: "; reason]) st))).
  { unfold exitFile, extracted. destruct (stratagy (storageSettings this)).
    - now apply batchBounded_emit.
    - cbv zeta.
      assert (Hticked : batchBounded
                (tick (emit (ConsoleLog [JString "Clearing file buffer, length:";
                                         JNumber (Z.of_nat (List.length (logBuffer
                   (emit (ConsoleLog [JString "Shutting down gracefully with reason: ";
                                      reason]) st))))])
                   (emit (ConsoleLog [JString "Shutting down gracefully with reason: ";
                                      reason]) st)))).
      { apply (batchBounded_frame
               (emit (ConsoleLog [JString "Shutting down gracefully with reason: "; reason]) st));
          [reflexivity | | now apply batchBounded_emit].
        cbn [trace emit tick]. rewrite !posts_app. cbn [posts]. now rewrite !app_nil_r. }
      destruct (mkdirSync _ _); [|now apply batchBounded_emit].
      match goal with |- batchBounded (drained _ _ ?t ?s) =>
        apply (batchBounded_frame s);
          [exact (proj1 (proj2 (drained_rest dateFormat this t s)))
          | destruct (drained_appends dateFormat this t s) as (events & -> & Hfile);
            rewrite posts_app;
            destruct (fileOnly_observations events Hfile) as (-> & _);
            now rewrite app_nil_r
          | exact Hticked] end. }
  revert Hfile. generalize (exitFile dateFormat clock mkdirSync this
    (emit (ConsoleLog [JString "Shutting down gracefully with reason: "; reason]) st)).
  intros s [Hlen Hposts]. unfold exitWebhook.
  destruct (url (webhookSettings this)) as [target|];
    [destruct (0 <? _)%nat|]; try (apply batchBounded_emit; [reflexivity | now split]).
  split; cbn [webhookBuffer trace emit]; [exact Hlen|].
  rewrite !posts_app. cbn [posts]. rewrite app_nil_r.
  apply Forall_app. split; [exact Hposts|].
  constructor; [|constructor]. unfold wellSized. cbn [fst snd].
  split; [lia | discriminate].
Qed.

Lemma perform_bounded dateFormat toISOString clock mkdirSync (stack : nat) (this : Logger)
    (a : Action) :
  preserves batchBounded (perform dateFormat toISOString clock mkdirSync stack this a).
Proof.
  destruct a as [lvl msg data|reason|[|] r]; cbn [perform].
  - apply sendLog_bounded.
  - intros st H. rewrite exit_exits. cbn [finalState]. now apply exited_bounded.
  - unfold sendWebhook_settled, fatalRate.
    assert (Hclear : preserves batchBounded (modify (setWebhookBuffer [])))
      by (apply preserves_modify; intros st [_ Hposts]; split;
          [cbn [webhookBuffer setWebhookBuffer List.length]; lia | exact Hposts]).
    destruct r as [status statusText|err]; [|apply sendLog_bounded].
    apply preserves_tryCatch; [|apply sendLog_bounded].
    apply preserves_bind; [|intros _; exact Hclear].
    apply preserves_when. intros _. apply sendLog_bounded.
  - intros st [Hlen Hposts]. unfold exit_settled, exit_resume, bind, when, modify, ret.
    destruct r as [status statusText|err]; [destruct (negb (status =? 204))|];
      cbn [finalState]; split;
      cbn [webhookBuffer trace emit setWebhookBuffer List.length];
      rewrite ?posts_app; cbn [posts]; rewrite ?app_nil_r; try assumption; lia.
Qed.

Lemma run_bounded dateFormat toISOString clock mkdirSync (stack : nat) (this : Logger)
    (actions : list Action) :
  forall st, batchBounded st ->
             batchBounded (run dateFormat toISOString clock mkdirSync stack this actions st).
Proof.
  induction actions as [|a rest IH]; intros st H; cbn [run]; [exact H|].
  apply IH. now apply perform_bounded.
Qed.

Lemma sendWebhook_settled_response dateFormat toISOString clock mkdirSync (depth : nat)
    (this : Logger) (status : Z) (statusText : string) (st : State) :
  webhookBuffer
    (finalState (sendWebhook_settled dateFormat toISOString clock mkdirSync (S depth) this
                                     (Response status statusText) st))
  = [].
Proof.
  unfold sendWebhook_settled, tryCatch, bind, fatalRate.
  destruct (negb (status =? 204)); cbn [when]; [|reflexivity].
  rewrite sendLog_returns. reflexivity.
Qed.

(** A record of the internal level, with values that serialise, through
    [sendLog]: the clock is read, the line is printed if the level is shown,
    the record goes to the file sink if the level is stored (a file sink
    that throws is reported on the error stream), and the webhook sink is
    not entered. *)
Lemma sendLog_internal_record dateFormat toISOString clock mkdirSync (depth : nat)
    (this : Logger) (msg data : JsValue) (st : State) :
  clean msg = true -> clean data = true ->
  let t := clock (ticks st) in
  let fd := dateFormat t (dateformat (formatSettings this)) in
  let line := formTxtLog this fd (convert msg) FATALRATE (convert data) in
  let printed := if consoleGuard this FATALRATE
                 then emit (Stdout FATALRATE line) (tick st) else tick st in
  finalState (sendLog dateFormat toISOString clock mkdirSync (S depth) this FATALRATE
                      msg data st)
  = if fileGuard this FATALRATE
    then match filed dateFormat toISOString mkdirSync this t fd (convert msg) FATALRATE
                     (convert data) line printed with
         | Returned _ stored => stored
         | Thrown refused => emit (ConsoleError "There was an issue logging data") refused
         end
    else printed.
Proof.
  intros Hmsg Hdata t fd line printed. rewrite sendLog_clean by assumption.
  unfold tryCatch, sinks. fold t. fold fd. fold line.
  rewrite bind_when_modify. cbv beta. fold printed.
  destruct (fileGuard this FATALRATE).
  - unfold bind. cbn [when]. rewrite logToFile_filed.
    destruct (filed dateFormat toISOString mkdirSync this t fd (convert msg) FATALRATE
                    (convert data) line printed) as [[] stored|refused].
    + destruct (enable (webhookSettings this)); reflexivity.
    + reflexivity.
  - rewrite bind_when_false.
    destruct (enable (webhookSettings this)); reflexivity.
Qed.

Lemma sendLog_internal_stdout dateFormat toISOString clock mkdirSync (depth : nat)
    (this : Logger) (msg data : JsValue) (st : State) (target : LogLevel) :
  clean msg = true -> clean data = true ->
  stdoutAt target
    (trace (finalState (sendLog dateFormat toISOString clock mkdirSync (S depth) this
                                FATALRATE msg data st)))
  = (stdoutAt target (trace st)
     ++ (if consoleGuard this FATALRATE && LogLevel_eqb target FATALRATE
         then [formTxtLog this
                 (dateFormat (clock (ticks st)) (dateformat (formatSettings this)))
                 (convert msg) FATALRATE (convert data)]
         else []))%list.
Proof.
  intros Hmsg Hdata.
  rewrite (sendLog_internal_record dateFormat toISOString clock mkdirSync depth this msg data
             st Hmsg Hdata).
  cbv zeta.
  set (line := formTxtLog this _ (convert msg) FATALRATE (convert data)).
  set (printed := if consoleGuard this FATALRATE
                  then emit (Stdout FATALRATE line) (tick st) else tick st).
  assert (Hprinted : stdoutAt target (trace printed)
                     = (stdoutAt target (trace st)
                        ++ (if consoleGuard this FATALRATE && LogLevel_eqb target FATALRATE
                            then [line] else []))%list).
  { subst printed. destruct (consoleGuard this FATALRATE); cbn [andb].
    - cbn [trace emit tick]. rewrite stdoutAt_app. cbn [stdoutAt].
      assert (Hsym : LogLevel_eqb FATALRATE target = LogLevel_eqb target FATALRATE)
        by now destruct target.
      rewrite ?Hsym. now destruct (LogLevel_eqb target FATALRATE).
    - cbn [trace tick]. now rewrite app_nil_r. }
  destruct (fileGuard this FATALRATE); [|exact Hprinted].
  match goal with
  | |- context [filed ?a ?b ?c ?e ?f ?g ?h ?i ?j ?k ?s] =>
      pose proof (filed_stdout a b c e f g h i j k s target) as Hfiled;
      destruct (filed a b c e f g h i j k s) as [[] stored|refused]
  end; cbn [finalState] in Hfiled.
  - now rewrite Hfiled.
  - cbn [trace emit]. rewrite stdoutAt_app. cbn [stdoutAt].
    now rewrite app_nil_r, Hfiled.
Qed.

(** C2: the webhook batch and its deliveries.  Along every run of a logger
    from its initial state (print calls, shutdown calls and settlings in any
    order) the batch holds at most 7 items between steps and every request
    carries at most 8 embeds, those of [sendWebhook] exactly 8.  One call of
    [sendWebhook] that passes its guards appends the record and then issues
    a request, carrying the whole batch, exactly when the batch has reached
    8 items; above 8 it issues none, dispatches one FATALRATE record through
    [fatalRate] and discards the batch: that record, whose message is the
    overflow report and whose data is the size of the batch, is printed once
    on the console if FATALRATE is shown and handed once to the file sink if
    FATALRATE is stored, and what is left is the state after that record
    with an empty batch.  The batch is empty right after an attempt or an
    overflow and is the extended batch otherwise; and it is empty again
    after the response of an attempt, whatever its status. *)
Theorem webhook_batch_bounded_and_posted_at_eight :
  (forall dateFormat toISOString clock mkdirSync (stack : nat) (this : Logger)
          (actions : list Action),
      batchBounded (run dateFormat toISOString clock mkdirSync stack this actions initialState))
  /\ (forall dateFormat toISOString clock mkdirSync (depth : nat) (this : Logger) (t : Z)
             (fd m : string) (lvl : LogLevel) (d line : string) (st : State)
             (target : string),
         LogLevel_eqb lvl FATALRATE = false ->
         url (webhookSettings this) = Some target ->
         form (webhookSettings this) = Discord ->
         let err := error dateFormat toISOString clock mkdirSync (S depth) this in
         let fr := fatalRate dateFormat toISOString clock mkdirSync (S depth) this in
         let out := sendWebhook err fr this t fd m lvl d line st in
         let batch := (webhookBuffer st ++ [newEmbed this fd m lvl d])%list in
         let size := List.length batch in
         returned out = true
         /\ posts (trace (finalState out))
            = (posts (trace st)
               ++ (if (size =? 8)%nat then [(FromSendWebhook, batch)] else []))%list
         /\ webhookBuffer (finalState out) = (if (size <? 8)%nat then batch else [])
         /\ ((8 < size)%nat ->
             let report := "Webhook Buffer too large to send in one message!" in
             let now := clock (ticks st) in
             let stamp := dateFormat now (dateformat (formatSettings this)) in
             let text := formTxtLog this stamp report FATALRATE (decimal (Z.of_nat size)) in
             let read := tick (setWebhookBuffer batch st) in
             let printed := if consoleGuard this FATALRATE
                            then emit (Stdout FATALRATE text) read else read in
             let recorded :=
               if fileGuard this FATALRATE
               then match filed dateFormat toISOString mkdirSync this now stamp report
                                FATALRATE (decimal (Z.of_nat size)) text printed with
                    | Returned _ stored => stored
                    | Thrown refused =>
                        emit (ConsoleError "There was an issue logging data") refused
                    end
               else printed in
             finalState out
             = setWebhookBuffer []
                 (finalState
                    (fr (JString report) (JNumber (Z.of_nat size)) (setWebhookBuffer batch st)))
             /\ finalState out = setWebhookBuffer [] recorded
             /\ stdoutAt FATALRATE (trace (finalState out))
                = (stdoutAt FATALRATE (trace st)
                   ++ (if consoleGuard this FATALRATE then [text] else []))%list
             /\ (forall other, LogLevel_eqb other FATALRATE = false ->
                               stdoutAt other (trace (finalState out))
                               = stdoutAt other (trace st))))
  /\ (forall dateFormat toISOString clock mkdirSync (depth : nat) (this : Logger)
             (status : Z) (statusText : string) (st : State),
         webhookBuffer
           (finalState (sendWebhook_settled dateFormat toISOString clock mkdirSync (S depth) this
                                            (Response status statusText) st))
         = []).
Proof.
  split.
  { intros. apply run_bounded. split; [cbn; lia | constructor]. }
  split; [|exact sendWebhook_settled_response].
  intros dateFormat toISOString clock mkdirSync depth this t fd m lvl d line st target
         Hlvl Hurl Hform err fr out batch size.
  subst out. rewrite (sendWebhook_discord err fr this t fd m lvl d line st target
                        Hlvl Hurl Hform).
  cbv zeta. fold batch.
  assert (Hsize : size = S (List.length (webhookBuffer st)))
    by (subst size batch; rewrite length_app; cbn [List.length]; lia).
  rewrite <- Hsize.
  destruct (Nat.ltb_spec 8 size) as [Hover|Hfits].
  - unfold bind. subst fr. unfold fatalRate.
    rewrite sendLog_returns. unfold modify. cbn [returned finalState].
    destruct (sendLog_internal_level dateFormat toISOString clock mkdirSync depth this
                (JString "Webhook Buffer too large to send in one message!")
                (JNumber (Z.of_nat size)) (setWebhookBuffer batch st) eq_refl eq_refl)
      as [_ Hposts].
    cbn [trace webhookBuffer setWebhookBuffer] in *. rewrite Hposts.
    destruct (Nat.eqb_spec size 8); [lia|].
    destruct (Nat.ltb_spec size 8); [lia|].
    rewrite app_nil_r.
    split; [reflexivity | split; [reflexivity | split; [reflexivity|]]].
    intros _. cbv zeta.
    pose proof (sendLog_internal_record dateFormat toISOString clock mkdirSync depth this
                  (JString "Webhook Buffer too large to send in one message!")
                  (JNumber (Z.of_nat size)) (setWebhookBuffer batch st) eq_refl eq_refl)
      as Hrecord.
    cbv zeta in Hrecord.
    change (ticks (setWebhookBuffer batch st)) with (ticks st) in Hrecord.
    change (convert (JString "Webhook Buffer too large to send in one message!"))
      with "Webhook Buffer too large to send in one message!" in Hrecord.
    change (convert (JNumber (Z.of_nat size))) with (decimal (Z.of_nat size)) in Hrecord.
    split; [reflexivity|]. split; [now rewrite Hrecord|].
    assert (Hout : forall shown,
               stdoutAt shown
                 (trace (setWebhookBuffer []
                    (finalState
                       (sendLog dateFormat toISOString clock mkdirSync (S depth) this FATALRATE
                          (JString "Webhook Buffer too large to send in one message!")
                          (JNumber (Z.of_nat size)) (setWebhookBuffer batch st)))))
               = (stdoutAt shown (trace st)
                  ++ (if consoleGuard this FATALRATE && LogLevel_eqb shown FATALRATE
                      then [formTxtLog this
                              (dateFormat (clock (ticks st)) (dateformat (formatSettings this)))
                              "Webhook Buffer too large to send in one message!" FATALRATE
                              (decimal (Z.of_nat size))]
                      else []))%list).
    { intros shown.
      exact (sendLog_internal_stdout dateFormat toISOString clock mkdirSync depth this
               (JString "Webhook Buffer too large to send in one message!")
               (JNumber (Z.of_nat size)) (setWebhookBuffer batch st) shown
               eq_refl eq_refl). }
    split.
    + rewrite Hout. now rewrite andb_true_r.
    + intros other Hother. rewrite Hout, Hother, andb_false_r. apply app_nil_r.
  - destruct (Nat.eqb_spec size 8) as [Heq|Hneq]; cbn [returned finalState].
    + destruct (Nat.ltb_spec size 8); [lia|].
      cbn [trace emit webhookBuffer setWebhookBuffer]. rewrite posts_app. cbn [posts].
      split; [reflexivity | split; [reflexivity | split; [reflexivity|]]]. lia.
    + destruct (Nat.ltb_spec size 8); [|lia].
      cbn [trace webhookBuffer setWebhookBuffer]. rewrite app_nil_r.
      split; [reflexivity | split; [reflexivity | split; [reflexivity|]]]. lia.
Qed.

Lemma webhook_batch_bounded_and_posted_at_eight_witness :
  let send (text : string) (st : State) :=
    sendWebhook (error sampleDateFormat sampleISO sampleClock sampleDisk 1 sampleDiscordLogger)
                (fatalRate sampleDateFormat sampleISO sampleClock sampleDisk 1 sampleDiscordLogger)
                sampleDiscordLogger (sampleClock 0) "2024-06-20 17:39:05:514 GMT+0100"
                text INFO "" ("[INFO] " ++ text) st in
  let eight := (sevenEmbeds ++ [sampleEmbed "8"])%list in
  (returned (send "8" (stateWithBatch sevenEmbeds)) = true
   /\ posts (trace (finalState (send "8" (stateWithBatch sevenEmbeds))))
      = [(FromSendWebhook, eight)]
   /\ webhookBuffer (finalState (send "8" (stateWithBatch sevenEmbeds))) = [])
  /\ (posts (trace (finalState (send "9" (stateWithBatch eight)))) = []
      /\ webhookBuffer (finalState (send "9" (stateWithBatch eight))) = []
      /\ stdoutAt FATALRATE (trace (finalState (send "9" (stateWithBatch eight))))
         = [formTxtLog sampleDiscordLogger
              (sampleDateFormat (sampleClock 0) (dateformat (formatSettings sampleDiscordLogger)))
              "Webhook Buffer too large to send in one message!" FATALRATE "9"]).
Proof.
  cbv zeta. split.
  - pose proof (proj1 (proj2 webhook_batch_bounded_and_posted_at_eight)
                  sampleDateFormat sampleISO sampleClock sampleDisk 0%nat sampleDiscordLogger
                  (sampleClock 0) "2024-06-20 17:39:05:514 GMT+0100" "8" INFO ""
                  "[INFO] 8" (stateWithBatch sevenEmbeds)
                  "https://discord.example/api/webhooks/1" eq_refl eq_refl eq_refl) as H.
    cbv zeta in H. destruct H as (Hret & Hposts & Hbuf & _).
    split; [exact Hret | split; [exact Hposts | exact Hbuf]].
  - pose proof (proj1 (proj2 webhook_batch_bounded_and_posted_at_eight)
                  sampleDateFormat sampleISO sampleClock sampleDisk 0%nat sampleDiscordLogger
                  (sampleClock 0) "2024-06-20 17:39:05:514 GMT+0100" "9" INFO ""
                  "[INFO] 9" (stateWithBatch (sevenEmbeds ++ [sampleEmbed "8"]))
                  "https://discord.example/api/webhooks/1" eq_refl eq_refl eq_refl) as H.
    cbv zeta in H. destruct H as (_ & Hposts & Hbuf & Hover).
    split; [exact Hposts | split; [exact Hbuf|]].
    assert (Hnine : (8 < List.length ((sevenEmbeds ++ [sampleEmbed "8"])
                                      ++ [newEmbed sampleDiscordLogger
                                            "2024-06-20 17:39:05:514 GMT+0100" "9" INFO ""]))%nat)
      by (vm_compute; lia).
    exact (proj1 (proj2 (proj2 (Hover Hnine)))).
Defined.

(** Nine records for the webhook: one request with the first eight, and the
    ninth opens a new batch. *)
Example nine_records_one_post :
  let st := run sampleDateFormat sampleISO sampleClock sampleDisk 2 sampleDiscordLogger
                (map (fun text => Print INFO (JString text) JUndefined)
                     ["1"; "2"; "3"; "4"; "5"; "6"; "7"; "8"; "9"])
                initialState in
  map (fun p => List.length (snd p)) (posts (trace st)) = [8%nat]
  /\ List.length (webhookBuffer st) = 1%nat.
Proof. vm_compute. split; reflexivity. Qed.

(** ** Construction *)

(** Induction on values that reaches the items of arrays and objects. *)
Section JsValueInduction.

Variable P : JsValue -> Prop.
Hypothesis P_undefined : P JUndefined.
Hypothesis P_null : P JNull.
Hypothesis P_bool : forall b, P (JBool b).
Hypothesis P_number : forall n, P (JNumber n).
Hypothesis P_bigint : forall n, P (JBigInt n).
Hypothesis P_string : forall s, P (JString s).
Hypothesis P_symbol : forall d, P (JSymbol d).
Hypothesis P_function : forall src, P (JFunction src).
Hypothesis P_date : forall iso, P (JDate iso).
Hypothesis P_circular : P JCircular.
Hypothesis P_array : forall items, Forall P items -> P (JArray items).
Hypothesis P_object :
  forall props, Forall (fun kv => P (snd kv)) props -> P (JObject props).

Lemma JsValue_nested_ind : forall v : JsValue, P v.
Proof.
  fix IH 1. intros [ | |b|n|n|s|d|src|iso| |items|props].
  - exact P_undefined.
  - exact P_null.
  - apply P_bool.
  - apply P_number.
  - apply P_bigint.
  - apply P_string.
  - apply P_symbol.
  - apply P_function.
  - apply P_date.
  - exact P_circular.
  - apply P_array. induction items as [|x rest IHrest]; constructor;
      [apply IH | exact IHrest].
  - apply P_object. induction props as [|kv rest IHrest]; constructor;
      [apply IH | exact IHrest].
Qed.

End JsValueInduction.

Lemma serialisable_serialises (v : JsValue) :
  serialisable v = true ->
  forall gap indent, SerializeJSONProperty gap indent v <> SerThrows.
Proof.
  induction v using JsValue_nested_ind; intros Hfree gap indent;
    try discriminate; cbn [SerializeJSONProperty].
  - destruct b; discriminate.
  - destruct n; discriminate.
  - destruct iso; discriminate.
  - cbn [serialisable] in Hfree.
    assert (Hitems : serializeElements
                       (SerializeJSONProperty gap (indent ++ gap)) items <> None).
    { induction H as [|x rest Hx Hrest IH]; cbn [serializeElements]; [discriminate|].
      cbn [forallb] in Hfree. apply andb_prop in Hfree as [Hfx Hfrest].
      specialize (Hx Hfx gap (indent ++ gap)). specialize (IH Hfrest).
      destruct (SerializeJSONProperty gap (indent ++ gap) x); [contradiction| |];
        destruct (serializeElements _ rest); cbn [option_map]; congruence. }
    destruct (serializeElements _ items); [discriminate | contradiction].
  - cbn [serialisable] in Hfree.
    assert (Hprops : forall colon,
               serializeMembers (SerializeJSONProperty gap (indent ++ gap)) colon props
               <> None).
    { intros colon.
      induction H as [|[k x] rest Hx Hrest IH]; cbn [serializeMembers]; [discriminate|].
      cbn [forallb snd] in Hfree. apply andb_prop in Hfree as [Hfx Hfrest].
      cbn [snd] in Hx. specialize (Hx Hfx gap (indent ++ gap)). specialize (IH Hfrest).
      destruct (SerializeJSONProperty gap (indent ++ gap) x); [contradiction| |];
        [exact IH|]. destruct (serializeMembers _ _ rest); cbn [option_map]; congruence. }
    specialize (Hprops (if String.eqb gap "" then ":" else ": ")).
    destruct (serializeMembers _ _ props); [discriminate | contradiction].
Qed.

Lemma levelsJs_serialisable (ls : list LogLevel) : serialisable (levelsJs ls) = true.
Proof.
  unfold levelsJs. cbn [serialisable].
  induction ls as [|l rest IH]; [reflexivity | exact IH].
Qed.

Lemma settingsJs_serialisable (this : Logger) :
  serialisable (formatSettingsJs (formatSettings this)) = true
  /\ serialisable (storageSettingsJs (storageSettings this)) = true
  /\ serialisable (webhookSettingsJs (webhookSettings this)) = true.
Proof.
  unfold formatSettingsJs, storageSettingsJs, webhookSettingsJs.
  cbn [serialisable forallb snd]. rewrite !levelsJs_serialisable.
  destruct (url (webhookSettings this)); repeat split.
Qed.

Lemma alwaysReturns_bind {A B : Type} (m : M A) (k : A -> M B) :
  alwaysReturns m -> (forall a, alwaysReturns (k a)) -> alwaysReturns (bind m k).
Proof.
  intros Hm Hk st. unfold bind. specialize (Hm st).
  destruct (m st) as [a st'|st']; [apply Hk | discriminate Hm].
Qed.

Lemma alwaysReturns_sendLog dateFormat toISOString clock mkdirSync (depth : nat) (this : Logger)
    (lvl : LogLevel) (msg data : JsValue) :
  alwaysReturns (sendLog dateFormat toISOString clock mkdirSync (S depth) this lvl msg data).
Proof. intros st. now rewrite sendLog_returns. Qed.

Lemma alwaysReturns_stringify4 (v : JsValue) :
  serialisable v = true -> alwaysReturns (stringify4 v).
Proof.
  intros Hfree st. unfold stringify4, JSON_stringify4.
  pose proof (serialisable_serialises v Hfree "    " "") as H.
  destruct (SerializeJSONProperty "    " "" v); [contradiction | reflexivity | reflexivity].
Qed.

(** With a frame for its print calls the constructor returns the logger
    with the merged settings, whatever these are. *)
Lemma constructor_returns dateFormat toISOString clock mkdirSync (dev : bool) (depth : nat)
    (main sub : string) (user : CustomLoggerSettings) (st : State) :
  exists st',
    constructor dateFormat toISOString clock mkdirSync dev (S depth) main sub user st
    = Returned (mergeSettings dev main sub user) st'.
Proof.
  unfold constructor. cbv zeta.
  set (this := mergeSettings dev main sub user).
  destruct (settingsJs_serialisable this) as (Hshow & Hstore & Hhook).
  match goal with |- context [tryCatch ?body ?handler] =>
    assert (Hbody : alwaysReturns body) end.
  { unfold success, debug.
    repeat (first [ apply alwaysReturns_bind; [|intros ?]
                  | apply alwaysReturns_sendLog
                  | apply alwaysReturns_stringify4; assumption ]). }
  unfold bind at 1. unfold tryCatch. specialize (Hbody st).
  match goal with |- context [match ?m st with _ => _ end] =>
    destruct (m st) as [[] st1|st1] end; [|discriminate Hbody].
  eexists. reflexivity.
Qed.

Lemma stdoutAt_emit_other (target : LogLevel) (e : Event) (st : State) :
  (forall text, e <> Stdout target text) ->
  stdoutAt target (trace (emit e st)) = stdoutAt target (trace st).
Proof.
  intros Hother. cbn [trace emit]. rewrite stdoutAt_app.
  destruct e; cbn [stdoutAt]; rewrite ?app_nil_r; try reflexivity.
  destruct (LogLevel_eqb lvl target) eqn:Heq; [|now rewrite app_nil_r].
  exfalso. apply (Hother text). f_equal.
  destruct lvl, target; try discriminate; reflexivity.
Qed.

(** A dispatch at any level but FATAL prints no FATAL line: the records it
    raises itself are ERROR and FATALRATE records. *)
Lemma sendLog_no_fatal_line dateFormat toISOString clock mkdirSync (this : Logger)
    (k : list string) (stack : nat) (lvl : LogLevel) (msg data : JsValue) :
  lvl <> FATAL ->
  preserves (fun s => stdoutAt FATAL (trace s) = k)
            (sendLog dateFormat toISOString clock mkdirSync stack this lvl msg data).
Proof.
  intros Hlvl.
  apply (sendLog_preserves_at dateFormat toISOString clock mkdirSync this
           (fun s => stdoutAt FATAL (trace s) = k)
           (fun l => negb (LogLevel_eqb l FATAL))); try reflexivity.
  - intros st H. exact H.
  - intros st text H. rewrite stdoutAt_emit_other; [exact H | discriminate].
  - intros st l text Hallowed _ H. rewrite stdoutAt_emit_other; [exact H|].
    intros t Heq. injection Heq as -> _. discriminate Hallowed.
  - intros st l t fd m d line _ _ H. now rewrite filed_stdout.
  - intros err fr l t fd m d line Herr Hfr _ _.
    apply sendWebhook_preserves; try assumption.
    + intros st b H. exact H.
    + intros st target user embeds H. rewrite stdoutAt_emit_other; [exact H | discriminate].
  - destruct lvl; try reflexivity. now elim Hlvl.
Qed.

Lemma constructor_no_fatal_line dateFormat toISOString clock mkdirSync (dev : bool) (stack : nat)
    (main sub : string) (user : CustomLoggerSettings) (k : list string) :
  preserves (fun s => stdoutAt FATAL (trace s) = k)
            (constructor dateFormat toISOString clock mkdirSync dev stack main sub user).
Proof.
  assert (Hser : forall v, preserves (fun s => stdoutAt FATAL (trace s) = k) (stringify4 v)).
  { intros v st H. unfold stringify4. destruct (JSON_stringify4 v); exact H. }
  unfold constructor. cbv zeta. unfold success, debug.
  apply preserves_bind.
  - apply preserves_tryCatch.
    + repeat (first [ apply preserves_bind; [|intros ?]
                    | apply sendLog_no_fatal_line; discriminate
                    | apply Hser ]).
    + apply preserves_bind.
      * apply preserves_modify. intros st H.
        rewrite stdoutAt_emit_other; [exact H | discriminate].
      * intros _ st H. unfold processExit. cbn [finalState].
        rewrite stdoutAt_emit_other; [exact H | discriminate].
  - intros _. apply preserves_bind; [|intros; apply preserves_ret].
    apply preserves_modify. intros st H.
    rewrite stdoutAt_emit_other; [exact H | discriminate].
Qed.

(** Outside batch mode [logToFile] writes the record through and leaves the
    buffer as it is. *)
Lemma submitted_write_through dateFormat toISOString (this : Logger) (t : Z)
    (fd m : string) (lvl : LogLevel) (d line : string) (st : State) :
  batching this = false ->
  let st' := submitted dateFormat toISOString this t fd m lvl d line st in
  logBuffer st' = logBuffer st
  /\ trace st'
     = (trace st
        ++ [EnsureDir (fst (generatePaths dateFormat this t))]
        ++ (if txt (storageSettings this)
            then [Append (snd (generatePaths dateFormat this t) ++ "txt.log")
                         (line ++ newline)]
            else [])
        ++ (if json (storageSettings this)
            then [Append (snd (generatePaths dateFormat this t) ++ "json.log")
                         (jsonLine toISOString this t fd m lvl d ++ newline)]
            else []))%list.
Proof.
  intros Hoff. cbv zeta. unfold submitted. rewrite Hoff.
  destruct (generatePaths dateFormat this t) as [dir loc].
  destruct (txt (storageSettings this)), (json (storageSettings this));
    cbn [logBuffer trace emit fst snd]; rewrite <- ?app_assoc; split; reflexivity.
Qed.

(** Outside batch mode [logToFile] writes through, or throws before it has
    done anything. *)
Lemma logToFile_write_through dateFormat toISOString mkdirSync
    (err : JsValue -> JsValue -> M unit) (this : Logger) (t : Z) (fd m : string)
    (lvl : LogLevel) (d line : string) (st : State) :
  batching this = false ->
  logToFile dateFormat toISOString mkdirSync err this t fd m lvl d line st
  = if mkdirSync (ticks st) (fst (generatePaths dateFormat this t))
    then Returned tt (submitted dateFormat toISOString this t fd m lvl d line st)
    else Thrown st.
Proof.
  intros Hoff. rewrite logToFile_filed. unfold filed, reachesDisk, kept.
  rewrite Hoff. cbn [negb orb andb].
  now destruct (mkdirSync (ticks st) (fst (generatePaths dateFormat this t))).
Qed.

Lemma exitWebhook_fileEvents (this : Logger) (st : State) :
  fileEvents (trace (exitWebhook this st)) = fileEvents (trace st).
Proof.
  unfold exitWebhook.
  destruct (url (webhookSettings this)) as [target|];
    [destruct (0 <? _)%nat|]; cbn [trace emit];
    rewrite ?fileEvents_app; cbn [fileEvents]; now rewrite ?app_nil_r.
Qed.

(** C6 (amended): a configuration with strategy batch and a batch size of
    at most 1 is accepted.  The constructor returns the logger carrying
    exactly that combination, without ending the process and without
    printing a FATAL record.  From then on [logToFile] writes every record
    through at once, as under strategy single: when the directory of the
    bucket is there or can be created, the directory, then one append per
    enabled format, with the buffer left untouched; otherwise the call
    throws and has done nothing.  Shutdown looks at the strategy alone and
    still runs the drain of the batch strategy: on the empty buffer it makes
    sure of the directory and appends empty content to each enabled file,
    which a logger with strategy single never does. *)
Theorem contradictory_batch_settings_fall_back_to_single :
  forall dateFormat toISOString clock mkdirSync (dev : bool) (depth : nat) (main sub : string)
         (user : CustomLoggerSettings) (st : State),
    let this := mergeSettings dev main sub user in
    stratagy (storageSettings this) = Batch ->
    batch (storageSettings this) <= 1 ->
    (exists st',
        constructor dateFormat toISOString clock mkdirSync dev (S depth) main sub user st
        = Returned this st'
        /\ stdoutAt FATAL (trace st') = stdoutAt FATAL (trace st))
    /\ (forall (err : JsValue -> JsValue -> M unit) (t : Z) (fd m : string)
               (lvl : LogLevel) (d line : string) (s : State),
           let out := logToFile dateFormat toISOString mkdirSync err this t fd m lvl d line s in
           (mkdirSync (ticks s) (fst (generatePaths dateFormat this t)) = true ->
            returned out = true
            /\ logBuffer (finalState out) = logBuffer s
            /\ trace (finalState out)
               = (trace s
                  ++ [EnsureDir (fst (generatePaths dateFormat this t))]
                  ++ (if txt (storageSettings this)
                      then [Append (snd (generatePaths dateFormat this t) ++ "txt.log")
                                   (line ++ newline)]
                      else [])
                  ++ (if json (storageSettings this)
                      then [Append (snd (generatePaths dateFormat this t) ++ "json.log")
                                   (jsonLine toISOString this t fd m lvl d ++ newline)]
                      else []))%list)
           /\ (mkdirSync (ticks s) (fst (generatePaths dateFormat this t)) = false ->
               out = Thrown s))
    /\ (forall (stack : nat) (reason : JsValue) (s : State),
           let out := exit dateFormat toISOString clock mkdirSync stack this reason s in
           let paths := generatePaths dateFormat this (clock (ticks s)) in
           mkdirSync (S (ticks s)) (fst paths) = true ->
           logBuffer s = [] ->
           logBuffer (finalState out) = []
           /\ fileEvents (trace (finalState out))
              = (fileEvents (trace s)
                 ++ [EnsureDir (fst paths)]
                 ++ (if txt (storageSettings this)
                     then [Append (snd paths ++ "txt.log") ""] else [])
                 ++ (if json (storageSettings this)
                     then [Append (snd paths ++ "json.log") ""] else []))%list)
    /\ (forall (stack : nat) (reason : JsValue) (single : Logger) (s : State),
           stratagy (storageSettings single) = Single ->
           fileEvents (trace (finalState
                                (exit dateFormat toISOString clock mkdirSync stack single
                                      reason s)))
           = fileEvents (trace s)).
Proof.
  intros dateFormat toISOString clock mkdirSync dev depth main sub user st this Hbatch Hsize.
  assert (Hoff : batching this = false).
  { unfold batching. rewrite Hbatch. cbn [andb]. now apply Z.ltb_ge. }
  split; [|split; [|split]].
  - destruct (constructor_returns dateFormat toISOString clock mkdirSync dev depth main sub user st)
      as [st' Hrun].
    exists st'. split; [exact Hrun|].
    pose proof (constructor_no_fatal_line dateFormat toISOString clock mkdirSync dev (S depth)
                  main sub user (stdoutAt FATAL (trace st)) st eq_refl) as H.
    now rewrite Hrun in H.
  - intros err t fd m lvl d line s. cbv zeta.
    rewrite (logToFile_write_through dateFormat toISOString mkdirSync err this t fd m lvl d
               line s Hoff).
    split; intros Hdir; rewrite Hdir; [|reflexivity].
    cbn [returned finalState]. split; [reflexivity|].
    now apply submitted_write_through.
  - intros stack reason s. cbv zeta. intros Hdir Hempty.
    rewrite exit_exits. cbn [finalState]. unfold exited.
    rewrite exitWebhook_fileEvents.
    destruct (exitWebhook_files this
                (exitFile dateFormat clock mkdirSync this
                   (emit (ConsoleLog [JString "Shutting down gracefully with reason: ";
                                      reason]) s))) as (-> & _).
    unfold exitFile, extracted. rewrite Hbatch. cbv zeta.
    cbn [ticks tick emit]. rewrite Hdir.
    match goal with |- context [drained dateFormat this ?t ?x] =>
      rewrite (drained_trace dateFormat this t x);
      rewrite (proj1 (drained_rest dateFormat this t x))
    end.
    split; [reflexivity|].
    cbn [logBuffer trace emit tick]. rewrite Hempty.
    rewrite !fileEvents_app. cbn [fileEvents txtOf jsonOf map concatStrings fold_right].
    rewrite !app_nil_r.
    destruct (txt (storageSettings this)), (json (storageSettings this)); reflexivity.
  - intros stack reason single s Hsingle.
    rewrite exit_exits. cbn [finalState]. unfold exited.
    rewrite exitWebhook_fileEvents. unfold exitFile. rewrite Hsingle.
    cbn [trace emit]. rewrite fileEvents_app. cbn [fileEvents]. now rewrite app_nil_r.
Qed.

Lemma contradictory_batch_settings_fall_back_to_single_witness :
  let this := mergeSettings false "Testing" "testing even more" (batchRequest 1) in
  (exists st',
      constructor sampleDateFormat sampleISO sampleClock sampleDisk false 2 "Testing"
                  "testing even more" (batchRequest 1) initialState
      = Returned this st'
      /\ stdoutAt FATAL (trace st') = stdoutAt FATAL (trace initialState))
  /\ logBuffer (finalState
                  (logToFile sampleDateFormat sampleISO sampleDisk
                     (error sampleDateFormat sampleISO sampleClock sampleDisk 1 this) this
                     (sampleClock 0) "2024-06-20 17:39:05:514 GMT+0100" "hello" INFO ""
                     "[INFO] hello" initialState))
     = []
  /\ fileEvents (trace (finalState
                          (exit sampleDateFormat sampleISO sampleClock sampleDisk 1 this
                                (JString "done") initialState)))
     = [ EnsureDir "./logs/2024/06/";
         Append "./logs/2024/06/20.txt.log" "";
         Append "./logs/2024/06/20.json.log" "" ].
Proof.
  cbv zeta.
  pose proof (contradictory_batch_settings_fall_back_to_single
                sampleDateFormat sampleISO sampleClock sampleDisk false 1%nat "Testing"
                "testing even more" (batchRequest 1) initialState
                eq_refl ltac:(cbv; discriminate)) as (Hbuilt & Hsink & Hexit & _).
  split; [exact Hbuilt|]. split.
  - exact (proj1 (proj2 (proj1 (Hsink (error sampleDateFormat sampleISO sampleClock sampleDisk 1
                                (mergeSettings false "Testing" "testing even more"
                                               (batchRequest 1)))
                             (sampleClock 0) "2024-06-20 17:39:05:514 GMT+0100" "hello"
                             INFO "" "[INFO] hello" initialState) eq_refl))).
  - exact (proj2 (Hexit 1%nat (JString "done") initialState eq_refl eq_refl)).
Defined.

(** C6 as stated fails: asked for batches of one record, the constructor
    returns a logger that carries strategy batch with batch size 1; the
    process is not ended and nothing is printed at FATAL level (the one line
    on the console is the SUCCESS record of the constructor). *)
Lemma contradictory_batch_settings_counterexample :
  let out := constructor sampleDateFormat sampleISO sampleClock sampleDisk false 2 "Testing"
                         "testing even more" (batchRequest 1) initialState in
  (exists this st',
      out = Returned this st'
      /\ stratagy (storageSettings this) = Batch
      /\ batch (storageSettings this) = 1)
  /\ existsb isProcessExit (trace (finalState out)) = false
  /\ stdoutAt FATAL (trace (finalState out)) = []
  /\ stdoutAt SUCCESS (trace (finalState out))
     = ["[2024-06-20 17:39:05:514 GMT+0100] <Testing.testing even more> [SUCCESS] Initialised Logger"].
Proof.
  cbv zeta. split.
  - eexists. eexists. split; [vm_compute; reflexivity | split; reflexivity].
  - vm_compute. repeat split.
Qed.

(** ** Shutdown twice *)

(** The file part of a second shutdown flushes no record: the first call
    left the buffer empty, so the second appends empty content only. *)
Lemma second_shutdown_flushes_no_record dateFormat clock mkdirSync (this : Logger)
    (first second : JsValue) (st : State) (ext : string) :
  dependable mkdirSync ->
  stratagy (storageSettings this) = Batch ->
  let st1 := exited dateFormat clock mkdirSync this first st in
  let st2 := exited dateFormat clock mkdirSync this second st1 in
  logBuffer st1 = [] /\ logBuffer st2 = []
  /\ (ext = "txt.log" \/ ext = "json.log" ->
      concatStrings (appended ext (trace st2)) = concatStrings (appended ext (trace st1))).
Proof.
  intros Hdisk Hbatch st1 st2.
  destruct (exited_batch_files dateFormat clock mkdirSync this first st Hdisk Hbatch)
    as (Hb1 & _).
  destruct (exited_batch_files dateFormat clock mkdirSync this second st1 Hdisk Hbatch)
    as (Hb2 & _ & Htxt & Hjson).
  fold st1 in Hb1. fold st2 in Hb2, Htxt, Hjson.
  split; [exact Hb1 | split; [exact Hb2|]].
  intros [-> | ->].
  - rewrite Htxt, Hb1, concatStrings_app.
    destruct (txt (storageSettings this)); cbn; now rewrite append_nil_r.
  - rewrite Hjson, Hb1, concatStrings_app.
    destruct (json (storageSettings this)); cbn; now rewrite append_nil_r.
Qed.

(** Once the request of the first shutdown has been answered, whatever the
    status, a second shutdown issues no request. *)
Lemma shutdown_after_response_posts_nothing dateFormat clock mkdirSync (this : Logger)
    (reason : JsValue) (status : Z) (statusText : string) (st : State) :
  let answered := finalState (exit_settled (Response status statusText) st) in
  posts (trace (exited dateFormat clock mkdirSync this reason answered)) = posts (trace st).
Proof.
  cbv zeta.
  assert (Hempty : webhookBuffer
                     (finalState (exit_settled (Response status statusText) st)) = []).
  { unfold exit_settled, exit_resume, bind, when, modify, ret.
    destruct (negb (status =? 204)); reflexivity. }
  pose proof (exit_settled_posts (Response status statusText) st) as Hposts.
  revert Hempty Hposts.
  generalize (finalState (exit_settled (Response status statusText) st)).
  intros s Hempty Hposts. unfold exited.
  set (s1 := exitFile dateFormat clock mkdirSync this _).
  assert (Hs1 : webhookBuffer s1 = [] /\ posts (trace s1) = posts (trace st)).
  { subst s1.
    destruct (exitFile_webhook dateFormat clock mkdirSync this reason s) as (-> & -> & _).
    now split. }
  destruct Hs1 as [Hbuf <-]. unfold exitWebhook. rewrite Hbuf.
  destruct (url (webhookSettings this)); cbn [List.length Nat.ltb Nat.leb trace emit];
    rewrite posts_app; cbn [posts]; now rewrite app_nil_r.
Qed.

(** C4 (code defect): shutdown is not idempotent on the webhook side.  With
    one embed buffered and a target configured, one call of [exit] issues
    one request.  Two calls in a row issue two requests with the same embed,
    because [exit] does not clear the batch when it sends (unlike
    [sendWebhook]) but only in the callback of a response; and two calls
    separated by the failure of the first request also issue two, because
    the callback of a transport error leaves the batch in place.  Only when
    a response arrived in between does the second call send nothing. *)
Theorem shutdown_twice_posts_twice :
  let go := run sampleDateFormat sampleISO sampleClock sampleDisk 2 sampleDiscordLogger in
  let st := stateWithBatch [sampleEmbed "last"] in
  let first := Shutdown (JString "SIGINT") in
  let second := Shutdown (JString "Process exit") in
  let refused := Settle FromExit (NetworkError (JObject [("code", JString "ECONNREFUSED")])) in
  let answered := Settle FromExit (Response 204 "No Content") in
  posts (trace (go [first] st)) = [(FromExit, [sampleEmbed "last"])]
  /\ posts (trace (go [first; second] st))
     = [(FromExit, [sampleEmbed "last"]); (FromExit, [sampleEmbed "last"])]
  /\ posts (trace (go [first; refused; second] st))
     = [(FromExit, [sampleEmbed "last"]); (FromExit, [sampleEmbed "last"])]
  /\ posts (trace (go [first; answered; second] st)) = [(FromExit, [sampleEmbed "last"])].
Proof. cbv zeta. repeat split. Qed.

(** ** Serialisation failure *)

Lemma wrapData_throws (v : JsValue) : alwaysThrows v -> alwaysThrows (wrapData v).
Proof.
  intros Hthrows gap indent. unfold wrapData.
  cbn [SerializeJSONProperty serializeMembers]. now rewrite Hthrows.
Qed.

Lemma handleLogDatatype_throwing (err : JsValue -> JsValue -> M unit) (v : JsValue) :
  isObject v = true -> alwaysThrows v ->
  handleLogDatatype err v
  = (err (JString "Datatype of object is not json") (wrapData v) ;; ret "").
Proof.
  intros Hobj Hthrows. unfold handleLogDatatype, JSON_stringify4.
  rewrite Hthrows. destruct v; try discriminate Hobj; reflexivity.
Qed.

Lemma sendLogBody_sinks dateFormat toISOString clock mkdirSync
    (err fr : JsValue -> JsValue -> M unit) (this : Logger) (lvl : LogLevel)
    (msg data : JsValue) :
  sendLogBody dateFormat toISOString clock mkdirSync err fr this lvl msg data
  = tryCatch
      (t <- newDate clock ;;
       m <- handleLogDatatype err msg ;;
       d <- handleLogDatatype err data ;;
       sinks dateFormat toISOString mkdirSync err fr this lvl t m d)
      (modify (emit (ConsoleError "There was an issue logging data"))).
Proof. reflexivity. Qed.

Lemma sinks_console_only dateFormat toISOString mkdirSync (err fr : JsValue -> JsValue -> M unit)
    (this : Logger) (lvl : LogLevel) (t : Z) (m d : string) (st : State) :
  consoleGuard this lvl = true ->
  enable (webhookSettings this) = false ->
  stdoutAt lvl (trace (finalState (sinks dateFormat toISOString mkdirSync err fr this
                                         lvl t m d st)))
  = (stdoutAt lvl (trace st)
     ++ [formTxtLog this (dateFormat t (dateformat (formatSettings this))) m lvl d])%list.
Proof.
  intros Hconsole Hoff. unfold sinks. rewrite bind_when_modify, Hconsole, Hoff.
  cbv beta iota.
  assert (Hlvl : LogLevel_eqb lvl lvl = true) by now destruct lvl.
  destruct (fileGuard this lvl).
  - unfold bind, when. rewrite logToFile_filed.
    match goal with
    | |- context [filed ?a ?b ?c ?e ?f ?g ?h ?i ?j ?k ?s] =>
        pose proof (filed_stdout a b c e f g h i j k s lvl) as Hout;
        destruct (filed a b c e f g h i j k s) as [[] st1|st1]
    end; cbn [finalState ret] in *; rewrite Hout; cbn [trace emit];
      rewrite stdoutAt_app; cbn [stdoutAt]; now rewrite Hlvl.
  - rewrite bind_when_false. cbn [finalState ret when].
    cbn [trace emit]. rewrite stdoutAt_app. cbn [stdoutAt]. now rewrite Hlvl.
Qed.

Lemma sendLog_frame dateFormat toISOString clock mkdirSync (depth : nat) (this : Logger)
    (lvl : LogLevel) (msg data : JsValue) :
  sendLog dateFormat toISOString clock mkdirSync (S depth) this lvl msg data
  = sendLogBody dateFormat toISOString clock mkdirSync
      (sendLog dateFormat toISOString clock mkdirSync depth this ERROR)
      (sendLog dateFormat toISOString clock mkdirSync depth this FATALRATE)
      this lvl msg data.
Proof. reflexivity. Qed.

(** With the console printing ERROR records and the webhook off, the
    conversion of an object whose serialisation throws prints one ERROR
    line per stack frame that is left: the record it raises carries the
    object, whose conversion fails again one frame further down. *)
Lemma serialisation_failure_floods dateFormat toISOString clock mkdirSync (this : Logger) :
  consoleGuard this ERROR = true ->
  enable (webhookSettings this) = false ->
  forall (depth : nat) (v : JsValue) (st : State),
    isObject v = true -> alwaysThrows v ->
    exists st',
      handleLogDatatype (error dateFormat toISOString clock mkdirSync (S depth) this) v st
      = Returned "" st'
      /\ List.length (stdoutAt ERROR (trace st'))
         = (List.length (stdoutAt ERROR (trace st)) + depth)%nat.
Proof.
  intros Hconsole Hoff.
  induction depth as [|depth IH]; intros v st Hobj Hthrows.
  - rewrite handleLogDatatype_throwing by assumption.
    unfold bind at 1. unfold error. rewrite sendLog_frame, sendLogBody_sinks.
    unfold tryCatch. unfold bind at 1. unfold newDate at 1.
    unfold bind at 1.
    change (handleLogDatatype (sendLog dateFormat toISOString clock mkdirSync 0 this ERROR)
              (JString "Datatype of object is not json") (tick st))
      with (Returned "Datatype of object is not json" (tick st)).
    cbv beta iota. unfold bind at 1.
    rewrite (handleLogDatatype_throwing _ (wrapData v))
      by (try reflexivity; now apply wrapData_throws).
    unfold bind at 1. cbn [sendLog]. unfold throw at 1. cbv beta iota.
    unfold modify, ret. eexists. split; [reflexivity|].
    cbn [trace emit tick]. rewrite stdoutAt_app. cbn [stdoutAt].
    now rewrite app_nil_r, Nat.add_0_r.
  - rewrite handleLogDatatype_throwing by assumption.
    unfold bind at 1. unfold error at 1. rewrite sendLog_frame, sendLogBody_sinks.
    unfold tryCatch. unfold bind at 1. unfold newDate at 1.
    unfold bind at 1.
    change (handleLogDatatype (sendLog dateFormat toISOString clock mkdirSync (S depth) this ERROR)
              (JString "Datatype of object is not json") (tick st))
      with (Returned "Datatype of object is not json" (tick st)).
    cbv beta iota. unfold bind at 1.
    destruct (IH (wrapData v) (tick st) eq_refl (wrapData_throws v Hthrows))
      as (st1 & Hinner & Hcount1).
    change (error dateFormat toISOString clock mkdirSync (S depth) this)
      with (sendLog dateFormat toISOString clock mkdirSync (S depth) this ERROR) in Hinner.
    rewrite Hinner.
    pose proof (sinks_console_only dateFormat toISOString mkdirSync
                (sendLog dateFormat toISOString clock mkdirSync (S depth) this ERROR)
                (sendLog dateFormat toISOString clock mkdirSync (S depth) this FATALRATE)
                this ERROR (clock (ticks st)) "Datatype of object is not json" "" st1
                Hconsole Hoff) as Hcount2.
    destruct (sinks _ _ _ _ _ _ _ _ _ _ st1) as [[] st2|st2];
      cbn [finalState] in Hcount2; unfold modify, ret;
      (eexists; split; [reflexivity|]); cbn [trace emit];
      rewrite ?stdoutAt_app; cbn [stdoutAt]; rewrite ?app_nil_r;
      rewrite Hcount2, length_app, Hcount1; cbn [trace tick List.length]; lia.
Qed.

(** C8 (code defect): the conversion of an object that [JSON.stringify]
    rejects, here [{ a: 1n }], does return the empty string, but the ERROR
    record it raises carries that same object as its data, so dispatching
    the record fails in the same way one frame further down, and so on until
    the stack is exhausted.  With five frames left the default logger prints
    four ERROR records and one console error, not one ERROR record; with
    nine frames, eight. *)
Theorem serialisation_failure_raises_a_record_per_frame :
  let convert (frames : nat) :=
    handleLogDatatype (error sampleDateFormat sampleISO sampleClock sampleDisk frames sampleLogger)
                      bigintObject initialState in
  JSON_stringify4 bigintObject = SerThrows
  /\ (exists st,
         convert 5%nat = Returned "" st
         /\ List.length (stdoutAt ERROR (trace st)) = 4%nat
         /\ List.length (filter (fun e => match e with ConsoleError _ => true | _ => false end)
                                (trace st)) = 1%nat)
  /\ (exists st,
         convert 9%nat = Returned "" st
         /\ List.length (stdoutAt ERROR (trace st)) = 8%nat)
  /\ returned (convert 0%nat) = false.
Proof.
  cbv zeta. split; [reflexivity|]. split; [|split].
  - eexists. split; [vm_compute; reflexivity | split; vm_compute; reflexivity].
  - eexists. split; [vm_compute; reflexivity | vm_compute; reflexivity].
  - reflexivity.
Qed.

(** * Further properties of the code *)

(** ** Construction always completes *)

Lemma sendLog_never_exits dateFormat toISOString clock mkdirSync (this : Logger) (stack : nat)
    (lvl : LogLevel) (msg data : JsValue) :
  preserves (fun s => existsb isProcessExit (trace s) = false)
            (sendLog dateFormat toISOString clock mkdirSync stack this lvl msg data).
Proof.
  assert (Hemit : forall e st, isProcessExit e = false ->
            existsb isProcessExit (trace st) = false ->
            existsb isProcessExit (trace (emit e st)) = false).
  { intros e st He H. cbn [trace emit]. rewrite existsb_app, H. cbn. now rewrite He. }
  apply sendLog_preserves.
  - intros st H. exact H.
  - intros st text. now apply Hemit.
  - intros st l text _. now apply Hemit.
  - intros st l t fd m d line _ H.
    destruct (filed_appends dateFormat toISOString mkdirSync this t fd m l d line st)
      as [(events & -> & Hfile) _].
    rewrite existsb_app, H. cbn [orb].
    clear -Hfile. induction events as [|e rest IH]; [reflexivity|].
    cbn [forallb] in Hfile. apply andb_prop in Hfile as [He Hrest].
    cbn [existsb]. rewrite (IH Hrest). now destruct e.
  - intros err fr l t fd m d line Herr Hfr _.
    apply sendWebhook_preserves; try assumption.
    + intros st b H. exact H.
    + intros st target user embeds. now apply Hemit.
Qed.

(** X2: construction always completes.  For every user settings the
    constructor returns the logger carrying the merged settings, never ends
    the process, and its last effect is the registration of the exit hooks. *)
Theorem construction_always_completes :
  forall dateFormat toISOString clock mkdirSync (dev : bool) (depth : nat) (main sub : string)
         (user : CustomLoggerSettings),
  exists st1,
    constructor dateFormat toISOString clock mkdirSync dev (S depth) main sub user initialState
    = Returned (mergeSettings dev main sub user) (emit RegisterExitHooks st1)
    /\ existsb isProcessExit (trace st1) = false.
Proof.
  intros dateFormat toISOString clock mkdirSync dev depth main sub user.
  unfold constructor. cbv zeta.
  set (this := mergeSettings dev main sub user).
  destruct (settingsJs_serialisable this) as (Hshow & Hstore & Hhook).
  assert (Hser : forall v, preserves (fun s => existsb isProcessExit (trace s) = false)
                                     (stringify4 v)).
  { intros v st H. unfold stringify4. destruct (JSON_stringify4 v); exact H. }
  match goal with |- context [tryCatch ?body ?handler] =>
    assert (Hbody : alwaysReturns body);
    [| assert (Hquiet : preserves (fun s => existsb isProcessExit (trace s) = false) body) ]
  end.
  { unfold success, debug.
    repeat (first [ apply alwaysReturns_bind; [|intros ?]
                  | apply alwaysReturns_sendLog
                  | apply alwaysReturns_stringify4; assumption ]). }
  { unfold success, debug.
    repeat (first [ apply preserves_bind; [|intros ?]
                  | apply sendLog_never_exits
                  | apply Hser ]). }
  unfold bind at 1. unfold tryCatch.
  specialize (Hbody initialState). specialize (Hquiet initialState eq_refl).
  match goal with |- context [match ?m initialState with _ => _ end] =>
    destruct (m initialState) as [[] st1|st1] end; [|discriminate Hbody].
  exists st1. split; [reflexivity | exact Hquiet].
Qed.

(** ** Conversion of the values that serialise *)

Lemma convertible_clean (v : JsValue) : convertible v = true -> clean v = true.
Proof.
  unfold convertible, clean, JSON_stringify4. intros H.
  destruct v as [ | | b | n | n | s | d | src | [iso|] | | items | props];
    try reflexivity; cbn [isObject negb orb] in H; try discriminate H.
  - pose proof (serialisable_serialises (JArray items) H "    " "") as Hser.
    destruct (SerializeJSONProperty "    " "" (JArray items)); congruence.
  - pose proof (serialisable_serialises (JObject props) H "    " "") as Hser.
    destruct (SerializeJSONProperty "    " "" (JObject props)); congruence.
Qed.

(** A BigInt or a circular reference anywhere in a value makes its
    serialisation throw, whatever the indentation. *)
Lemma unserialisable_throws (v : JsValue) :
  serialisable v = false -> alwaysThrows v.
Proof.
  unfold alwaysThrows.
  induction v using JsValue_nested_ind; intros Hbad gap indent;
    try discriminate Hbad; try reflexivity; cbn [SerializeJSONProperty].
  - cbn [serialisable] in Hbad.
    assert (Hitems : serializeElements
                       (SerializeJSONProperty gap (indent ++ gap)) items = None).
    { induction H as [|x rest Hx Hrest IH]; [discriminate Hbad|].
      cbn [forallb] in Hbad. cbn [serializeElements].
      destruct (serialisable x) eqn:Hsx.
      - cbn [andb] in Hbad. rewrite (IH Hbad).
        now destruct (SerializeJSONProperty gap (indent ++ gap) x).
      - now rewrite (Hx eq_refl gap (indent ++ gap)). }
    now rewrite Hitems.
  - cbn [serialisable] in Hbad.
    assert (Hprops : forall colon,
               serializeMembers (SerializeJSONProperty gap (indent ++ gap)) colon props
               = None).
    { intros colon.
      induction H as [|[k x] rest Hx Hrest IH]; [discriminate Hbad|].
      cbn [forallb snd] in Hbad. cbn [serializeMembers]. cbn [snd] in Hx.
      destruct (serialisable x) eqn:Hsx.
      - cbn [andb] in Hbad. rewrite (IH Hbad).
        now destruct (SerializeJSONProperty gap (indent ++ gap) x).
      - now rewrite (Hx eq_refl gap (indent ++ gap)). }
    now rewrite Hprops.
Qed.

(** X3: which values convert without a record.  A value made of data
    alone (primitives, dates, arrays and plain objects) raises a record in
    [handleLogDatatype] exactly when it is an object that holds a BigInt or
    a circular reference somewhere.  Every other value is converted without
    calling [this.error] and without touching the state: a string to
    itself, a number, boolean, bigint, symbol or function to its [toString]
    form, [null] and [undefined] to the empty string, a date, an array or an
    object to the text that [JSON.stringify(v, null, 4)] produced.  For an
    object that holds a BigInt or a circular reference the conversion calls
    [this.error] once, handing it the object itself as data, and returns the
    empty string. *)
Theorem conversion_is_silent_on_serialisable_values :
  forall (v : JsValue),
    (convertible v = true ->
     (forall (err : JsValue -> JsValue -> M unit) (st : State),
         handleLogDatatype err v st = Returned (convert v) st)
     /\ match v with
        | JUndefined | JNull => convert v = ""
        | JString s => convert v = s
        | JDate _ | JCircular | JArray _ | JObject _ =>
            JSON_stringify4 v = SerText (convert v)
        | _ => convert v = toString v
        end)
    /\ (convertible v = false ->
        forall (err : JsValue -> JsValue -> M unit) (st : State),
          handleLogDatatype err v st
          = (err (JString "Datatype of object is not json")
                 (JObject [("dataType", JString "object"); ("data", v)]) ;;
             ret "") st).
Proof.
  intros v. split; intros Hv.
  - split.
    + intros err st. now rewrite handleLogDatatype_clean by now apply convertible_clean.
    + destruct v as [ | | b | n | n | s | d | src | [iso|] | | items | props];
        try reflexivity; cbn [convertible isObject negb orb] in Hv; try discriminate Hv.
      * pose proof (serialisable_serialises (JArray items) Hv "    " "") as Hser.
        pose proof (object_never_undefined "    " "" (JArray items) eq_refl) as Hdef.
        unfold convert, JSON_stringify4 in *.
        destruct (SerializeJSONProperty "    " "" (JArray items)); congruence.
      * pose proof (serialisable_serialises (JObject props) Hv "    " "") as Hser.
        pose proof (object_never_undefined "    " "" (JObject props) eq_refl) as Hdef.
        unfold convert, JSON_stringify4 in *.
        destruct (SerializeJSONProperty "    " "" (JObject props)); congruence.
  - intros err st. unfold convertible in Hv.
    apply orb_false_iff in Hv as [Hobj Hbad]. apply negb_false_iff in Hobj.
    now rewrite (handleLogDatatype_throwing err v Hobj (unserialisable_throws v Hbad)).
Qed.

Lemma conversion_is_silent_on_serialisable_values_witness :
  ((forall (err : JsValue -> JsValue -> M unit) (st : State),
       handleLogDatatype err (JArray [JNumber 1; JDate (Some "2024-06-20T16:39:05.514Z"); JNull]) st
       = Returned (convert (JArray [JNumber 1; JDate (Some "2024-06-20T16:39:05.514Z"); JNull])) st)
   /\ JSON_stringify4 (JArray [JNumber 1; JDate (Some "2024-06-20T16:39:05.514Z"); JNull])
      = SerText (convert (JArray [JNumber 1; JDate (Some "2024-06-20T16:39:05.514Z"); JNull])))
  /\ (forall (err : JsValue -> JsValue -> M unit) (st : State),
         handleLogDatatype err (JObject [("self", JCircular)]) st
         = (err (JString "Datatype of object is not json")
                (JObject [("dataType", JString "object");
                          ("data", JObject [("self", JCircular)])]) ;;
            ret "") st).
Proof.
  split.
  - exact (proj1 (conversion_is_silent_on_serialisable_values
                    (JArray [JNumber 1; JDate (Some "2024-06-20T16:39:05.514Z"); JNull]))
                 eq_refl).
  - exact (proj2 (conversion_is_silent_on_serialisable_values
                    (JObject [("self", JCircular)]))
                 eq_refl).
Defined.

(** ** The file sink outside batch mode *)

(** X4: outside batch mode (strategy single, or batch with a size of at
    most 1) every record submitted to the file sink is written at once.  As
    long as the directory of each record's bucket is there or can be
    created, a sequence of submissions causes one append per enabled format
    and per record, holding that record's line and a line break, in
    submission order, and the buffer is never used.  A submission whose
    directory is missing and cannot be created throws and changes nothing:
    the record is neither written nor buffered. *)
Theorem write_through_one_append_per_record :
  forall dateFormat toISOString mkdirSync (err : JsValue -> JsValue -> M unit)
         (this : Logger) (subs : list Submission) (st : State),
    batching this = false ->
    ((forall s, In s subs ->
                mkdirSync (ticks st)
                          (fst (generatePaths dateFormat this (sub_time s))) = true) ->
     let out := submitAll dateFormat toISOString mkdirSync err this subs st in
     returned out = true
     /\ logBuffer (finalState out) = logBuffer st
     /\ drains (trace (finalState out)) = (drains (trace st) + List.length subs)%nat
     /\ appended "txt.log" (trace (finalState out))
        = (appended "txt.log" (trace st)
           ++ (if txt (storageSettings this)
               then map (fun s => (sub_txt s ++ newline)%string) subs else []))%list
     /\ appended "json.log" (trace (finalState out))
        = (appended "json.log" (trace st)
           ++ (if json (storageSettings this)
               then map (fun s =>
                           (jsonLine toISOString this (sub_time s) (sub_formattedDate s)
                                     (sub_message s) (sub_level s) (sub_data s)
                            ++ newline)%string)
                        subs
               else []))%list)
    /\ (forall (s : Submission),
           mkdirSync (ticks st) (fst (generatePaths dateFormat this (sub_time s))) = false ->
           submit dateFormat toISOString mkdirSync err this s st = Thrown st).
Proof.
  intros dateFormat toISOString mkdirSync err this subs st Hoff. split.
  - cbv zeta. revert st.
    induction subs as [|s rest IH]; intros st Hdirs.
    + cbn [submitAll ret returned finalState List.length map].
      destruct (txt (storageSettings this)), (json (storageSettings this));
        rewrite ?app_nil_r, Nat.add_0_r; repeat split.
    + cbn [submitAll]. unfold bind, submit.
      rewrite logToFile_submits by (apply Hdirs; now left).
      fold (submit dateFormat toISOString mkdirSync err this).
      set (st1 := submitted _ _ _ _ _ _ _ _ _ _).
      destruct (submitted_write_through dateFormat toISOString this (sub_time s)
                  (sub_formattedDate s) (sub_message s) (sub_level s) (sub_data s)
                  (sub_txt s) st Hoff) as [Hbuf Htrace].
      fold st1 in Hbuf, Htrace.
      assert (Hdirs1 : forall x, In x rest ->
                mkdirSync (ticks st1)
                          (fst (generatePaths dateFormat this (sub_time x))) = true).
      { intros x Hx. subst st1. rewrite submitted_ticks. apply Hdirs. now right. }
      destruct (IH st1 Hdirs1) as (Hret & Hbuf' & Hdr & Htxt & Hjson).
      split; [exact Hret|]. split; [now rewrite Hbuf', Hbuf|].
      rewrite Hdr, Htxt, Hjson, Htrace.
      rewrite !drains_app, !appended_app.
      destruct (txt (storageSettings this)), (json (storageSettings this));
        cbn [drains appended List.length map];
        rewrite ?endsWith_append, ?json_is_not_txt, ?txt_is_not_json;
        cbn [app]; rewrite ?app_nil_r, <- ?app_assoc; cbn [app];
        (split; [lia | split; reflexivity]).
  - intros s Hdir. unfold submit.
    rewrite (logToFile_write_through dateFormat toISOString mkdirSync err this (sub_time s)
               (sub_formattedDate s) (sub_message s) (sub_level s) (sub_data s) (sub_txt s)
               st Hoff).
    now rewrite Hdir.
Qed.

Lemma write_through_one_append_per_record_witness :
  let this := sampleLoggerWith (sampleStorage DontSplit Single 1) defaultLogWebook in
  let err := error sampleDateFormat sampleISO sampleClock sampleDisk 1 this in
  let out := submitAll sampleDateFormat sampleISO sampleDisk err this
               [sampleSubmission "one"; sampleSubmission "two"] initialState in
  (logBuffer (finalState out) = []
   /\ appended "txt.log" (trace (finalState out))
      = ["[INFO] one" ++ newline; "[INFO] two" ++ newline])
  /\ submit sampleDateFormat sampleISO fullDisk err this (sampleSubmission "one")
            initialState
     = Thrown initialState.
Proof.
  cbv zeta. split.
  - pose proof (proj1 (write_through_one_append_per_record sampleDateFormat sampleISO
                  sampleDisk
                  (error sampleDateFormat sampleISO sampleClock sampleDisk 1
                     (sampleLoggerWith (sampleStorage DontSplit Single 1) defaultLogWebook))
                  (sampleLoggerWith (sampleStorage DontSplit Single 1) defaultLogWebook)
                  [sampleSubmission "one"; sampleSubmission "two"] initialState eq_refl)
                  (fun s _ => eq_refl))
      as H.
    cbv zeta in H. destruct H as (_ & Hbuf & _ & Htxt & _).
    split; [exact Hbuf | exact Htxt].
  - exact (proj2 (write_through_one_append_per_record sampleDateFormat sampleISO
                    fullDisk
                    (error sampleDateFormat sampleISO sampleClock sampleDisk 1
                       (sampleLoggerWith (sampleStorage DontSplit Single 1) defaultLogWebook))
                    (sampleLoggerWith (sampleStorage DontSplit Single 1) defaultLogWebook)
                    [] initialState eq_refl)
                 (sampleSubmission "one") eq_refl).
Defined.

(** ** The buffer of the file sink is bounded *)

Lemma submitted_buffer_bound dateFormat toISOString (this : Logger) (t : Z)
    (fd m : string) (lvl : LogLevel) (d line : string) (st : State) :
  let bounded (s : State) :=
    if batching this then (List.length (logBuffer s) < batchSize this)%nat
    else logBuffer s = [] in
  bounded st -> bounded (submitted dateFormat toISOString this t fd m lvl d line st).
Proof.
  cbv zeta. destruct (batching this) eqn:Hon.
  - intros Hlt. unfold submitted. rewrite Hon. cbv zeta. cbn [logBuffer setLogBuffer].
    rewrite length_app. cbn [List.length].
    destruct (Z.leb_spec (batch (storageSettings this))
                (Z.of_nat (List.length (logBuffer st) + 1))) as [Hfull|Hroom].
    + match goal with |- context [drained dateFormat this t ?s] =>
        rewrite (proj1 (drained_rest dateFormat this t s)) end.
      cbn [List.length]. lia.
    + cbn [logBuffer setLogBuffer]. rewrite length_app. cbn [List.length].
      unfold batchSize. lia.
  - intros Hempty.
    now rewrite (proj1 (submitted_write_through dateFormat toISOString this t fd m lvl d
                          line st Hon)).
Qed.

(** Shutdown never adds to the buffer: in batch mode it empties it, or
    leaves it as it is when the drain throws. *)
Lemma exited_buffer dateFormat clock mkdirSync (this : Logger) (reason : JsValue)
    (st : State) :
  logBuffer (exited dateFormat clock mkdirSync this reason st) = []
  \/ logBuffer (exited dateFormat clock mkdirSync this reason st) = logBuffer st.
Proof.
  unfold exited. rewrite (proj1 (exitWebhook_files this _)). unfold exitFile, extracted.
  destruct (stratagy (storageSettings this)); [now right|].
  cbv zeta. destruct (mkdirSync _ _); [left; apply drained_rest | now right].
Qed.

(** The bound on the buffer is kept along a run when the file system is
    dependable, and also, on any file system, outside batch mode. *)
Lemma run_buffer_bound dateFormat toISOString clock mkdirSync (stack : nat)
    (this : Logger) (actions : list Action) :
  dependable mkdirSync \/ batching this = false ->
  let st := run dateFormat toISOString clock mkdirSync stack this actions initialState in
  if batching this then (List.length (logBuffer st) < batchSize this)%nat
  else logBuffer st = [].
Proof.
  intros Hcase. cbv zeta.
  set (bounded := fun s : State =>
         if batching this then (List.length (logBuffer s) < batchSize this)%nat
         else logBuffer s = []).
  assert (Hsmall : forall s, logBuffer s = [] -> bounded s).
  { intros s Hs. unfold bounded. rewrite Hs. destruct (batching this) eqn:Hon; [|reflexivity].
    unfold batching in Hon. apply andb_prop in Hon as [_ Hsize]. apply Z.ltb_lt in Hsize.
    cbn [List.length]. unfold batchSize. lia. }
  assert (Hlog : forall lvl msg data,
             preserves bounded (sendLog dateFormat toISOString clock mkdirSync stack this lvl msg data)).
  { apply sendLog_preserves.
    - intros st H. exact H.
    - intros st text H. exact H.
    - intros st l text _ H. exact H.
    - intros st l t fd m d line _ H.
      destruct Hcase as [Hdisk|Hoff].
      + rewrite filed_dependable by apply Hdisk. cbn [finalState].
        exact (submitted_buffer_bound dateFormat toISOString this t fd m l d line st H).
      + unfold filed, kept. rewrite Hoff.
        destruct (_ && _); cbn [finalState]; [exact H|].
        exact (submitted_buffer_bound dateFormat toISOString this t fd m l d line st H).
    - intros err fr l t fd m d line Herr Hfr _.
      apply sendWebhook_preserves; try assumption.
      + intros st b H. exact H.
      + intros st target user embeds H. exact H. }
  assert (Hstep : forall a, preserves bounded
                              (perform dateFormat toISOString clock mkdirSync stack this a)).
  { intros [lvl msg data|reason|[|] r]; cbn [perform].
    - apply Hlog.
    - intros st H. rewrite exit_exits. cbn [finalState].
      destruct (exited_buffer dateFormat clock mkdirSync this reason st) as [Hnil|Hsame].
      + now apply Hsmall.
      + unfold bounded in *. now rewrite Hsame.
    - unfold sendWebhook_settled, fatalRate.
      destruct r as [status statusText|e]; [|apply Hlog].
      apply preserves_tryCatch; [|apply Hlog].
      apply preserves_bind;
        [apply preserves_when; intros _; apply Hlog
        | intros _; apply preserves_modify; intros st H; exact H].
    - intros st H. unfold exit_settled, exit_resume, bind, when, modify, ret.
      destruct r as [status statusText|e]; [destruct (negb (status =? 204))|];
        exact H. }
  assert (Hrun : forall st, bounded st ->
             bounded (run dateFormat toISOString clock mkdirSync stack this actions st)).
  { induction actions as [|a rest IH]; intros st H; cbn [run]; [exact H|].
    apply IH. now apply Hstep. }
  apply Hrun. now apply Hsmall.
Qed.

(** X5: the buffer of the file sink is bounded as long as the file system
    is dependable, and not otherwise.  On a file system where every
    directory is there or can be created, along every run of a logger from
    its initial state (print calls, shutdown calls and settlings in any
    order, at any stack depth) the buffer holds fewer records than the batch
    size whenever batch mode is in force.  Outside batch mode the buffer
    stays empty on any file system.  In batch mode a submission that
    completes the batch while the directory of its bucket is missing and
    cannot be created throws after the record has joined the buffer and
    before anything is taken out, so the buffer is left at the batch size or
    beyond. *)
Theorem file_buffer_stays_below_batch_size :
  forall dateFormat toISOString clock mkdirSync (stack : nat) (this : Logger),
    (dependable mkdirSync ->
     forall (actions : list Action),
       let st := run dateFormat toISOString clock mkdirSync stack this actions initialState in
       if batching this then (List.length (logBuffer st) < batchSize this)%nat
       else logBuffer st = [])
    /\ (batching this = false ->
        forall (actions : list Action),
          logBuffer (run dateFormat toISOString clock mkdirSync stack this actions
                         initialState) = [])
    /\ (forall (err : JsValue -> JsValue -> M unit) (t : Z) (fd m : string)
               (lvl : LogLevel) (d line : string) (st : State),
           batching this = true ->
           (batchSize this <= S (List.length (logBuffer st)))%nat ->
           mkdirSync (ticks st) (fst (generatePaths dateFormat this t)) = false ->
           let out := logToFile dateFormat toISOString mkdirSync err this t fd m lvl d line st in
           out = Thrown
                   (setLogBuffer
                      (logBuffer st
                       ++ [{| logTXT := line;
                              logJSONString := jsonLine toISOString this t fd m lvl d |}])
                      st)
           /\ (batchSize this <= List.length (logBuffer (finalState out)))%nat).
Proof.
  intros dateFormat toISOString clock mkdirSync stack this. split; [|split].
  - intros Hdisk actions.
    exact (run_buffer_bound dateFormat toISOString clock mkdirSync stack this actions
             (or_introl Hdisk)).
  - intros Hoff actions.
    pose proof (run_buffer_bound dateFormat toISOString clock mkdirSync stack this actions
                  (or_intror Hoff)) as H.
    cbv zeta in H. now rewrite Hoff in H.
  - intros err t fd m lvl d line st Hon Hfull Hdir. cbv zeta.
    rewrite logToFile_filed. unfold filed, reachesDisk, kept. rewrite Hon, Hdir.
    cbn [negb orb andb].
    assert (Hreach : (batch (storageSettings this)
                      <=? Z.of_nat (S (List.length (logBuffer st)))) = true).
    { apply Z.leb_le. unfold batchSize in Hfull. lia. }
    rewrite Hreach. cbn [andb]. split; [reflexivity|].
    cbn [finalState logBuffer setLogBuffer]. rewrite length_app. cbn [List.length]. lia.
Qed.

Lemma file_buffer_stays_below_batch_size_witness :
  let this := sampleBatchLogger 2 in
  let prints := [Print INFO (JString "one") JUndefined;
                 Print INFO (JString "two") JUndefined;
                 Print INFO (JString "three") JUndefined] in
  (List.length (logBuffer (run sampleDateFormat sampleISO sampleClock sampleDisk 2 this
                               prints initialState)) < 2)%nat
  /\ logBuffer (run sampleDateFormat sampleISO sampleClock fullDisk 2
                    (sampleLoggerWith (sampleStorage DontSplit Single 1) defaultLogWebook)
                    prints initialState) = []
  /\ (2 <= List.length (logBuffer (run sampleDateFormat sampleISO sampleClock fullDisk 2 this
                                       prints initialState)))%nat.
Proof.
  cbv zeta. split; [|split].
  - exact (proj1 (file_buffer_stays_below_batch_size sampleDateFormat sampleISO sampleClock
                    sampleDisk 2%nat (sampleBatchLogger 2))
                 sampleDisk_dependable
                 [Print INFO (JString "one") JUndefined;
                  Print INFO (JString "two") JUndefined;
                  Print INFO (JString "three") JUndefined]).
  - exact (proj1 (proj2 (file_buffer_stays_below_batch_size sampleDateFormat sampleISO
                           sampleClock fullDisk 2%nat
                           (sampleLoggerWith (sampleStorage DontSplit Single 1)
                                             defaultLogWebook)))
                 eq_refl
                 [Print INFO (JString "one") JUndefined;
                  Print INFO (JString "two") JUndefined;
                  Print INFO (JString "three") JUndefined]).
  - vm_compute. lia.
Defined.

(** ** A webhook sink that cannot deliver *)


(** X6: a logger whose webhook is switched off, has no url, or has a
    provider other than discord never buffers an embed and never issues a
    request: along every run from the initial state the batch stays empty
    and no POST is made, shutdown included. *)
Theorem inactive_webhook_never_buffers_nor_posts :
  forall dateFormat toISOString clock mkdirSync (stack : nat) (this : Logger)
         (actions : list Action),
    webhookInactive this = true ->
    let st := run dateFormat toISOString clock mkdirSync stack this actions initialState in
    webhookBuffer st = [] /\ posts (trace st) = [].
Proof.
  intros dateFormat toISOString clock mkdirSync stack this actions Hoff. cbv zeta.
  set (idle := fun s : State => webhookBuffer s = [] /\ posts (trace s) = []).
  assert (Hemit : forall e st, isPost e = false -> idle st -> idle (emit e st)).
  { intros e st He [Hb Hp]. split; [exact Hb | now rewrite posts_emit_other]. }
  assert (Hlog : forall lvl msg data,
             preserves idle (sendLog dateFormat toISOString clock mkdirSync stack this lvl msg data)).
  { apply sendLog_preserves.
    - intros st H. exact H.
    - intros st text. now apply Hemit.
    - intros st l text _. now apply Hemit.
    - intros st l t fd m d line _ [Hb Hp]. split.
      + now rewrite (proj1 (proj2 (filed_appends dateFormat toISOString mkdirSync this
                                     t fd m l d line st))).
      + now rewrite filed_posts.
    - intros err fr l t fd m d line Herr Hfr Hon. unfold sendWebhook.
      destruct (LogLevel_eqb l FATALRATE); [apply preserves_ret|].
      unfold webhookInactive in Hoff. rewrite Hon in Hoff. cbn [negb orb] in Hoff.
      destruct (url (webhookSettings this)) as [target|]; [|apply preserves_ret].
      cbn [orb] in Hoff.
      destruct (form (webhookSettings this)); [apply Herr | discriminate Hoff]. }
  assert (Hstep : forall a, preserves idle
                              (perform dateFormat toISOString clock mkdirSync stack this a)).
  { intros [lvl msg data|reason|[|] r]; cbn [perform].
    - apply Hlog.
    - intros st [Hb Hp]. rewrite exit_exits. cbn [finalState]. unfold exited.
      set (s0 := emit (ConsoleLog [JString "Shutting down gracefully with reason: "; reason]) st).
      assert (H0 : idle s0) by (now apply Hemit).
      assert (H1 : idle (exitFile dateFormat clock mkdirSync this s0)).
      { subst s0.
        destruct (exitFile_webhook dateFormat clock mkdirSync this reason st)
          as (Hw & Hp' & _).
        split; [now rewrite Hw | now rewrite Hp']. }
      revert H1. generalize (exitFile dateFormat clock mkdirSync this s0). intros s1 [Hb1 Hp1].
      unfold exitWebhook. rewrite Hb1.
      destruct (url (webhookSettings this)); cbn [List.length Nat.ltb Nat.leb];
        apply Hemit; try reflexivity; now split.
    - unfold sendWebhook_settled, fatalRate.
      destruct r as [status statusText|e]; [|apply Hlog].
      apply preserves_tryCatch; [|apply Hlog].
      apply preserves_bind;
        [apply preserves_when; intros _; apply Hlog
        | intros _; apply preserves_modify; intros st [_ Hp]; now split].
    - intros st [Hb Hp]. unfold exit_settled, exit_resume, bind, when, modify, ret.
      destruct r as [status statusText|e]; [destruct (negb (status =? 204))|];
        cbn [finalState]; split;
        cbn [webhookBuffer trace emit setWebhookBuffer];
        rewrite ?posts_app; cbn [posts]; rewrite ?app_nil_r; assumption || reflexivity. }
  assert (Hrun : forall st, idle st ->
             idle (run dateFormat toISOString clock mkdirSync stack this actions st)).
  { induction actions as [|a rest IH]; intros st H; cbn [run]; [exact H|].
    apply IH. now apply Hstep. }
  apply Hrun. split; reflexivity.
Qed.

Lemma inactive_webhook_never_buffers_nor_posts_witness :
  let this := sampleLoggerWith (sampleStorage Day Single 1)
                {| enable := true; url := Some "https://example.org/hook"; form := FormNone |} in
  let st := run sampleDateFormat sampleISO sampleClock sampleDisk 3 this
                [Print INFO (JString "one") JUndefined; Print WARN (JString "two") JNull;
                 Shutdown (JString "done")] initialState in
  webhookBuffer st = [] /\ posts (trace st) = [].
Proof.
  exact (inactive_webhook_never_buffers_nor_posts sampleDateFormat sampleISO sampleClock sampleDisk
           3%nat
           (sampleLoggerWith (sampleStorage Day Single 1)
              {| enable := true; url := Some "https://example.org/hook"; form := FormNone |})
           [Print INFO (JString "one") JUndefined; Print WARN (JString "two") JNull;
            Shutdown (JString "done")] eq_refl).
Defined.

(** ** An unsupported provider *)

Lemma stdoutAt_length_emit (target : LogLevel) (e : Event) (st : State) :
  List.length (stdoutAt target (trace (emit e st)))
  = (List.length (stdoutAt target (trace st))
     + match e with
       | Stdout l _ => if LogLevel_eqb l target then 1 else 0
       | _ => 0
       end)%nat.
Proof.
  cbn [trace emit]. rewrite stdoutAt_app, length_app.
  destruct e; cbn [stdoutAt List.length]; try reflexivity.
  destruct (LogLevel_eqb lvl target); reflexivity.
Qed.

(** The sinks of a record that reaches a webhook with a target but without
    the discord provider: console and file as usual, then one call of
    [this.error]. *)
Lemma sinks_unsupported_provider dateFormat toISOString mkdirSync
    (err fr : JsValue -> JsValue -> M unit) (this : Logger) (lvl : LogLevel) (t : Z)
    (m d : string) (st : State) (target : string) :
  unfailing mkdirSync this ->
  enable (webhookSettings this) = true ->
  url (webhookSettings this) = Some target ->
  form (webhookSettings this) = FormNone ->
  LogLevel_eqb lvl FATALRATE = false ->
  exists st1,
    sinks dateFormat toISOString mkdirSync err fr this lvl t m d st
    = err (JString "Currently only discord webhooks have been implemented") JUndefined st1
    /\ List.length (stdoutAt ERROR (trace st1))
       = (List.length (stdoutAt ERROR (trace st))
          + (if consoleGuard this lvl && LogLevel_eqb lvl ERROR then 1 else 0))%nat.
Proof.
  intros Hfile Hon Hurl Hform Hlvl. unfold sinks.
  rewrite bind_when_modify, Hon. cbv beta.
  assert (Hhook : forall fd line s,
             when true (sendWebhook err fr this t fd m lvl d line) s
             = err (JString "Currently only discord webhooks have been implemented")
                   JUndefined s).
  { intros fd line s. cbn [when]. unfold sendWebhook. now rewrite Hlvl, Hurl, Hform. }
  destruct (fileGuard this lvl) eqn:Hguard.
  - assert (Hdisk : dependable mkdirSync).
    { destruct Hfile as [Hnone|Hdisk]; [|exact Hdisk].
      unfold fileGuard in Hguard. rewrite Hnone in Hguard. discriminate Hguard. }
    unfold bind, when at 1. rewrite logToFile_submits by apply Hdisk. rewrite Hhook.
    eexists. split; [reflexivity|]. rewrite submitted_stdout.
    destruct (consoleGuard this lvl); cbn [andb].
    + rewrite stdoutAt_length_emit. reflexivity.
    + now rewrite Nat.add_0_r.
  - rewrite bind_when_false, Hhook. eexists. split; [reflexivity|].
    destruct (consoleGuard this lvl); cbn [andb].
    + rewrite stdoutAt_length_emit. reflexivity.
    + now rewrite Nat.add_0_r.
Qed.

Lemma unsupported_provider_error_chain dateFormat toISOString clock mkdirSync (this : Logger)
    (target : string) :
  unfailing mkdirSync this ->
  enable (webhookSettings this) = true ->
  url (webhookSettings this) = Some target ->
  form (webhookSettings this) = FormNone ->
  consoleGuard this ERROR = true ->
  forall (depth : nat) (st : State),
    List.length
      (stdoutAt ERROR
         (trace (finalState
                   (error dateFormat toISOString clock mkdirSync (S depth) this
                      (JString "Currently only discord webhooks have been implemented")
                      JUndefined st))))
    = (List.length (stdoutAt ERROR (trace st)) + S depth)%nat.
Proof.
  intros Hfile Hon Hurl Hform Hconsole.
  induction depth as [|depth IH]; intros st.
  - unfold error. rewrite sendLog_clean by reflexivity. unfold tryCatch.
    destruct (sinks_unsupported_provider dateFormat toISOString mkdirSync
                (sendLog dateFormat toISOString clock mkdirSync 0 this ERROR)
                (sendLog dateFormat toISOString clock mkdirSync 0 this FATALRATE)
                this ERROR (clock (ticks st))
                (convert (JString "Currently only discord webhooks have been implemented"))
                (convert JUndefined) (tick st) target Hfile Hon Hurl Hform eq_refl)
      as (st1 & -> & Hcount).
    cbn [sendLog]. unfold throw, modify. cbn [finalState].
    rewrite stdoutAt_length_emit, Hcount, Hconsole. cbn [trace tick andb LogLevel_eqb]. lia.
  - unfold error at 1. rewrite sendLog_clean by reflexivity. unfold tryCatch.
    destruct (sinks_unsupported_provider dateFormat toISOString mkdirSync
                (sendLog dateFormat toISOString clock mkdirSync (S depth) this ERROR)
                (sendLog dateFormat toISOString clock mkdirSync (S depth) this FATALRATE)
                this ERROR (clock (ticks st))
                (convert (JString "Currently only discord webhooks have been implemented"))
                (convert JUndefined) (tick st) target Hfile Hon Hurl Hform eq_refl)
      as (st1 & -> & Hcount).
    specialize (IH st1). unfold error in IH.
    rewrite sendLog_returns. rewrite sendLog_returns in IH. cbn [finalState] in *.
    rewrite IH, Hcount, Hconsole. cbn [trace tick andb LogLevel_eqb]. lia.
Qed.

(** X7: with the webhook switched on and given a url but no discord
    provider, the report of the unsupported provider is itself a record
    that reaches the webhook sink, which reports again: one print call of a
    record other than the internal one prints one ERROR line per stack
    frame it has left (plus its own line when it is an ERROR record), not a
    single report.  The file sink, which runs before the webhook sink, is
    taken not to throw: no format is enabled or the file system is
    dependable. *)
Theorem unsupported_provider_reports_once_per_frame :
  forall dateFormat toISOString clock mkdirSync (this : Logger) (target : string) (depth : nat)
         (lvl : LogLevel) (msg data : JsValue) (st : State),
    unfailing mkdirSync this ->
    enable (webhookSettings this) = true ->
    url (webhookSettings this) = Some target ->
    form (webhookSettings this) = FormNone ->
    consoleGuard this ERROR = true ->
    lvl <> FATALRATE ->
    clean msg = true -> clean data = true ->
    List.length
      (stdoutAt ERROR
         (trace (finalState (sendLog dateFormat toISOString clock mkdirSync (S depth) this lvl
                                     msg data st))))
    = (List.length (stdoutAt ERROR (trace st)) + depth
       + (if LogLevel_eqb lvl ERROR then 1 else 0))%nat.
Proof.
  intros dateFormat toISOString clock mkdirSync this target depth lvl msg data st
         Hfile Hon Hurl Hform Hconsole Hlvl Hmsg Hdata.
  assert (Hlvl' : LogLevel_eqb lvl FATALRATE = false)
    by (destruct lvl; try reflexivity; now elim Hlvl).
  rewrite sendLog_clean by assumption. unfold tryCatch.
  destruct (sinks_unsupported_provider dateFormat toISOString mkdirSync
              (sendLog dateFormat toISOString clock mkdirSync depth this ERROR)
              (sendLog dateFormat toISOString clock mkdirSync depth this FATALRATE)
              this lvl (clock (ticks st)) (convert msg) (convert data) (tick st) target
              Hfile Hon Hurl Hform Hlvl') as (st1 & -> & Hcount).
  assert (Hown : (if consoleGuard this lvl && LogLevel_eqb lvl ERROR then 1 else 0)%nat
                 = (if LogLevel_eqb lvl ERROR then 1 else 0)%nat).
  { destruct (LogLevel_eqb lvl ERROR) eqn:Heq; [|now rewrite andb_false_r].
    assert (lvl = ERROR) by (destruct lvl; try discriminate; reflexivity).
    subst. now rewrite Hconsole. }
  rewrite Hown in Hcount. cbn [trace tick] in Hcount.
  destruct depth as [|depth].
  - cbn [sendLog]. unfold throw, modify. cbn [finalState].
    rewrite stdoutAt_length_emit, Hcount. lia.
  - pose proof (unsupported_provider_error_chain dateFormat toISOString clock mkdirSync this target
                  Hfile Hon Hurl Hform Hconsole depth st1) as Hchain.
    unfold error in Hchain. rewrite sendLog_returns.
    rewrite sendLog_returns in Hchain. cbn [finalState] in *.
    rewrite Hchain, Hcount. lia.
Qed.

Lemma unsupported_provider_reports_once_per_frame_witness :
  let this := sampleLoggerWith (sampleStorage Day Single 1)
                {| enable := true; url := Some "https://example.org/hook"; form := FormNone |} in
  List.length
    (stdoutAt ERROR
       (trace (finalState (sendLog sampleDateFormat sampleISO sampleClock sampleDisk 6 this INFO
                                   (JString "hello") JUndefined initialState))))
  = 5%nat.
Proof.
  exact (unsupported_provider_reports_once_per_frame sampleDateFormat sampleISO
           sampleClock sampleDisk
           (sampleLoggerWith (sampleStorage Day Single 1)
              {| enable := true; url := Some "https://example.org/hook"; form := FormNone |})
           "https://example.org/hook" 5%nat INFO (JString "hello") JUndefined initialState
           (or_intror sampleDisk_dependable)
           eq_refl eq_refl eq_refl eq_refl ltac:(discriminate) eq_refl eq_refl).
Defined.

(** ** The embed of a record *)

(** X8: the description of an embed never exceeds 4012 characters,
    whatever the length of the data: data of at most 4000 characters is
    embedded as it is between the two fences, longer data is replaced by the
    fixed notice, and empty data gives an empty description. *)
Theorem embed_description_is_bounded :
  forall (this : Logger) (formattedDate message : string) (lvl : LogLevel)
         (data : string),
    let text := description (newEmbed this formattedDate message lvl data) in
    (String.length text <= 4012)%nat
    /\ (data = "" -> text = "")
    /\ (data <> "" -> (String.length data <= 4000)%nat ->
        text = "```json" ++ newline ++ data ++ newline ++ "```")
    /\ ((4000 < String.length data)%nat ->
        text = "```json" ++ newline
               ++ "The data provided is too long for an embed. Check file based or stdout based logs."
               ++ newline ++ "```").
Proof.
  intros this fd m lvl data. cbv zeta. unfold newEmbed. cbn [description].
  destruct (String.eqb_spec data "") as [->|Hne]; cbn [negb].
  - split; [cbn; lia|]. split; [reflexivity|].
    split; [intros H; now elim H | cbn [String.length]; intros H; lia].
  - destruct (Nat.ltb_spec 4000 (String.length data)) as [Hlong|Hshort].
    + split; [|split; [intros; contradiction | split; [intros; lia | reflexivity]]].
      apply Nat.leb_le. vm_compute. reflexivity.
    + split; [|split; [intros; contradiction | split; [reflexivity | intros; lia]]].
      rewrite !string_length_append.
      change (String.length "```json") with 7%nat.
      change (String.length newline) with 1%nat.
      change (String.length "```") with 3%nat. lia.
Qed.

Lemma embed_description_is_bounded_witness :
  description (newEmbed sampleLogger "2024-06-20" "hello" INFO "{}")
  = "```json" ++ newline ++ "{}" ++ newline ++ "```".
Proof.
  exact (proj1 (proj2 (proj2 (embed_description_is_bounded sampleLogger "2024-06-20"
                                "hello" INFO "{}")))
           ltac:(discriminate) ltac:(apply Nat.leb_le; reflexivity)).
Defined.

(** ** One record, one JSON line *)

Lemma lineBreaks_append (a b : string) :
  lineBreaks (a ++ b) = (lineBreaks a + lineBreaks b)%nat.
Proof.
  induction a as [|c a IH]; [reflexivity|].
  cbn [append lineBreaks]. destruct (N_of_ascii c =? 10)%N; now rewrite IH.
Qed.

Lemma quoteChar_no_lineBreak (c : ascii) : lineBreaks (quoteChar c) = 0%nat.
Proof. destruct c as [[] [] [] [] [] [] [] []]; reflexivity. Qed.

Lemma QuoteJSONString_no_lineBreak (s : string) : lineBreaks (QuoteJSONString s) = 0%nat.
Proof.
  unfold QuoteJSONString. rewrite !lineBreaks_append.
  assert (Hbody : lineBreaks (quoteBody s) = 0%nat).
  { induction s as [|c s IH]; [reflexivity|].
    cbn [quoteBody]. now rewrite lineBreaks_append, quoteChar_no_lineBreak, IH. }
  now rewrite Hbody.
Qed.

(** X9: the JSON line of a record holds no line break, whatever line
    breaks the message, the data, the process names or the formatted date
    contain (they are escaped), so the JSON lines submitted for N records
    hold exactly N line breaks: each record is one line of the JSON file. *)
Theorem json_line_is_a_single_line :
  (forall toISOString (this : Logger) (t : Z) (formattedDate message : string)
          (lvl : LogLevel) (data : string),
      lineBreaks (jsonLine toISOString this t formattedDate message lvl data) = 0%nat)
  /\ (forall toISOString (this : Logger) (subs : list Submission),
         lineBreaks (submittedJson toISOString this subs) = List.length subs).
Proof.
  assert (Hline : forall toISOString this t fd m lvl d,
             lineBreaks (jsonLine toISOString this t fd m lvl d) = 0%nat).
  { intros. unfold jsonLine. cbn [join].
    repeat rewrite lineBreaks_append. rewrite !QuoteJSONString_no_lineBreak.
    reflexivity. }
  split; [exact Hline|].
  intros toISOString this subs. unfold submittedJson.
  induction subs as [|s rest IH]; [reflexivity|].
  cbn [map concatStrings fold_right List.length].
  rewrite !lineBreaks_append, Hline. fold (concatStrings
    (map (fun s0 => jsonLine toISOString this (sub_time s0) (sub_formattedDate s0)
                             (sub_message s0) (sub_level s0) (sub_data s0) ++ newline) rest)).
  now rewrite IH.
Qed.

(** ** Files and their directory *)


(** X10: for every split unit but the year, the two files of a bucket lie
    inside the directory that the sink makes sure of before it writes. *)
Theorem bucket_files_lie_in_the_ensured_directory :
  forall dateFormat (this : Logger) (t : Z) (extension : string),
    splitBy (storageSettings this) <> Year ->
    String.prefix (fst (generatePaths dateFormat this t))
                  (snd (generatePaths dateFormat this t) ++ extension) = true.
Proof.
  intros dateFormat this t extension Hsplit.
  destruct (generatePaths_under_directory dateFormat this t Hsplit) as [stem ->].
  rewrite append_assoc. apply prefix_append.
Qed.

Lemma bucket_files_lie_in_the_ensured_directory_witness :
  String.prefix (fst (generatePaths sampleDateFormat sampleLogger (sampleClock 0)))
                (snd (generatePaths sampleDateFormat sampleLogger (sampleClock 0))
                 ++ "json.log") = true.
Proof.
  exact (bucket_files_lie_in_the_ensured_directory sampleDateFormat sampleLogger
           (sampleClock 0) "json.log" ltac:(discriminate)).
Defined.

(** ** The bucket of a drained batch *)

Lemma submitAll_app dateFormat toISOString mkdirSync (err : JsValue -> JsValue -> M unit)
    (this : Logger) (front back : list Submission) (st : State) :
  submitAll dateFormat toISOString mkdirSync err this (front ++ back) st
  = (submitAll dateFormat toISOString mkdirSync err this front ;;
     submitAll dateFormat toISOString mkdirSync err this back) st.
Proof.
  revert st. induction front as [|s rest IH]; intros st; [reflexivity|].
  cbn [app submitAll]. unfold bind at 1 2 3.
  destruct (submit dateFormat toISOString mkdirSync err this s st) as [[] st1|st1]; [|reflexivity].
  rewrite IH. reflexivity.
Qed.

(** The items the file sink buffers for a list of submissions. *)
Lemma submitAll_below_batch dateFormat toISOString mkdirSync (err : JsValue -> JsValue -> M unit)
    (this : Logger) (subs : list Submission) :
  stratagy (storageSettings this) = Batch ->
  1 < batch (storageSettings this) ->
  forall st,
    (List.length (logBuffer st) + List.length subs < batchSize this)%nat ->
    submitAll dateFormat toISOString mkdirSync err this subs st
    = Returned tt
        (setLogBuffer
           (logBuffer st
            ++ map (fun s =>
                      {| logTXT := sub_txt s;
                         logJSONString :=
                           jsonLine toISOString this (sub_time s) (sub_formattedDate s)
                                    (sub_message s) (sub_level s) (sub_data s) |}) subs)
           st).
Proof.
  intros Hbatch Hsize.
  induction subs as [|s rest IH]; intros st Hroom.
  - cbn [submitAll map]. rewrite app_nil_r, setLogBuffer_same. reflexivity.
  - cbn [submitAll map List.length] in *. unfold bind.
    rewrite (submit_outcome dateFormat toISOString mkdirSync err this Hbatch Hsize s st) by lia.
    cbv zeta.
    destruct (Nat.ltb_spec (S (List.length (logBuffer st))) (batchSize this)); [|lia].
    rewrite IH by (cbn [logBuffer setLogBuffer]; rewrite length_app; cbn [List.length]; lia).
    cbn [logBuffer setLogBuffer]. rewrite <- app_assoc. reflexivity.
Qed.

(** X11: a batch is filed under the instant of the record that completes
    it, as a whole or not at all.  When the record that brings an empty
    buffer to the batch size arrives and the directory of its bucket is
    there or can be created, the whole batch (the earlier records too,
    whatever their own instants) is appended to the bucket derived from that
    last record's instant, in one append per enabled format, after the
    directory has been made sure of, and nothing else is written.  When the
    directory is missing and cannot be created, the call throws, nothing is
    written, and the buffer keeps every record of the batch, the last one
    included. *)
Theorem batch_is_filed_under_the_last_record :
  forall dateFormat toISOString mkdirSync (err : JsValue -> JsValue -> M unit)
         (this : Logger) (front : list Submission) (last : Submission) (st : State),
    stratagy (storageSettings this) = Batch ->
    1 < batch (storageSettings this) ->
    logBuffer st = [] ->
    S (List.length front) = batchSize this ->
    let out := submitAll dateFormat toISOString mkdirSync err this (front ++ [last]) st in
    let paths := generatePaths dateFormat this (sub_time last) in
    if mkdirSync (ticks st) (fst paths)
    then
      returned out = true
      /\ logBuffer (finalState out) = []
      /\ trace (finalState out)
         = (trace st
            ++ [EnsureDir (fst paths)]
            ++ (if txt (storageSettings this)
                then [Append (snd paths ++ "txt.log")
                             (submittedText (front ++ [last]))]
                else [])
            ++ (if json (storageSettings this)
                then [Append (snd paths ++ "json.log")
                             (submittedJson toISOString this (front ++ [last]))]
                else []))%list
    else
      out = Thrown (setLogBuffer (map (bufferedItem toISOString this) (front ++ [last])) st).
Proof.
  intros dateFormat toISOString mkdirSync err this front last st Hbatch Hsize Hempty Hfull.
  cbv zeta. rewrite submitAll_app. unfold bind.
  rewrite (submitAll_below_batch dateFormat toISOString mkdirSync err this front Hbatch Hsize st)
    by (rewrite Hempty; cbn [List.length]; lia).
  rewrite Hempty. cbn [app submitAll]. unfold bind.
  rewrite (submit_outcome dateFormat toISOString mkdirSync err this Hbatch Hsize)
    by (cbn [logBuffer setLogBuffer]; rewrite length_map; lia).
  cbv zeta. cbn [logBuffer setLogBuffer ticks]. rewrite length_map.
  destruct (Nat.ltb_spec (S (List.length front)) (batchSize this)); [lia|].
  fold (bufferedItem toISOString this).
  change [{| logTXT := sub_txt last;
             logJSONString :=
               jsonLine toISOString this (sub_time last) (sub_formattedDate last)
                        (sub_message last) (sub_level last) (sub_data last) |}]
    with (map (bufferedItem toISOString this) [last]).
  rewrite <- map_app.
  destruct (mkdirSync (ticks st) (fst (generatePaths dateFormat this (sub_time last)))).
  2:{ reflexivity. }
  cbn [ret returned finalState]. split; [reflexivity|].
  split; [apply drained_rest|].
  rewrite drained_trace. cbn [trace logBuffer setLogBuffer].
  assert (Htxt : forall subs,
             txtOf (map (bufferedItem toISOString this) subs) = submittedText subs).
  { intros subs. unfold txtOf, submittedText. rewrite map_map. reflexivity. }
  assert (Hjson : forall subs,
             jsonOf (map (bufferedItem toISOString this) subs)
             = submittedJson toISOString this subs).
  { intros subs. unfold jsonOf, submittedJson. rewrite map_map. reflexivity. }
  now rewrite Htxt, Hjson.
Qed.

Lemma batch_is_filed_under_the_last_record_witness :
  let this := sampleLoggerWith (sampleStorage Day Batch 2) defaultLogWebook in
  let err := error sampleDateFormat sampleISO sampleClock sampleDisk 1 this in
  let subs := ([sampleSubmission "one"] ++ [sampleSubmission "two"])%list in
  fileEvents (trace (finalState (submitAll sampleDateFormat sampleISO sampleDisk err this
                                           subs initialState)))
  = [ EnsureDir "./logs/2024/06/";
      Append "./logs/2024/06/20.txt.log" (submittedText subs);
      Append "./logs/2024/06/20.json.log" (submittedJson sampleISO this subs) ]
  /\ submitAll sampleDateFormat sampleISO fullDisk err this subs initialState
     = Thrown (setLogBuffer (map (bufferedItem sampleISO this) subs) initialState).
Proof.
  cbv zeta. split.
  - pose proof (batch_is_filed_under_the_last_record sampleDateFormat sampleISO sampleDisk
                  (error sampleDateFormat sampleISO sampleClock sampleDisk 1
                     (sampleLoggerWith (sampleStorage Day Batch 2) defaultLogWebook))
                  (sampleLoggerWith (sampleStorage Day Batch 2) defaultLogWebook)
                  [sampleSubmission "one"] (sampleSubmission "two") initialState
                  eq_refl eq_refl eq_refl eq_refl) as H.
    cbv zeta in H. cbn [sampleDisk] in H. destruct H as (_ & _ & Htrace).
    rewrite Htrace. reflexivity.
  - exact (batch_is_filed_under_the_last_record sampleDateFormat sampleISO fullDisk
             (error sampleDateFormat sampleISO sampleClock sampleDisk 1
                (sampleLoggerWith (sampleStorage Day Batch 2) defaultLogWebook))
             (sampleLoggerWith (sampleStorage Day Batch 2) defaultLogWebook)
             [sampleSubmission "one"] (sampleSubmission "two") initialState
             eq_refl eq_refl eq_refl eq_refl).
Defined.

(** ** A run of the webhook sink *)

Lemma delivered_app (xs ys : list Event) :
  delivered (xs ++ ys) = (delivered xs ++ delivered ys)%list.
Proof. unfold delivered. now rewrite posts_app, map_app, concat_app. Qed.

Section HookRun.

Variable err fr : JsValue -> JsValue -> M unit.
Variable this : Logger.
Variable target : string.

Hypothesis Hurl : url (webhookSettings this) = Some target.
Hypothesis Hform : form (webhookSettings this) = Discord.

Lemma hook_effect (s : Submission) (st : State) :
  LogLevel_eqb (sub_level s) FATALRATE = false ->
  (List.length (webhookBuffer st) < 8)%nat ->
  let r := List.length (webhookBuffer st) in
  let st' := finalState (hook err fr this s st) in
  hook err fr this s st = Returned tt st'
  /\ List.length (webhookBuffer st') = (S r mod 8)%nat
  /\ List.length (posts (trace st')) = (List.length (posts (trace st)) + S r / 8)%nat
  /\ (delivered (trace st') ++ webhookBuffer st'
      = delivered (trace st) ++ webhookBuffer st ++ [embedOf this s])%list.
Proof.
  intros Hlvl Hroom r st'. subst st'. unfold hook.
  rewrite (sendWebhook_discord err fr this (sub_time s) (sub_formattedDate s)
             (sub_message s) (sub_level s) (sub_data s) (sub_txt s) st target
             Hlvl Hurl Hform).
  cbv zeta. fold r. fold (embedOf this s).
  destruct (Nat.ltb_spec 8 (S r)); [lia|].
  destruct (Nat.eqb_spec (S r) 8) as [Heq|Hneq]; cbn [finalState].
  - rewrite Heq. cbn [webhookBuffer trace emit setWebhookBuffer List.length].
    rewrite delivered_app, posts_app, length_app. cbn.
    rewrite !app_nil_r. repeat split.
  - rewrite Nat.mod_small, Nat.div_small by lia.
    cbn [webhookBuffer trace setWebhookBuffer]. rewrite length_app. cbn [List.length].
    repeat split; lia.
Qed.

Lemma hookAll_effect (subs : list Submission) :
  allRegular subs = true ->
  forall st,
    (List.length (webhookBuffer st) < 8)%nat ->
    let r := List.length (webhookBuffer st) in
    let n := List.length subs in
    let st' := finalState (hookAll err fr this subs st) in
    hookAll err fr this subs st = Returned tt st'
    /\ List.length (webhookBuffer st') = ((r + n) mod 8)%nat
    /\ List.length (posts (trace st')) = (List.length (posts (trace st)) + (r + n) / 8)%nat
    /\ (delivered (trace st') ++ webhookBuffer st'
        = delivered (trace st) ++ webhookBuffer st ++ map (embedOf this) subs)%list.
Proof.
  induction subs as [|s rest IH]; intros Hreg st Hroom r n st'.
  - subst st' r n. cbn [hookAll ret finalState List.length map].
    rewrite Nat.add_0_r, Nat.mod_small, Nat.div_small, app_nil_r by lia.
    repeat split; lia.
  - subst st' r n. cbn [allRegular forallb] in Hreg.
    apply andb_prop in Hreg as [Hs Hrest]. apply negb_true_iff in Hs.
    cbn [hookAll List.length map].
    destruct (hook_effect s st Hs Hroom) as (Hrun & Hlen & Hposts & Hall).
    set (st1 := finalState (hook err fr this s st)) in *.
    assert (Hroom1 : (List.length (webhookBuffer st1) < 8)%nat)
      by (rewrite Hlen; apply Nat.mod_upper_bound; lia).
    destruct (IH Hrest st1 Hroom1) as (Hrun' & Hlen' & Hposts' & Hall').
    set (st2 := finalState (hookAll err fr this rest st1)) in *.
    assert (Hboth : (hook err fr this s ;; hookAll err fr this rest) st = Returned tt st2)
      by (unfold bind; rewrite Hrun; exact Hrun').
    rewrite Hboth. cbn [finalState].
    set (r := List.length (webhookBuffer st)) in *.
    rewrite Hlen in Hlen', Hposts'.
    split; [reflexivity|]. split; [|split].
    + rewrite Hlen', Nat.Div0.add_mod_idemp_l. f_equal. lia.
    + rewrite Hposts', Hposts.
      replace (r + S (List.length rest))%nat
        with (S r / 8 * 8 + (S r mod 8 + List.length rest))%nat
        by (pose proof (Nat.div_mod_eq (S r) 8); lia).
      rewrite Nat.div_add_l by lia. lia.
    + rewrite Hall', app_assoc, Hall, <- !app_assoc. reflexivity.
Qed.

End HookRun.

(** X12: the webhook sink delivers in order and in eights.  With a url and
    the discord provider, N records (none at the internal level) handed one
    after the other to an empty batch cause N div 8 requests and leave
    N mod 8 embeds in the batch; the embeds of the requests, one request
    after the other, followed by the batch, are the embeds of the records in
    submission order, none lost, none repeated; neither [this.error] nor
    [this.fatalRate] is called. *)
Theorem webhook_sink_delivers_in_order :
  forall (err fr : JsValue -> JsValue -> M unit) (this : Logger) (target : string)
         (subs : list Submission) (st : State),
    url (webhookSettings this) = Some target ->
    form (webhookSettings this) = Discord ->
    allRegular subs = true ->
    webhookBuffer st = [] ->
    let out := hookAll err fr this subs st in
    returned out = true
    /\ List.length (webhookBuffer (finalState out)) = (List.length subs mod 8)%nat
    /\ List.length (posts (trace (finalState out)))
       = (List.length (posts (trace st)) + List.length subs / 8)%nat
    /\ (delivered (trace (finalState out)) ++ webhookBuffer (finalState out)
        = delivered (trace st) ++ map (embedOf this) subs)%list.
Proof.
  intros err fr this target subs st Hurl Hform Hreg Hempty. cbv zeta.
  destruct (hookAll_effect err fr this target Hurl Hform subs Hreg st)
    as (Hrun & Hlen & Hposts & Hall); [rewrite Hempty; cbn; lia|].
  rewrite Hempty in *. cbn [List.length Nat.add app] in *.
  rewrite Hrun. cbn [returned finalState] in *. repeat split; assumption.
Qed.

Lemma webhook_sink_delivers_in_order_witness :
  let subs := map sampleSubmission ["1"; "2"; "3"; "4"; "5"; "6"; "7"; "8"; "9"] in
  let out := hookAll (error sampleDateFormat sampleISO sampleClock sampleDisk 1 sampleDiscordLogger)
                     (fatalRate sampleDateFormat sampleISO sampleClock sampleDisk 1 sampleDiscordLogger)
                     sampleDiscordLogger subs initialState in
  List.length (webhookBuffer (finalState out)) = 1%nat
  /\ List.length (posts (trace (finalState out))) = 1%nat
  /\ (delivered (trace (finalState out)) ++ webhookBuffer (finalState out)
      = map (embedOf sampleDiscordLogger) subs)%list.
Proof.
  cbv zeta.
  pose proof (webhook_sink_delivers_in_order
                (error sampleDateFormat sampleISO sampleClock sampleDisk 1 sampleDiscordLogger)
                (fatalRate sampleDateFormat sampleISO sampleClock sampleDisk 1 sampleDiscordLogger)
                sampleDiscordLogger "https://discord.example/api/webhooks/1"
                (map sampleSubmission ["1"; "2"; "3"; "4"; "5"; "6"; "7"; "8"; "9"])
                initialState eq_refl eq_refl eq_refl eq_refl) as H.
  cbv zeta in H. destruct H as (_ & Hlen & Hposts & Hall).
  split; [exact Hlen | split; [exact Hposts | exact Hall]].
Defined.

(** ** One record through the three sinks *)

Lemma postOnly_observations (events : list Event) :
  forallb isPost events = true ->
  fileEvents events = [] /\ (forall lvl, stdoutAt lvl events = []).
Proof.
  induction events as [|e rest IH]; [repeat split|].
  cbn [forallb]. intros H. apply andb_prop in H as [He Hrest].
  destruct (IH Hrest) as (Hfiles & Hout).
  destruct e; try discriminate He. cbn [fileEvents stdoutAt]. now split.
Qed.

Lemma sendWebhook_quiet_posts (err fr : JsValue -> JsValue -> M unit) (this : Logger)
    (t : Z) (fd m : string) (lvl : LogLevel) (d line : string) (st : State) :
  webhookQuiet this lvl st = true ->
  exists st' posted,
    when (enable (webhookSettings this)) (sendWebhook err fr this t fd m lvl d line) st
    = Returned tt st'
    /\ trace st' = (trace st ++ posted)%list
    /\ forallb isPost posted = true
    /\ logBuffer st' = logBuffer st.
Proof.
  unfold webhookQuiet. intros Hquiet.
  assert (Hstill : exists st' posted,
             Returned tt st = Returned tt st'
             /\ trace st' = (trace st ++ posted)%list
             /\ forallb isPost posted = true /\ logBuffer st' = logBuffer st).
  { exists st, []. rewrite app_nil_r. repeat split. }
  destruct (enable (webhookSettings this)); cbn [when]; [|exact Hstill].
  cbn [negb orb] in Hquiet.
  destruct (LogLevel_eqb lvl FATALRATE) eqn:Hlvl.
  { unfold sendWebhook. rewrite Hlvl. exact Hstill. }
  destruct (url (webhookSettings this)) as [target|] eqn:Hurl.
  2:{ unfold sendWebhook. rewrite Hlvl, Hurl. exact Hstill. }
  cbn [orb] in Hquiet.
  destruct (form (webhookSettings this)) eqn:Hform; [discriminate Hquiet|].
  cbn [andb] in Hquiet. apply Nat.ltb_lt in Hquiet.
  rewrite (sendWebhook_discord err fr this t fd m lvl d line st target Hlvl Hurl Hform).
  cbv zeta.
  destruct (Nat.ltb_spec 8 (S (List.length (webhookBuffer st)))); [lia|].
  destruct (S (List.length (webhookBuffer st)) =? 8)%nat.
  - eexists. eexists. split; [reflexivity|].
    cbn [trace emit setWebhookBuffer logBuffer]. split; [reflexivity|]. split; reflexivity.
  - eexists. exists []. split; [reflexivity|].
    cbn [trace setWebhookBuffer logBuffer]. rewrite app_nil_r. repeat split.
Qed.

(** With a webhook sink that raises no record, the sinks run to their end
    unless the file sink throws: the console line if the level is printed,
    the file sink if it is stored, then at most a request. *)
Lemma sinks_quiet dateFormat toISOString mkdirSync (err fr : JsValue -> JsValue -> M unit)
    (this : Logger) (lvl : LogLevel) (t : Z) (m d : string) (st : State) :
  webhookQuiet this lvl st = true ->
  let fd := dateFormat t (dateformat (formatSettings this)) in
  let line := formTxtLog this fd m lvl d in
  let printed := if consoleGuard this lvl then emit (Stdout lvl line) st else st in
  match (if fileGuard this lvl
         then filed dateFormat toISOString mkdirSync this t fd m lvl d line printed
         else Returned tt printed) with
  | Returned _ stored =>
      exists st' posted,
        sinks dateFormat toISOString mkdirSync err fr this lvl t m d st = Returned tt st'
        /\ trace st' = (trace stored ++ posted)%list
        /\ forallb isPost posted = true
        /\ logBuffer st' = logBuffer stored
  | Thrown refused =>
      sinks dateFormat toISOString mkdirSync err fr this lvl t m d st = Thrown refused
  end.
Proof.
  intros Hquiet fd line printed. unfold sinks. fold fd. fold line.
  rewrite bind_when_modify. cbv beta. fold printed.
  assert (Hq : forall s, webhookBuffer s = webhookBuffer st -> webhookQuiet this lvl s = true).
  { intros s Hs. unfold webhookQuiet in *. now rewrite Hs. }
  assert (Hprinted : webhookBuffer printed = webhookBuffer st).
  { subst printed. now destruct (consoleGuard this lvl). }
  destruct (fileGuard this lvl).
  - unfold bind. cbn [when]. rewrite logToFile_filed.
    pose proof (proj1 (proj2 (filed_appends dateFormat toISOString mkdirSync this t fd m lvl d
                                line printed))) as Hhook.
    cbv zeta in Hhook.
    destruct (filed dateFormat toISOString mkdirSync this t fd m lvl d line printed)
      as [[] stored|refused]; [|reflexivity].
    cbn [finalState] in Hhook.
    destruct (sendWebhook_quiet_posts err fr this t fd m lvl d line stored
                (Hq _ (eq_trans Hhook Hprinted)))
      as (st' & posted & Hrun & Htrace & Hposted & Hbuf).
    exists st', posted. split; [exact Hrun | repeat split; assumption].
  - rewrite bind_when_false.
    destruct (sendWebhook_quiet_posts err fr this t fd m lvl d line printed (Hq _ Hprinted))
      as (st' & posted & Hrun & Htrace & Hposted & Hbuf).
    exists st', posted. split; [exact Hrun | repeat split; assumption].
Qed.

(** X13: a record whose level the console shows is printed exactly once.
    A print call with values that serialise, at a level that is not in the
    format ignore-set and with the console enabled, adds to the console
    lines of that level exactly one line: the text line rendered from the
    instant read at the start of the call, the converted message and the
    converted data (the webhook sink being one that raises no record). *)
Theorem shown_record_is_printed_once :
  forall dateFormat toISOString clock mkdirSync (depth : nat) (this : Logger) (lvl : LogLevel)
         (msg data : JsValue) (st : State),
    consoleGuard this lvl = true ->
    clean msg = true -> clean data = true ->
    webhookQuiet this lvl st = true ->
    stdoutAt lvl
      (trace (finalState (sendLog dateFormat toISOString clock mkdirSync (S depth) this lvl
                                  msg data st)))
    = (stdoutAt lvl (trace st)
       ++ [formTxtLog this
             (dateFormat (clock (ticks st)) (dateformat (formatSettings this)))
             (convert msg) lvl (convert data)])%list.
Proof.
  intros dateFormat toISOString clock mkdirSync depth this lvl msg data st
         Hconsole Hmsg Hdata Hquiet.
  rewrite sendLog_clean by assumption. unfold tryCatch.
  pose proof (sinks_quiet dateFormat toISOString mkdirSync
              (sendLog dateFormat toISOString clock mkdirSync depth this ERROR)
              (sendLog dateFormat toISOString clock mkdirSync depth this FATALRATE)
              this lvl (clock (ticks st)) (convert msg) (convert data) (tick st) Hquiet)
    as Hsinks.
  cbv zeta in Hsinks. rewrite Hconsole in Hsinks.
  assert (Hlvl : LogLevel_eqb lvl lvl = true) by now destruct lvl.
  assert (Hline : forall text,
             stdoutAt lvl (trace (emit (Stdout lvl text) (tick st)))
             = (stdoutAt lvl (trace st) ++ [text])%list).
  { intros text. cbn [trace emit tick]. rewrite stdoutAt_app. cbn [stdoutAt].
    now rewrite Hlvl. }
  destruct (fileGuard this lvl).
  - match type of Hsinks with
    | match filed ?a ?b ?c ?e ?f ?g ?h ?i ?j ?k ?s with _ => _ end =>
        pose proof (filed_stdout a b c e f g h i j k s lvl) as Hout;
        destruct (filed a b c e f g h i j k s) as [[] stored|refused]
    end; cbn [finalState] in Hout.
    + destruct Hsinks as (st' & posted & -> & Htrace & Hposted & _).
      cbn [finalState]. rewrite Htrace, stdoutAt_app.
      rewrite (proj2 (postOnly_observations posted Hposted)), app_nil_r.
      rewrite Hout. apply Hline.
    + rewrite Hsinks. unfold modify. cbn [finalState trace emit].
      rewrite stdoutAt_app. cbn [stdoutAt]. rewrite app_nil_r, Hout. apply Hline.
  - destruct Hsinks as (st' & posted & -> & Htrace & Hposted & _).
    cbn [finalState]. rewrite Htrace, stdoutAt_app.
    rewrite (proj2 (postOnly_observations posted Hposted)), app_nil_r.
    apply Hline.
Qed.

Lemma shown_record_is_printed_once_witness :
  stdoutAt INFO
    (trace (finalState (sendLog sampleDateFormat sampleISO sampleClock sampleDisk 1 sampleLogger INFO
                                (JString "hello") (JObject [("a", JNumber 1)])
                                initialState)))
  = ([] ++ [formTxtLog sampleLogger
              (sampleDateFormat (sampleClock 0) (dateformat (formatSettings sampleLogger)))
              (convert (JString "hello")) INFO
              (convert (JObject [("a", JNumber 1)]))])%list.
Proof.
  exact (shown_record_is_printed_once sampleDateFormat sampleISO sampleClock sampleDisk 0%nat
           sampleLogger INFO (JString "hello") (JObject [("a", JNumber 1)]) initialState
           eq_refl eq_refl eq_refl eq_refl).
Defined.

(** X14: outside batch mode a stored record is written through, or not at
    all.  A print call with values that serialise, at a level that is
    stored, asks for the bucket directory of the instant read at the start
    of the call.  When that directory is there or can be created (and the
    webhook sink raises no record), the call appends, per enabled format,
    the text line that is printed on the console followed by a line break
    and the JSON line followed by a line break; it writes nothing else and
    buffers nothing.  When the directory is missing and cannot be created,
    the call writes nothing and buffers nothing, reports on the error
    console, and never reaches the webhook sink: after the console line of
    the record the only effect is that report. *)
Theorem stored_record_is_written_through :
  forall dateFormat toISOString clock mkdirSync (depth : nat) (this : Logger) (lvl : LogLevel)
         (msg data : JsValue) (st : State),
    batching this = false ->
    fileGuard this lvl = true ->
    clean msg = true -> clean data = true ->
    let st' := finalState (sendLog dateFormat toISOString clock mkdirSync (S depth) this lvl
                                   msg data st) in
    let t := clock (ticks st) in
    let fd := dateFormat t (dateformat (formatSettings this)) in
    let line := formTxtLog this fd (convert msg) lvl (convert data) in
    if mkdirSync (S (ticks st)) (fst (generatePaths dateFormat this t))
    then
      webhookQuiet this lvl st = true ->
      logBuffer st' = logBuffer st
      /\ fileEvents (trace st')
         = (fileEvents (trace st)
            ++ [EnsureDir (fst (generatePaths dateFormat this t))]
            ++ (if txt (storageSettings this)
                then [Append (snd (generatePaths dateFormat this t) ++ "txt.log")
                             (line ++ newline)]
                else [])
            ++ (if json (storageSettings this)
                then [Append (snd (generatePaths dateFormat this t) ++ "json.log")
                             (jsonLine toISOString this t fd (convert msg) lvl (convert data)
                              ++ newline)]
                else []))%list
    else
      trace st'
      = (trace st
         ++ (if consoleGuard this lvl then [Stdout lvl line] else [])
         ++ [ConsoleError "There was an issue logging data"])%list
      /\ logBuffer st' = logBuffer st
      /\ webhookBuffer st' = webhookBuffer st.
Proof.
  intros dateFormat toISOString clock mkdirSync depth this lvl msg data st
         Hoff Hfile Hmsg Hdata. cbv zeta.
  rewrite sendLog_clean by assumption. unfold tryCatch.
  destruct (mkdirSync (S (ticks st)) (fst (generatePaths dateFormat this (clock (ticks st)))))
    eqn:Hdir.
  - intros Hquiet.
    pose proof (sinks_quiet dateFormat toISOString mkdirSync
                (sendLog dateFormat toISOString clock mkdirSync depth this ERROR)
                (sendLog dateFormat toISOString clock mkdirSync depth this FATALRATE)
                this lvl (clock (ticks st)) (convert msg) (convert data) (tick st) Hquiet)
      as Hsinks.
    cbv zeta in Hsinks. rewrite Hfile in Hsinks.
    rewrite filed_dependable in Hsinks
      by (destruct (consoleGuard this lvl); cbn [ticks emit tick]; exact Hdir).
    destruct Hsinks as (st' & posted & -> & Htrace & Hposted & Hbuf).
    cbn [finalState]. rewrite Htrace, Hbuf, fileEvents_app.
    rewrite (proj1 (postOnly_observations posted Hposted)), app_nil_r.
    match goal with |- context [submitted dateFormat toISOString this ?t ?fd ?m lvl ?d ?line ?s] =>
      destruct (submitted_write_through dateFormat toISOString this t fd m lvl d line s Hoff)
        as [Hb Ht] end.
    rewrite Hb, Ht. rewrite !fileEvents_app.
    assert (Hprinted :
              forall s0 line0,
                fileEvents (trace (if consoleGuard this lvl
                                   then emit (Stdout lvl line0) (tick s0) else tick s0))
                = fileEvents (trace s0)
                /\ logBuffer (if consoleGuard this lvl
                              then emit (Stdout lvl line0) (tick s0) else tick s0)
                   = logBuffer s0).
    { intros s0 line0. destruct (consoleGuard this lvl); cbn [trace emit tick logBuffer];
        rewrite ?fileEvents_app; cbn [fileEvents]; rewrite ?app_nil_r; split; reflexivity. }
    destruct (Hprinted st (formTxtLog this
                (dateFormat (clock (ticks st)) (dateformat (formatSettings this)))
                (convert msg) lvl (convert data))) as [-> ->].
    split; [reflexivity|]. f_equal.
    destruct (txt (storageSettings this)), (json (storageSettings this)); reflexivity.
  - unfold sinks. rewrite bind_when_modify. cbv beta. rewrite Hfile.
    unfold bind. cbn [when].
    rewrite (logToFile_write_through dateFormat toISOString mkdirSync _ this _ _ _ lvl _ _ _ Hoff).
    destruct (consoleGuard this lvl); cbn [ticks emit tick]; rewrite Hdir;
      unfold modify; cbn [finalState trace emit tick logBuffer webhookBuffer];
      rewrite <- ?app_assoc; repeat split.
Qed.

Lemma stored_record_is_written_through_witness :
  let this := sampleLoggerWith (sampleStorage Day Single 1) sampleDiscord in
  let st' := finalState (sendLog sampleDateFormat sampleISO sampleClock sampleDisk 1 this INFO
                                 (JString "hello") JUndefined initialState) in
  let refused := finalState (sendLog sampleDateFormat sampleISO sampleClock fullDisk 1 this
                                     INFO (JString "hello") JUndefined initialState) in
  (logBuffer st' = []
   /\ fileEvents (trace st')
      = [ EnsureDir "./logs/2024/06/";
          Append "./logs/2024/06/20.txt.log"
            ("[2024-06-20 17:39:05:514 GMT+0100] <Testing.testing even more> [INFO] hello"
             ++ newline);
          Append "./logs/2024/06/20.json.log"
            (jsonLine sampleISO this (sampleClock 0) "2024-06-20 17:39:05:514 GMT+0100"
                      "hello" INFO "" ++ newline) ])
  /\ (trace refused
      = [ Stdout INFO
            "[2024-06-20 17:39:05:514 GMT+0100] <Testing.testing even more> [INFO] hello";
          ConsoleError "There was an issue logging data" ]
      /\ logBuffer refused = []
      /\ webhookBuffer refused = []).
Proof.
  cbv zeta. split.
  - pose proof (stored_record_is_written_through sampleDateFormat sampleISO sampleClock sampleDisk
                  0%nat (sampleLoggerWith (sampleStorage Day Single 1) sampleDiscord)
                  INFO (JString "hello") JUndefined initialState
                  eq_refl eq_refl eq_refl eq_refl) as H.
    cbv zeta in H. cbn [sampleDisk] in H. destruct (H eq_refl) as [Hbuf Hfiles].
    split; [exact Hbuf | rewrite Hfiles; reflexivity].
  - exact (stored_record_is_written_through sampleDateFormat sampleISO sampleClock fullDisk
             0%nat (sampleLoggerWith (sampleStorage Day Single 1) sampleDiscord)
             INFO (JString "hello") JUndefined initialState
             eq_refl eq_refl eq_refl eq_refl).
Defined.

(** ** Shutdown: the last request and the exit timer *)

(** X15: shutdown sends what is left and ends the process only afterwards.
    When a url is set and the batch is not empty, [exit] issues exactly one
    request carrying the whole batch (however few embeds it holds), arms no
    exit timer itself, and the timer is armed exactly once when the request
    settles, whether by a response or by a transport error; otherwise [exit]
    issues no request and arms the timer at once. *)
Theorem shutdown_sends_the_rest_then_arms_the_timer :
  forall dateFormat toISOString clock mkdirSync (stack : nat) (this : Logger) (reason : JsValue)
         (st : State),
    let st1 := finalState (exit dateFormat toISOString clock mkdirSync stack this reason st) in
    if exitSends this st
    then posts (trace st1) = (posts (trace st) ++ [(FromExit, webhookBuffer st)])%list
         /\ timers (trace st1) = timers (trace st)
         /\ (forall r, timers (trace (finalState (exit_settled r st1)))
                       = S (timers (trace st)))
    else posts (trace st1) = posts (trace st)
         /\ timers (trace st1) = S (timers (trace st)).
Proof.
  intros dateFormat toISOString clock mkdirSync stack this reason st. cbv zeta.
  rewrite exit_exits. cbn [finalState].
  destruct (exited_webhook dateFormat clock mkdirSync this reason st) as (_ & Hp & Ht).
  destruct (exitSends this st).
  - rewrite Hp, Ht, Nat.add_0_r. split; [reflexivity|]. split; [reflexivity|].
    intros r. unfold exit_settled, exit_resume, bind, when, modify, ret.
    destruct r as [status statusText|e]; [destruct (negb (status =? 204))|];
      cbn [finalState trace emit setWebhookBuffer];
      rewrite !timers_app, Ht; cbn [timers]; lia.
  - rewrite Hp, Ht, app_nil_r. split; [reflexivity | lia].
Qed.

(** X16: embeds that were buffered while a request of [sendWebhook] was in
    flight are discarded undelivered.  When the response arrives, whatever
    its status, the callback empties the batch (whatever it holds by then)
    without issuing a request, so neither that callback nor a shutdown that
    follows delivers those embeds. *)
Theorem late_response_discards_the_batch :
  forall dateFormat toISOString clock mkdirSync (depth stack : nat) (this : Logger)
         (status : Z) (statusText : string) (reason : JsValue) (st : State),
    let st1 := finalState (sendWebhook_settled dateFormat toISOString clock mkdirSync (S depth) this
                                               (Response status statusText) st) in
    let st2 := finalState (exit dateFormat toISOString clock mkdirSync stack this reason st1) in
    webhookBuffer st1 = []
    /\ delivered (trace st1) = delivered (trace st)
    /\ delivered (trace st2) = delivered (trace st).
Proof.
  intros dateFormat toISOString clock mkdirSync depth stack this status statusText reason st.
  cbv zeta.
  pose proof (sendWebhook_settled_response dateFormat toISOString clock mkdirSync depth this
                status statusText st) as Hempty.
  pose proof (sendWebhook_settled_posts dateFormat toISOString clock mkdirSync depth this
                (Response status statusText) st eq_refl) as Hposts.
  revert Hempty Hposts.
  generalize (finalState (sendWebhook_settled dateFormat toISOString clock mkdirSync (S depth) this
                                              (Response status statusText) st)).
  intros st1 Hempty Hposts.
  split; [exact Hempty|]. unfold delivered. rewrite Hposts. split; [reflexivity|].
  rewrite exit_exits. cbn [finalState].
  destruct (exited_webhook dateFormat clock mkdirSync this reason st1) as (_ & -> & _).
  unfold exitSends. rewrite Hempty, Hposts. cbn [List.length Nat.ltb Nat.leb].
  destruct (url (webhookSettings this)); now rewrite app_nil_r.
Qed.

(** ** The overflow report cannot be reached *)

(** X17: in single-threaded use the overflow branch of [sendWebhook] is
    never taken.  In every state a logger can reach from its initial state
    the outcome of [sendWebhook] does not depend on what [this.fatalRate]
    would do: the batch never exceeds 8 items after an append, so the report
    of a batch too large to send is never made. *)
Theorem webhook_overflow_is_unreachable :
  forall dateFormat toISOString clock mkdirSync (stack : nat) (this : Logger)
         (actions : list Action) (err fr fr' : JsValue -> JsValue -> M unit)
         (t : Z) (fd m : string) (lvl : LogLevel) (d line : string),
    let st := run dateFormat toISOString clock mkdirSync stack this actions initialState in
    sendWebhook err fr this t fd m lvl d line st
    = sendWebhook err fr' this t fd m lvl d line st
    /\ (List.length (webhookBuffer st) + 1 <= 8)%nat.
Proof.
  intros dateFormat toISOString clock mkdirSync stack this actions err fr fr' t fd m lvl d line.
  cbv zeta.
  assert (Hbounded : batchBounded
                       (run dateFormat toISOString clock mkdirSync stack this actions initialState)).
  { apply run_bounded. split; [cbn; lia | constructor]. }
  revert Hbounded.
  generalize (run dateFormat toISOString clock mkdirSync stack this actions initialState).
  intros st [Hlen _]. split; [|lia].
  destruct (LogLevel_eqb lvl FATALRATE) eqn:Hlvl.
  { unfold sendWebhook. now rewrite Hlvl. }
  destruct (url (webhookSettings this)) as [target|] eqn:Hurl.
  2:{ unfold sendWebhook. now rewrite Hlvl, Hurl. }
  destruct (form (webhookSettings this)) eqn:Hform.
  { unfold sendWebhook. now rewrite Hlvl, Hurl, Hform. }
  rewrite !(sendWebhook_discord err _ this t fd m lvl d line st target Hlvl Hurl Hform).
  cbv zeta.
  destruct (Nat.ltb_spec 8 (S (List.length (webhookBuffer st)))); [lia | reflexivity].
Qed.

(** ** The older class *)

Lemma legacy_failure_is_thrown dateFormat clock (this : Logger) :
  forall (stack : nat) (lvl : LogLevel) (msg data : JsValue) (st : State),
    clean msg = true -> isObject data = true -> alwaysThrows data ->
    exists s,
      Legacy.sendLog dateFormat clock stack this lvl msg data st = Thrown s
      /\ trace s = trace st.
Proof.
  induction stack as [|depth IH]; intros lvl msg data st Hmsg Hobj Hthrows.
  - exists st. split; reflexivity.
  - destruct (IH ERROR (JString "Datatype of object is not json") (wrapData data)
                (tick st) eq_refl eq_refl (wrapData_throws data Hthrows))
      as (s & Hinner & Htrace).
    exists s. split; [|exact Htrace].
    cbn [Legacy.sendLog]. unfold Legacy.sendLogBody.
    rewrite (handleLogDatatype_clean _ msg) by assumption.
    rewrite (handleLogDatatype_throwing _ data) by assumption.
    unfold bind, newDate, ret. now rewrite Hinner.
Qed.

(** X18: the older class lets a failed conversion escape.  Its [sendLog]
    has no [try]/[catch], so a print call whose data is an array or object
    that [JSON.stringify] rejects throws to its caller at every stack depth,
    after printing nothing (the chain of ERROR reports it starts ends by
    exhausting the stack); with a message and data that serialise the call
    returns and its only effect is the console line of the record, printed
    when the console is enabled and the level is not ignored. *)
Theorem legacy_print_lets_the_failure_escape :
  forall dateFormat clock (this : Logger),
    (forall (stack : nat) (lvl : LogLevel) (msg data : JsValue) (st : State),
        clean msg = true -> isObject data = true -> alwaysThrows data ->
        let out := Legacy.sendLog dateFormat clock stack this lvl msg data st in
        returned out = false /\ trace (finalState out) = trace st)
    /\ (forall (depth : nat) (lvl : LogLevel) (msg data : JsValue) (st : State),
           clean msg = true -> clean data = true ->
           Legacy.sendLog dateFormat clock (S depth) this lvl msg data st
           = Returned tt
               (let line :=
                  formTxtLog this
                    (dateFormat (clock (ticks st)) (dateformat (formatSettings this)))
                    (convert msg) lvl (convert data) in
                if consoleGuard this lvl then emit (Stdout lvl line) (tick st)
                else tick st)).
Proof.
  intros dateFormat clock this. split.
  - intros stack lvl msg data st Hmsg Hobj Hthrows. cbv zeta.
    destruct (legacy_failure_is_thrown dateFormat clock this stack lvl msg data st
                Hmsg Hobj Hthrows) as (s & -> & Htrace).
    split; [reflexivity | exact Htrace].
  - intros depth lvl msg data st Hmsg Hdata.
    cbn [Legacy.sendLog]. unfold Legacy.sendLogBody.
    rewrite !handleLogDatatype_clean by assumption.
    unfold bind, newDate, ret, when, modify. fold (consoleGuard this lvl).
    destruct (consoleGuard this lvl); reflexivity.
Qed.

Lemma legacy_print_lets_the_failure_escape_witness :
  (returned (Legacy.sendLog sampleDateFormat sampleClock 7 sampleLogger INFO
                            (JString "hello") bigintObject initialState) = false
   /\ trace (finalState (Legacy.sendLog sampleDateFormat sampleClock 7 sampleLogger INFO
                                        (JString "hello") bigintObject initialState))
      = [])
  /\ returned (Legacy.sendLog sampleDateFormat sampleClock 1 sampleLogger INFO
                              (JString "hello") JUndefined initialState) = true.
Proof.
  split.
  - exact (proj1 (legacy_print_lets_the_failure_escape sampleDateFormat sampleClock
                    sampleLogger)
             7%nat INFO (JString "hello") bigintObject initialState eq_refl eq_refl
             (fun gap indent => eq_refl)).
  - rewrite (proj2 (legacy_print_lets_the_failure_escape sampleDateFormat sampleClock
                      sampleLogger)
               0%nat INFO (JString "hello") JUndefined initialState eq_refl eq_refl).
    reflexivity.
Defined.
